(** * CANNEX experiment sequence engine: a shallow embedding

    The development follows [src/cannex/core/experiment_sequence.py]:
    [ExperimentTask], [ExperimentSequence], [SequenceExecutor.run] and
    [SequenceManager].  Python builtins the engine calls ([int], [float],
    [str.split], [str.strip], [time.sleep]) live in [Module Py]; the part of
    Qt's [QDateTime] the engine uses lives in [Module Qt]. *)

From Stdlib Require Import ZArith Lia List String Ascii Bool SpecFloat.
From stdpp Require Import base option list functions gmap strings.

Local Open Scope Z_scope.

(** ** Python builtins *)

Module Py.

(** Python floats are IEEE binary64 numbers. *)
Definition prec : Z := 53.
Definition emax : Z := 1024.

(** The values that flow through task parameters and results: the JSON-like
    scalars, and [VOther] for any other object (a list, a dict, a driver
    object), of which the engine only observes its truth value. *)
Inductive value :=
| VNone
| VBool (b : bool)
| VInt (z : Z)
| VFloat (f : spec_float)
| VStr (s : string)
| VOther (truthy : bool) (ident : nat).

(** Exceptions, kept symbolic: which builtin or collaborator raised, and on
    what. *)
Inductive exn :=
| ValueError_invalid_instrument        (* ValueError("Invalid instrument or function") *)
| ValueError_int (v : value)           (* int(v): invalid literal, or NaN *)
| TypeError_int (v : value)            (* int(v): not a number or a string *)
| OverflowError_int (v : value)        (* int(inf) *)
| ValueError_float (s : string)        (* float(s): could not convert *)
| ValueError_sleep (v : value)         (* time.sleep: negative or NaN length *)
| TypeError_sleep (v : value)          (* time.sleep: not a number *)
| IndexError_pop (i : Z)               (* list.pop(i): index out of range *)
| IndexError_item (i : Z)              (* l[i]: index out of range *)
| RaisedByInstrument (msg : string).   (* whatever run_function() raised *)

(** [bool(v)] *)
Definition truthy (v : value) : bool :=
  match v with
  | VNone => false
  | VBool b => b
  | VInt z => negb (z =? 0)
  | VFloat (S754_zero _) => false
  | VFloat _ => true
  | VStr s => negb (String.eqb s "")
  | VOther t _ => t
  end.

(** Truth value of [d.get(k)] and of [d.get(k, False)]: a missing key gives
    [None], respectively [False], both falsy. *)
Definition get_truthy (d : gmap string value) (k : string) : bool :=
  match d !! k with
  | Some v => truthy v
  | None => false
  end.

(** *** Characters and strings *)

Definition is_digit (c : ascii) : bool :=
  let n := nat_of_ascii c in (48 <=? n)%nat && (n <=? 57)%nat.

Definition digit_value (c : ascii) : Z := Z.of_nat (nat_of_ascii c) - 48.

(** [c.isspace()] on the ASCII range: TAB..CR, FS..US and the blank. *)
Definition is_space (c : ascii) : bool :=
  let n := nat_of_ascii c in
  ((9 <=? n)%nat && (n <=? 13)%nat) || ((28 <=? n)%nat && (n <=? 32)%nat).

Fixpoint lstrip (s : string) : string :=
  match s with
  | String c s' => if is_space c then lstrip s' else s
  | EmptyString => EmptyString
  end.

Fixpoint rstrip (s : string) : string :=
  match s with
  | String c s' =>
      match rstrip s' with
      | EmptyString => if is_space c then EmptyString else String c EmptyString
      | r => String c r
      end
  | EmptyString => EmptyString
  end.

(** [s.strip()] *)
Definition strip (s : string) : string := rstrip (lstrip s).

(** ["==" in s] *)
Fixpoint contains_eqeq (s : string) : bool :=
  match s with
  | String "=" (String "=" _) => true
  | String _ s' => contains_eqeq s'
  | EmptyString => false
  end.

(** [s.split("==")]: non-overlapping occurrences, scanned left to right. *)
Fixpoint split_eqeq (s : string) : list string :=
  match s with
  | String "=" (String "=" rest) => EmptyString :: split_eqeq rest
  | String c rest =>
      match split_eqeq rest with
      | p :: ps => String c p :: ps
      | [] => [String c EmptyString]
      end
  | EmptyString => [EmptyString]
  end.

Definition lower (c : ascii) : ascii :=
  let n := nat_of_ascii c in
  if (65 <=? n)%nat && (n <=? 90)%nat then ascii_of_nat (n + 32) else c.

Fixpoint lower_string (s : string) : string :=
  match s with
  | String c s' => String (lower c) (lower_string s')
  | EmptyString => EmptyString
  end.

(** *** Numeric literals *)

(** The longest prefix of the form digit (["_"] digit)*, as Python's numeric
    literals allow it: its value continuing [acc], its number of digits, and
    the rest of the text.  [n] counts the digits read so far in this run: an
    underscore is only allowed between two digits. *)
Fixpoint scan_digits (acc : Z) (n : nat) (s : string) : Z * nat * string :=
  match s with
  | String c s' =>
      if is_digit c then scan_digits (10 * acc + digit_value c) (S n) s'
      else if Ascii.eqb c "_" && negb (n =? 0)%nat then
        match s' with
        | String d s'' =>
            if is_digit d then scan_digits (10 * acc + digit_value d) (S n) s''
            else (acc, n, s)
        | EmptyString => (acc, n, s)
        end
      else (acc, n, s)
  | EmptyString => (acc, n, s)
  end.

(** An optional sign: [true] when negative. *)
Definition scan_sign (s : string) : bool * string :=
  match s with
  | String "-" s' => (true, s')
  | String "+" s' => (false, s')
  | _ => (false, s)
  end.

(** [int(s)] for a string, base 10, on ASCII digits; [None] stands for
    [ValueError]. *)
Definition int_of_string (s : string) : option Z :=
  let '(neg, body) := scan_sign (strip s) in
  match scan_digits 0 0 body with
  | (z, S _, EmptyString) => Some (if neg then - z else z)
  | _ => None
  end.

(** The binary64 number nearest to [m * 10 ^ e] (ties to even), [m > 0].
    For a negative exponent the quotient is taken with at least 64
    significant bits and a sticky last bit, so that the one rounding of
    [binary_normalize] is the correct one. *)
Definition float_of_decimal (neg : bool) (m e : Z) : spec_float :=
  if m =? 0 then S754_zero neg
  else
    let sign := fun z : Z => if neg then - z else z in
    if 0 <=? e then binary_normalize prec emax (sign (m * 10 ^ e)) 0 neg
    else
      let d := 10 ^ (- e) in
      let s := Z.max 0 (Z.log2 d + 66 - Z.log2 m) in
      let q := (m * 2 ^ s) / d in
      let r := (m * 2 ^ s) mod d in
      let q' := 2 * q + (if r =? 0 then 0 else 1) in
      binary_normalize prec emax (sign q') (- s - 1) neg.

(** [float(s)] for a string, on ASCII digits; [None] stands for
    [ValueError]. *)
Definition float_of_string (s : string) : option spec_float :=
  let '(neg, body) := scan_sign (strip s) in
  let low := lower_string body in
  if String.eqb low "inf" || String.eqb low "infinity" then Some (S754_infinity neg)
  else if String.eqb low "nan" then Some S754_nan
  else
    let '(ip, ni, r1) := scan_digits 0 0 body in
    let '(m, nd, nf, r2) :=
      match r1 with
      | String "." r =>
          let '(m, nf, r') := scan_digits ip 0 r in (m, (ni + nf)%nat, nf, r')
      | _ => (ip, ni, 0%nat, r1)
      end in
    match nd with
    | O => None
    | S _ =>
        match r2 with
        | EmptyString => Some (float_of_decimal neg m (- Z.of_nat nf))
        | String c r =>
            if Ascii.eqb (lower c) "e" then
              let '(eneg, r') := scan_sign r in
              match scan_digits 0 0 r' with
              | (ev, S _, EmptyString) =>
                  Some (float_of_decimal neg m ((if eneg then - ev else ev) - Z.of_nat nf))
              | _ => None
              end
            else None
        end
    end.

(** [int(f)] for a float: truncation toward zero. *)
Definition int_of_float (f : spec_float) : exn + Z :=
  match f with
  | S754_zero _ => inr 0
  | S754_finite s m e =>
      let a := if 0 <=? e then Z.pos m * 2 ^ e else Z.pos m / 2 ^ (- e) in
      inr (if s then - a else a)
  | S754_infinity _ => inl (OverflowError_int (VFloat f))
  | S754_nan => inl (ValueError_int (VFloat f))
  end.

(** [int(v)] *)
Definition int_of_value (v : value) : exn + Z :=
  match v with
  | VBool b => inr (Z.b2z b)
  | VInt z => inr z
  | VFloat f => int_of_float f
  | VStr s =>
      match int_of_string s with
      | Some z => inr z
      | None => inl (ValueError_int v)
      end
  | VNone | VOther _ _ => inl (TypeError_int v)
  end.

(** [time.sleep(v)]: the wait itself leaves no trace in the engine's state;
    what matters is whether the call raises.  The overflow of durations too
    long for the platform clock is not modelled. *)
Definition sleep (v : value) : option exn :=
  match v with
  | VBool _ => None
  | VInt z => if z <? 0 then Some (ValueError_sleep v) else None
  | VFloat S754_nan => Some (ValueError_sleep v)
  | VFloat f => if SFltb f (S754_zero false) then Some (ValueError_sleep v) else None
  | VNone | VStr _ | VOther _ _ => Some (TypeError_sleep v)
  end.

(** [l.pop(i)] on a list, returning the shortened list: a negative index
    counts from the end, an index out of range raises [IndexError]. *)
Definition list_pop {A} (l : list A) (i : Z) : exn + list A :=
  let n := Z.of_nat (length l) in
  let j := if i <? 0 then i + n else i in
  if (0 <=? j) && (j <? n) then inr (delete (Z.to_nat j) l)
  else inl (IndexError_pop i).

(** [l[i]] and [l[i] = x], with the same indexing rules. *)
Definition list_getitem {A} (l : list A) (i : Z) : exn + A :=
  let n := Z.of_nat (length l) in
  let j := if i <? 0 then i + n else i in
  match (if 0 <=? j then l !! Z.to_nat j else None) with
  | Some x => inr x
  | None => inl (IndexError_item i)
  end.

Definition list_setitem {A} (l : list A) (i : Z) (x : A) : exn + list A :=
  let n := Z.of_nat (length l) in
  let j := if i <? 0 then i + n else i in
  if (0 <=? j) && (j <? n) then inr (<[Z.to_nat j := x]> l)
  else inl (IndexError_item i).

End Py.

(** ** Qt's QDateTime, as far as the engine uses it

    [sequence.scheduled_time] is a [QDateTime] obtained from a date-time
    editor, hence in local time.  A date-time is modelled, as Qt stores it,
    by a Julian day number and the milliseconds since midnight, on the
    proleptic Gregorian calendar; time-zone transitions are outside the
    model. *)

Module Qt.

Inductive QDateTime :=
| Null
| At (jd : Z) (msecs : Z).

(** [bool(dt)], PyQt's [not dt.isNull()]. *)
Definition truthy (dt : QDateTime) : bool :=
  match dt with Null => false | At _ _ => true end.

Definition MSECS_PER_DAY : Z := 86400000.
Definition JULIAN_DAY_FOR_EPOCH : Z := 2440588.

Definition toMSecsSinceEpoch (dt : QDateTime) : Z :=
  match dt with
  | Null => 0
  | At jd ms => (jd - JULIAN_DAY_FOR_EPOCH) * MSECS_PER_DAY + ms
  end.

(** [a <= b] *)
Definition le (a b : QDateTime) : bool :=
  toMSecsSinceEpoch a <=? toMSecsSinceEpoch b.

Definition julianDayFromDate (year month day : Z) : Z :=
  let year := if year <? 0 then year + 1 else year in   (* there is no year 0 *)
  let a := (14 - month) / 12 in
  let y := year + 4800 - a in
  let m := month + 12 * a - 3 in
  day + (153 * m + 2) / 5 + 365 * y + y / 4 - y / 100 + y / 400 - 32045.

Definition getDateFromJulianDay (julianDay : Z) : Z * Z * Z :=
  let a := julianDay + 32044 in
  let b := (4 * a + 3) / 146097 in
  let c := a - (146097 * b) / 4 in
  let d := (4 * c + 3) / 1461 in
  let e := c - (1461 * d) / 4 in
  let m := (5 * e + 2) / 153 in
  let day := e - (153 * m + 2) / 5 + 1 in
  let month := m + 3 - 12 * (m / 10) in
  let year := 100 * b + d - 4800 + m / 10 in
  (if year <=? 0 then year - 1 else year, month, day).

Definition isLeapYear (y : Z) : bool :=
  ((y mod 4 =? 0) && negb (y mod 100 =? 0)) || (y mod 400 =? 0).

Definition daysInMonth (y m : Z) : Z :=
  if m =? 2 then (if isLeapYear y then 29 else 28)
  else if (m =? 4) || (m =? 6) || (m =? 9) || (m =? 11) then 30
  else 31.

Definition isValidDate (y m d : Z) : bool :=
  (1 <=? y) && (1 <=? m) && (m <=? 12) && (1 <=? d) && (d <=? daysInMonth y m).

(** [dt.addDays(n)] *)
Definition addDays (dt : QDateTime) (n : Z) : QDateTime :=
  match dt with
  | Null => Null
  | At jd ms => At (jd + n) ms
  end.

(** [dt.addMonths(n)]: the same day of the month [n] months later, or the
    last day of that month when it is shorter (years of the common era). *)
Definition addMonths (dt : QDateTime) (n : Z) : QDateTime :=
  match dt with
  | Null => Null
  | At jd ms =>
      let '(y, m, d) := getDateFromJulianDay jd in
      let total := 12 * y + (m - 1) + n in
      let y' := total / 12 in
      let m' := total mod 12 + 1 in
      At (julianDayFromDate y' m' (Z.min d (daysInMonth y' m'))) ms
  end.

Definition digit_char (z : Z) : ascii := ascii_of_nat (48 + Z.to_nat z).

Definition pad2 (z : Z) (rest : string) : string :=
  String (digit_char (z / 10)) (String (digit_char (z mod 10)) rest).

Definition pad4 (z : Z) (rest : string) : string :=
  pad2 (z / 100) (pad2 (z mod 100) rest).

(** [dt.toString(Qt.ISODate)]: [yyyy-MM-ddTHH:mm:ss], the milliseconds are
    not written; the empty string when the year does not fit four digits or
    the date-time is null. *)
Definition toString_ISODate (dt : QDateTime) : string :=
  match dt with
  | Null => EmptyString
  | At jd ms =>
      let '(y, m, d) := getDateFromJulianDay jd in
      if (0 <=? y) && (y <=? 9999) then
        let s := ms / 1000 in
        pad4 y (String "-" (pad2 m (String "-" (pad2 d (String "T"
          (pad2 (s / 3600) (String ":" (pad2 (s / 60 mod 60) (String ":"
          (pad2 (s mod 60) EmptyString))))))))))
      else EmptyString
  end.

(** Reading back a fixed number of decimal digits. *)
Fixpoint read_digits (n : nat) (acc : Z) (s : string) : option (Z * string) :=
  match n with
  | O => Some (acc, s)
  | S n' =>
      match s with
      | String c s' =>
          if Py.is_digit c then read_digits n' (10 * acc + Py.digit_value c) s'
          else None
      | EmptyString => None
      end
  end.

Definition expect (c : ascii) (s : string) : option string :=
  match s with
  | String c' s' => if Ascii.eqb c c' then Some s' else None
  | EmptyString => None
  end.

(** The fraction of a second after the decimal point, in milliseconds:
    one to three digits. *)
Definition read_fraction (s : string) : option Z :=
  match read_digits 3 0 s, read_digits 2 0 s, read_digits 1 0 s with
  | Some (z, EmptyString), _, _ => Some z
  | _, Some (z, EmptyString), _ => Some (10 * z)
  | _, _, Some (z, EmptyString) => Some (100 * z)
  | _, _, _ => None
  end.

(** The time of day [HH:mm[:ss[.zzz]]], in milliseconds since midnight. *)
Definition read_time (s : string) : option Z :=
  '(h, s) ← read_digits 2 0 s;
  s ← expect ":" s;
  '(mi, s) ← read_digits 2 0 s;
  '(sec, ms) ←
    match s with
    | EmptyString => Some (0, 0)
    | _ =>
        s ← expect ":" s;
        '(sec, s) ← read_digits 2 0 s;
        match s with
        | EmptyString => Some (sec, 0)
        | _ => s ← expect "." s; ms ← read_fraction s; Some (sec, ms)
        end
    end;
  if (h <? 24) && (mi <? 60) && (sec <? 60)
  then Some (((h * 60 + mi) * 60 + sec) * 1000 + ms)
  else None.

(** [QDateTime.fromString(s, Qt.ISODate)] on local-time texts: a date, alone
    or followed by [T] or a blank and a time of day.  Any other text (a
    zone suffix among them) gives the null date-time. *)
Definition fromString_ISODate (s : string) : QDateTime :=
  let parsed :=
    '(y, s) ← read_digits 4 0 s;
    s ← expect "-" s;
    '(m, s) ← read_digits 2 0 s;
    s ← expect "-" s;
    '(d, s) ← read_digits 2 0 s;
    if isValidDate y m d then
      match s with
      | EmptyString => Some (At (julianDayFromDate y m d) 0)
      | String c s' =>
          if Ascii.eqb c "T" || Ascii.eqb c " " then
            ms ← read_time s'; Some (At (julianDayFromDate y m d) ms)
          else None
      end
    else None in
  match parsed with
  | Some dt => dt
  | None => Null
  end.

End Qt.

(** ** Instruments

    The engine borrows its instruments: a task refers to one by reference.
    Of an instrument it uses the display name ([instrument_data["name"]]),
    the mutable [parameters] mapping, and [run_function()], which works on
    the parameters installed at the time of the call, returns a value or
    raises, and leaves a parameter mapping of its own choice behind. *)

Module Instrument.

Record t := {
  name : string;
  parameters : gmap string Py.value;
  run_function : gmap string Py.value -> (Py.exn + Py.value) * gmap string Py.value
}.

Definition set_parameters (p : gmap string Py.value) (i : t) : t :=
  {| name := name i; parameters := p; run_function := run_function i |}.

End Instrument.

(** Instrument objects live in a store; a reference is an address in it. *)
Abbreviation instrument_store := (nat -> Instrument.t).

(** ** ExperimentTask *)

Module ExperimentTask.

Inductive Status := Pending | Running | Complete | Error.

(** What [task.result] can hold.  The texts the engine formats are kept as
    terms: [Delayed v] is [f"Delayed {v} seconds"], [LoopStarted n] is
    [f"Loop started ({n} iterations)"], [LoopIteration i n] is
    [f"Loop iteration {i}/{n}"], [ConditionEvaluated b] is
    [f"Condition evaluated to {b}"], [UnknownTaskType ty] is
    [f"Unknown task type: {ty}"] and [Failed e] is [f"Error: {e}"]. *)
Inductive Result :=
| Returned (v : Py.value)
| Delayed (v : Py.value)
| LoopStarted (n : Z)
| LoopIteration (i n : Z)
| LoopComplete
| LoopEndWithoutStart
| ConditionEvaluated (b : bool)
| UnknownTaskType (ty : string)
| Failed (e : Py.exn).

Record t := {
  name : string;
  task_type : string;
  target : option nat;
  function : option string;
  parameters : gmap string Py.value;
  delay : Z;
  repeat : Z;
  condition : option string;
  result : option Result;
  status : Status
}.

(** [__init__] *)
Definition init (name task_type : string) (target : option nat)
    (function : option string) (parameters : option (gmap string Py.value))
    (delay repeat : Z) (condition : option string) : t :=
  {| name := name; task_type := task_type; target := target;
     function := function;
     parameters := match parameters with Some p => p | None => ∅ end;
     delay := delay; repeat := repeat; condition := condition;
     result := None; status := Pending |}.

(** The dictionary [to_dict] builds and [from_dict] reads.  A field read
    with [data.get] may be absent. *)
Record data := {
  d_name : string;
  d_task_type : string;
  d_target : option string;
  d_function : option string;
  d_parameters : option (gmap string Py.value);
  d_delay : option Z;
  d_repeat : option Z;
  d_condition : option string
}.

Definition to_dict (insts : instrument_store) (self : t) : data :=
  {| d_name := name self;
     d_task_type := task_type self;
     d_target :=
       match target self with
       | Some r => Some (Instrument.name (insts r))
       | None => None
       end;
     d_function := function self;
     d_parameters := Some (parameters self);
     d_delay := Some (delay self);
     d_repeat := Some (repeat self);
     d_condition := condition self |}.

(** [bool(s)] for an optional string. *)
Definition str_truthy (s : option string) : bool :=
  match s with
  | Some s => negb (String.eqb s "")
  | None => false
  end.

Definition from_dict (insts : instrument_store) (d : data)
    (instruments : list nat) : t :=
  let target :=
    if str_truthy (d_target d) then
      match d_target d with
      | Some n =>
          List.find (fun r => String.eqb (Instrument.name (insts r)) n) instruments
      | None => None
      end
    else None in
  init (d_name d) (d_task_type d) target (d_function d)
       (Some (default ∅ (d_parameters d)))
       (default 0 (d_delay d)) (default 1 (d_repeat d)) (d_condition d).

Definition set_status (st : Status) (self : t) : t :=
  {| name := name self; task_type := task_type self; target := target self;
     function := function self; parameters := parameters self;
     delay := delay self; repeat := repeat self; condition := condition self;
     result := result self; status := st |}.

Definition set_result (r : option Result) (self : t) : t :=
  {| name := name self; task_type := task_type self; target := target self;
     function := function self; parameters := parameters self;
     delay := delay self; repeat := repeat self; condition := condition self;
     result := r; status := status self |}.

End ExperimentTask.

(** ** ExperimentSequence *)

Module ExperimentSequence.

Inductive Status := Stopped | Running | Paused | Complete.

Record t := {
  name : string;
  tasks : list ExperimentTask.t;
  scheduled_time : option Qt.QDateTime;
  current_task : nat;
  status : Status;
  loop_stack : list (nat * Z * Z);   (* appended and popped at the end *)
  results : gmap string Py.value;
  recurrence_type : option string    (* an attribute set only when scheduling *)
}.

(** [__init__] *)
Definition init (name : string) : t :=
  {| name := name; tasks := []; scheduled_time := None; current_task := 0%nat;
     status := Stopped; loop_stack := []; results := ∅;
     recurrence_type := None |}.

Definition set_tasks (ts : list ExperimentTask.t) (self : t) : t :=
  {| name := name self; tasks := ts; scheduled_time := scheduled_time self;
     current_task := current_task self; status := status self;
     loop_stack := loop_stack self; results := results self;
     recurrence_type := recurrence_type self |}.

Definition set_scheduled_time (dt : option Qt.QDateTime) (self : t) : t :=
  {| name := name self; tasks := tasks self; scheduled_time := dt;
     current_task := current_task self; status := status self;
     loop_stack := loop_stack self; results := results self;
     recurrence_type := recurrence_type self |}.

Definition set_current_task (i : nat) (self : t) : t :=
  {| name := name self; tasks := tasks self; scheduled_time := scheduled_time self;
     current_task := i; status := status self;
     loop_stack := loop_stack self; results := results self;
     recurrence_type := recurrence_type self |}.

Definition set_status (st : Status) (self : t) : t :=
  {| name := name self; tasks := tasks self; scheduled_time := scheduled_time self;
     current_task := current_task self; status := st;
     loop_stack := loop_stack self; results := results self;
     recurrence_type := recurrence_type self |}.

Definition set_loop_stack (ls : list (nat * Z * Z)) (self : t) : t :=
  {| name := name self; tasks := tasks self; scheduled_time := scheduled_time self;
     current_task := current_task self; status := status self;
     loop_stack := ls; results := results self;
     recurrence_type := recurrence_type self |}.

Definition set_results (rs : gmap string Py.value) (self : t) : t :=
  {| name := name self; tasks := tasks self; scheduled_time := scheduled_time self;
     current_task := current_task self; status := status self;
     loop_stack := loop_stack self; results := rs;
     recurrence_type := recurrence_type self |}.

Definition set_recurrence_type (r : option string) (self : t) : t :=
  {| name := name self; tasks := tasks self; scheduled_time := scheduled_time self;
     current_task := current_task self; status := status self;
     loop_stack := loop_stack self; results := results self;
     recurrence_type := r |}.

Definition add_task (task : ExperimentTask.t) (self : t) : t :=
  set_tasks (tasks self ++ [task]) self.

Definition remove_task (index : Z) (self : t) : Py.exn + t :=
  if (0 <=? index) && (index <? Z.of_nat (length (tasks self))) then
    match Py.list_pop (tasks self) index with
    | inr ts => inr (set_tasks ts self)
    | inl e => inl e
    end
  else inr self.

(** [l[i], l[j] = l[j], l[i]]: both items are read, then [l[i]] and [l[j]]
    are assigned in this order. *)
Definition swap_items (l : list ExperimentTask.t) (i j : Z)
    : Py.exn + list ExperimentTask.t :=
  match Py.list_getitem l j, Py.list_getitem l i with
  | inr a, inr b =>
      match Py.list_setitem l i a with
      | inr l1 => Py.list_setitem l1 j b
      | inl e => inl e
      end
  | inl e, _ | _, inl e => inl e
  end.

Definition move_task_up (index : Z) (self : t) : Py.exn + t :=
  if (0 <? index) && (index <? Z.of_nat (length (tasks self))) then
    match swap_items (tasks self) index (index - 1) with
    | inr ts => inr (set_tasks ts self)
    | inl e => inl e
    end
  else inr self.

Definition move_task_down (index : Z) (self : t) : Py.exn + t :=
  if (0 <=? index) && (index <? Z.of_nat (length (tasks self)) - 1) then
    match swap_items (tasks self) index (index + 1) with
    | inr ts => inr (set_tasks ts self)
    | inl e => inl e
    end
  else inr self.

(** The dictionary [to_dict] builds and [from_dict] reads. *)
Record data := {
  d_name : string;
  d_tasks : option (list ExperimentTask.data);
  d_scheduled_time : option string
}.

Definition dt_truthy (dt : option Qt.QDateTime) : bool :=
  match dt with
  | Some dt => Qt.truthy dt
  | None => false
  end.

Definition to_dict (insts : instrument_store) (self : t) : data :=
  {| d_name := name self;
     d_tasks := Some (map (ExperimentTask.to_dict insts) (tasks self));
     d_scheduled_time :=
       if dt_truthy (scheduled_time self) then
         match scheduled_time self with
         | Some dt => Some (Qt.toString_ISODate dt)
         | None => None
         end
       else None |}.

Definition from_dict (insts : instrument_store) (d : data)
    (instruments : list nat) : t :=
  let sequence := init (d_name d) in
  let sequence :=
    fold_left
      (fun sequence task_data =>
         add_task (ExperimentTask.from_dict insts task_data instruments) sequence)
      (default [] (d_tasks d)) sequence in
  if ExperimentTask.str_truthy (d_scheduled_time d) then
    match d_scheduled_time d with
    | Some s => set_scheduled_time (Some (Qt.fromString_ISODate s)) sequence
    | None => sequence
    end
  else sequence.

Definition reset_task (task : ExperimentTask.t) : ExperimentTask.t :=
  ExperimentTask.set_result None (ExperimentTask.set_status ExperimentTask.Pending task).

Definition reset (self : t) : t :=
  {| name := name self;
     tasks := map reset_task (tasks self);
     scheduled_time := scheduled_time self;
     current_task := 0%nat;
     status := Stopped;
     loop_stack := [];
     results := ∅;
     recurrence_type := recurrence_type self |}.

End ExperimentSequence.

(** ** SequenceExecutor *)

Module SequenceExecutor.

Inductive Signal :=
| task_started (index : nat)
| task_completed (index : nat) (result : option ExperimentTask.Result)
| task_error (index : nat) (error : Py.exn)
| sequence_completed
| sequence_paused
| sequence_stopped.

(** The executor object ([sequence], [paused], [stopped]) together with
    what its run acts upon: the instrument objects the tasks refer to, and
    the signals emitted so far, oldest first.  Calls of [pause], [resume]
    and [stop] from other threads while [run] is under way are not part of
    the model: during a run the flags only change when the run sets them. *)
Record t := {
  sequence : ExperimentSequence.t;
  paused : bool;
  stopped : bool;
  instruments : instrument_store;
  emitted : list Signal
}.

(** [__init__] *)
Definition init (sequence : ExperimentSequence.t) (insts : instrument_store) : t :=
  {| sequence := sequence; paused := false; stopped := false;
     instruments := insts; emitted := [] |}.

Definition pause (self : t) : t :=
  {| sequence := sequence self; paused := true; stopped := stopped self;
     instruments := instruments self; emitted := emitted self |}.

Definition resume (self : t) : t :=
  {| sequence := sequence self; paused := false; stopped := stopped self;
     instruments := instruments self; emitted := emitted self |}.

Definition stop (self : t) : t :=
  {| sequence := sequence self; paused := paused self; stopped := true;
     instruments := instruments self; emitted := emitted self |}.

Definition with_sequence (f : ExperimentSequence.t -> ExperimentSequence.t)
    (self : t) : t :=
  {| sequence := f (sequence self); paused := paused self;
     stopped := stopped self; instruments := instruments self;
     emitted := emitted self |}.

Definition with_instruments (f : instrument_store -> instrument_store)
    (self : t) : t :=
  {| sequence := sequence self; paused := paused self;
     stopped := stopped self; instruments := f (instruments self);
     emitted := emitted self |}.

(** [self.<signal>.emit(...)] *)
Definition emit (sig : Signal) (self : t) : t :=
  {| sequence := sequence self; paused := paused self;
     stopped := stopped self; instruments := instruments self;
     emitted := emitted self ++ [sig] |}.

(** [task.<field> = ...] for the task object at [index] of the list. *)
Definition with_task (index : nat) (f : ExperimentTask.t -> ExperimentTask.t)
    (self : t) : t :=
  with_sequence
    (fun sq =>
       ExperimentSequence.set_tasks
         (alter f index (ExperimentSequence.tasks sq)) sq)
    self.

Definition task_result_at (index : nat) (self : t) : option ExperimentTask.Result :=
  match ExperimentSequence.tasks (sequence self) !! index with
  | Some task => ExperimentTask.result task
  | None => None
  end.

(** *** The body of the [try] statement

    A computation that updates the executor and either yields a value or
    raises; what it did before raising stays done. *)
Definition M (A : Type) : Type := t -> t * (Py.exn + A).

Definition ret {A} (a : A) : M A := fun s => (s, inr a).
Definition raise {A} (e : Py.exn) : M A := fun s => (s, inl e).
Definition bind {A B} (c : M A) (k : A -> M B) : M B :=
  fun s =>
    match c s with
    | (s', inr a) => k a s'
    | (s', inl e) => (s', inl e)
    end.
Definition gets {A} (f : t -> A) : M A := fun s => (s, inr (f s)).
Definition modify (f : t -> t) : M unit := fun s => (f s, inr tt).

#[global] Instance M_ret : MRet M := @ret.
#[global] Instance M_bind : MBind M := fun A B k c => bind c k.

(** How the [try] body hands control back: to the statements after it, or
    straight to the next round of the main loop ([continue]). *)
Inductive Flow := Fallthrough | ContinueLoop.

(** [result = task.target.run_function()] *)
Definition call_run_function (r : nat) : M Py.value :=
  fun s =>
    let inst := instruments s r in
    let '(outcome, left_behind) :=
      Instrument.run_function inst (Instrument.parameters inst) in
    (with_instruments (fun h => <[r := Instrument.set_parameters left_behind inst]> h) s,
     outcome).

(** [task.target.parameters = p] *)
Definition assign_parameters (r : nat) (p : gmap string Py.value) : M unit :=
  modify (with_instruments
            (fun h => <[r := Instrument.set_parameters p (h r)]> h)).

Definition assign_result (index : nat) (r : ExperimentTask.Result) : M unit :=
  modify (with_task index (ExperimentTask.set_result (Some r))).

(** The conversion and comparison inside the inner [try]: the right-hand
    text is converted to the type of the stored result, then compared.
    [isinstance(x, int)] holds of booleans too. *)
Definition convert_and_compare (left_value : Py.value) (right_part : string)
    : Py.exn + bool :=
  match left_value with
  | Py.VBool b =>
      match Py.int_of_string right_part with
      | Some z => inr (Z.b2z b =? z)
      | None => inl (Py.ValueError_int (Py.VStr right_part))
      end
  | Py.VInt a =>
      match Py.int_of_string right_part with
      | Some z => inr (a =? z)
      | None => inl (Py.ValueError_int (Py.VStr right_part))
      end
  | Py.VFloat f =>
      match Py.float_of_string right_part with
      | Some g => inr (SFeqb f g)
      | None => inl (Py.ValueError_float right_part)
      end
  | Py.VStr s => inr (String.eqb s right_part)
  | Py.VNone | Py.VOther _ _ => inr false
  end.

(** The evaluation of a condition, from [result = False] down to the end
    of the inner [try]/[except]. *)
Definition evaluate_condition (condition : option string)
    (results : gmap string Py.value) : Py.exn + bool :=
  match condition with
  | Some c =>
      if negb (String.eqb c "") && Py.contains_eqeq c then
        match Py.split_eqeq c with
        | [left_part; right_part] =>
            let left_part := Py.strip left_part in
            let right_part := Py.strip right_part in
            match results !! left_part with
            | Some left_value =>
                match convert_and_compare left_value right_part with
                | inr b => inr b
                | inl _ => inr false          (* except: result = False *)
                end
            | None => inr false
            end
        | _ => inr false
        end
      else inr false
  | None => inr false
  end.

Definition lift {A} (r : Py.exn + A) : M A := fun s => (s, r).

Definition last_frame (ls : list (nat * Z * Z)) : option (nat * Z * Z) :=
  List.last (map Some ls) None.

(** The statements of the [try] body, by task type. *)
Definition dispatch (task_index : nat) (task : ExperimentTask.t) : M Flow :=
  let ty := ExperimentTask.task_type task in
  let params := ExperimentTask.parameters task in
  (if String.eqb ty "instrument" then
     match ExperimentTask.target task,
           ExperimentTask.str_truthy (ExperimentTask.function task) with
     | Some r, true =>
         original_params ← gets (fun s => Instrument.parameters (instruments s r));
         assign_parameters r params;;
         result ← call_run_function r;
         assign_parameters r original_params;;
         assign_result task_index (ExperimentTask.Returned result);;
         modify (with_sequence (fun sq =>
           ExperimentSequence.set_results
             (<[ExperimentTask.name task := result]> (ExperimentSequence.results sq)) sq));;
         ret Fallthrough
     | _, _ => raise Py.ValueError_invalid_instrument
     end
   else if String.eqb ty "delay" then
     let seconds := default (Py.VInt 1) (params !! "seconds") in
     match Py.sleep seconds with
     | Some e => raise e
     | None =>
         assign_result task_index (ExperimentTask.Delayed seconds);;
         ret Fallthrough
     end
   else if String.eqb ty "loop_start" then
     modify (with_sequence (fun sq =>
       ExperimentSequence.set_loop_stack
         (ExperimentSequence.loop_stack sq ++ [(task_index, 0, ExperimentTask.repeat task)])
         sq));;
     assign_result task_index (ExperimentTask.LoopStarted (ExperimentTask.repeat task));;
     ret Fallthrough
   else if String.eqb ty "loop_end" then
     stack ← gets (fun s => ExperimentSequence.loop_stack (sequence s));
     match last_frame stack with
     | Some (start_index, current_iter, max_iter) =>
         let current_iter := current_iter + 1 in
         if current_iter <? max_iter then
           modify (with_sequence (fun sq =>
             ExperimentSequence.set_current_task start_index
               (ExperimentSequence.set_loop_stack
                  (removelast stack ++ [(start_index, current_iter, max_iter)]) sq)));;
           assign_result task_index
             (ExperimentTask.LoopIteration (current_iter + 1) max_iter);;
           r ← gets (task_result_at task_index);
           modify (emit (task_completed task_index r));;
           ret ContinueLoop
         else
           modify (with_sequence (ExperimentSequence.set_loop_stack (removelast stack)));;
           assign_result task_index ExperimentTask.LoopComplete;;
           ret Fallthrough
     | None =>
         assign_result task_index ExperimentTask.LoopEndWithoutStart;;
         ret Fallthrough
     end
   else if String.eqb ty "condition" then
     results ← gets (fun s => ExperimentSequence.results (sequence s));
     result ← lift (evaluate_condition (ExperimentTask.condition task) results);
     assign_result task_index (ExperimentTask.ConditionEvaluated result);;
     len ← gets (fun s => length (ExperimentSequence.tasks (sequence s)));
     if negb result && (task_index + 1 <? len)%nat && Py.get_truthy params "else_index" then
       jump_index ← lift (Py.int_of_value (default Py.VNone (params !! "else_index")));
       if (0 <=? jump_index) && (jump_index <? Z.of_nat len) then
         modify (with_sequence (ExperimentSequence.set_current_task (Z.to_nat jump_index)));;
         r ← gets (task_result_at task_index);
         modify (emit (task_completed task_index r));;
         ret ContinueLoop
       else ret Fallthrough
     else ret Fallthrough
   else
     assign_result task_index (ExperimentTask.UnknownTaskType ty);;
     ret Fallthrough).

(** What one round of the main loop ends in. *)
Inductive Round :=
| NextRound (s : t)     (* back to the loop test *)
| Break (s : t).        (* [break] *)

(** The statements before the [try]: the sequence and the task are marked
    as running and [task_started] is emitted. *)
Definition begin_task (task_index : nat) (s : t) : t :=
  let s := with_sequence (ExperimentSequence.set_status ExperimentSequence.Running) s in
  let s := with_task task_index (ExperimentTask.set_status ExperimentTask.Running) s in
  emit (task_started task_index) s.

(** [sequence.current_task += 1] *)
Definition advance (s : t) : t :=
  with_sequence
    (fun sq => ExperimentSequence.set_current_task
                 (ExperimentSequence.current_task sq + 1)%nat sq) s.

(** One round of the main loop for the task at the cursor, from
    [sequence.status = "running"] on.  The wait before a task
    ([time.sleep(task.delay / 1000.0)]) leaves no trace in the state. *)
Definition round (task_index : nat) (task : ExperimentTask.t) (s : t) : Round :=
  match dispatch task_index task (begin_task task_index s) with
  | (s, inr Fallthrough) =>
      let s := with_task task_index (ExperimentTask.set_status ExperimentTask.Complete) s in
      let s := emit (task_completed task_index (task_result_at task_index s)) s in
      NextRound (advance s)
  | (s, inr ContinueLoop) => NextRound s
  | (s, inl e) =>
      let s := with_task task_index (ExperimentTask.set_status ExperimentTask.Error) s in
      let s := with_task task_index (ExperimentTask.set_result (Some (ExperimentTask.Failed e))) s in
      let s := emit (task_error task_index e) s in
      if negb (Py.get_truthy (ExperimentTask.parameters task) "continue_on_error") then
        let s := with_sequence (ExperimentSequence.set_status ExperimentSequence.Stopped) s in
        Break (stop s)
      else NextRound (advance s)
  end.

(** [while self.paused and not self.stopped]: every poll sets the status,
    emits [sequence_paused] and sleeps.  [None]: the polls outlast [fuel]. *)
Fixpoint wait_while_paused (fuel : nat) (s : t) : option t :=
  if paused s && negb (stopped s) then
    match fuel with
    | O => None
    | S fuel =>
        wait_while_paused fuel
          (emit sequence_paused
             (with_sequence (ExperimentSequence.set_status ExperimentSequence.Paused) s))
    end
  else Some s.

(** The main [while] loop; [fuel] bounds the number of rounds.  The loop
    test [current_task < len(tasks)] is the success of the lookup
    [tasks[current_task]]. *)
Fixpoint main_loop (fuel : nat) (s : t) : option t :=
  match ExperimentSequence.tasks (sequence s) !! ExperimentSequence.current_task (sequence s) with
  | Some task =>
      if stopped s then Some s
      else
        match fuel with
        | O => None
        | S fuel =>
            match wait_while_paused fuel s with
            | None => None
            | Some s =>
                if stopped s then Some s
                else
                  match round (ExperimentSequence.current_task (sequence s)) task s with
                  | NextRound s => main_loop fuel s
                  | Break s => Some s
                  end
            end
        end
  | None => Some s
  end.

(** The rounds of the main loop as a relation: [rounds_to s s'] when the
    loop, entered in [s], is about to test its condition in [s'] some
    rounds later. *)
Inductive rounds_to : t -> t -> Prop :=
| rounds_none s : rounds_to s s
| rounds_more s task s1 s2 :
    ExperimentSequence.tasks (sequence s) !! ExperimentSequence.current_task (sequence s)
      = Some task ->
    stopped s = false ->
    paused s = false ->
    round (ExperimentSequence.current_task (sequence s)) task s = NextRound s1 ->
    rounds_to s1 s2 ->
    rounds_to s s2.

(** How many times [task_completed] was emitted for the task at [index]. *)
Definition completions (index : nat) (signals : list Signal) : nat :=
  length (List.filter (fun sig => match sig with
                                  | task_completed j _ => Nat.eqb j index
                                  | _ => false
                                  end) signals).

(** The statements after the main loop. *)
Definition finish (s : t) : t :=
  let sq := sequence s in
  if (length (ExperimentSequence.tasks sq) <=? ExperimentSequence.current_task sq)%nat
     && negb (stopped s)
  then emit sequence_completed
         (with_sequence (ExperimentSequence.set_status ExperimentSequence.Complete) s)
  else emit sequence_stopped
         (with_sequence (ExperimentSequence.set_status ExperimentSequence.Stopped) s).

(** The state in which the main loop is entered. *)
Definition start (self : t) : t :=
  with_sequence
    (fun sq => ExperimentSequence.set_status ExperimentSequence.Running
                 (ExperimentSequence.reset sq))
    self.

(** The rest of a run from the loop test on: the main loop, then the
    statements after it. *)
Definition run_from (fuel : nat) (s : t) : option t :=
  match main_loop fuel s with
  | Some s => Some (finish s)
  | None => None
  end.

(** [run]: [None] when the run is still going after [fuel] rounds. *)
Definition run (fuel : nat) (self : t) : option t := run_from fuel (start self).

End SequenceExecutor.

(** ** SequenceManager *)

Module SequenceManager.

(** The manager's handle on an executor thread. *)
Record Executor := {
  isRunning : bool
}.

(** The manager object ([sequences], [executors]) and the trace of
    [executor.start()] calls: a sequence object is referred to by its place
    in [sequences].  What a started thread does to its sequence happens
    concurrently and is not part of this model. *)
Record t := {
  sequences : list ExperimentSequence.t;
  executors : gmap string Executor;
  started : list nat
}.

(** [__init__] *)
Definition init : t := {| sequences := []; executors := ∅; started := [] |}.

Definition name_at (i : nat) (self : t) : option string :=
  ExperimentSequence.name <$> sequences self !! i.

(** [stop_sequence]: a running executor is stopped, joined and forgotten. *)
Definition stop_sequence (i : nat) (self : t) : t * bool :=
  match name_at i self with
  | Some name =>
      match executors self !! name with
      | Some executor =>
          if isRunning executor then
            ({| sequences := sequences self;
                executors := delete name (executors self);
                started := started self |}, true)
          else (self, false)
      | None => (self, false)
      end
  | None => (self, false)
  end.

Definition run_sequence (i : nat) (self : t) : t * bool :=
  match name_at i self with
  | Some name =>
      let self :=
        match executors self !! name with
        | Some _ => fst (stop_sequence i self)
        | None => self
        end in
      ({| sequences := sequences self;
          executors := <[name := {| isRunning := true |}]> (executors self);
          started := started self ++ [i] |}, true)
  | None => (self, true)
  end.

(** The new [scheduled_time] of a sequence that is due. *)
Definition reschedule (sequence : ExperimentSequence.t) (due : Qt.QDateTime)
    : option Qt.QDateTime :=
  match ExperimentSequence.recurrence_type sequence with
  | Some kind =>
      if String.eqb kind "Daily" then Some (Qt.addDays due 1)
      else if String.eqb kind "Weekly" then Some (Qt.addDays due 7)
      else if String.eqb kind "Monthly" then Some (Qt.addMonths due 1)
      else None
  | None => None
  end.

(** The body of the loop of [check_scheduled_sequences], for the sequence
    at place [i]. *)
Definition check_sequence (current_time : Qt.QDateTime) (i : nat) (self : t) : t :=
  match sequences self !! i with
  | Some sequence =>
      match ExperimentSequence.status sequence, ExperimentSequence.scheduled_time sequence with
      | ExperimentSequence.Stopped, Some due =>
          if Qt.truthy due && Qt.le due current_time then
            let sequence :=
              ExperimentSequence.set_scheduled_time (reschedule sequence due) sequence in
            fst (run_sequence i
                   {| sequences := <[i := sequence]> (sequences self);
                      executors := executors self;
                      started := started self |})
          else self
      | _, _ => self
      end
  | None => self
  end.

(** [check_scheduled_sequences], [current_time] being
    [QDateTime.currentDateTime()]. *)
Definition check_scheduled_sequences (current_time : Qt.QDateTime) (self : t) : t :=
  fold_left (fun self i => check_sequence current_time i self)
            (seq 0 (length (sequences self))) self.

(** The test of the loop of [check_scheduled_sequences], and the sequence
    as the loop leaves it when the test holds. *)
Definition is_due (current_time : Qt.QDateTime) (sequence : ExperimentSequence.t) : bool :=
  match ExperimentSequence.status sequence, ExperimentSequence.scheduled_time sequence with
  | ExperimentSequence.Stopped, Some due => Qt.truthy due && Qt.le due current_time
  | _, _ => false
  end.

Definition rescheduled (sequence : ExperimentSequence.t) : ExperimentSequence.t :=
  ExperimentSequence.set_scheduled_time
    (match ExperimentSequence.scheduled_time sequence with
     | Some due => reschedule sequence due
     | None => None
     end) sequence.

(** *** Persistence *)

Record Metadata := {
  last_modified : string;
  modified_by : string;
  app_version : string
}.

(** The content of one sequence file. *)
Record file_data := {
  sequence_data : ExperimentSequence.data;
  metadata : option Metadata;
  f_recurrence_type : option string
}.

Fixpoint replace_blanks (s : string) : string :=
  match s with
  | String c s' => String (if Ascii.eqb c " " then "_"%char else c) (replace_blanks s')
  | EmptyString => EmptyString
  end.

(** The files [save_sequences] writes, in order; [now] is
    [datetime.now().isoformat()]. *)
Definition save_sequences (insts : instrument_store) (now : string) (self : t)
    : list (string * file_data) :=
  map (fun sequence =>
         (String.append (replace_blanks (ExperimentSequence.name sequence)) ".json",
          {| sequence_data := ExperimentSequence.to_dict insts sequence;
             metadata := Some {| last_modified := now;
                                 modified_by := "HamidHaghmoradi";
                                 app_version := "2.0.0" |};
             f_recurrence_type := ExperimentSequence.recurrence_type sequence |}))
      (sequences self).

(** The sequence [load_sequences] builds from the content of one file. *)
Definition load_sequence (insts : instrument_store) (data : file_data)
    (instruments : list nat) : ExperimentSequence.t :=
  let sequence :=
    ExperimentSequence.from_dict insts (sequence_data data) instruments in
  match f_recurrence_type data with
  | Some kind => ExperimentSequence.set_recurrence_type (Some kind) sequence
  | None => sequence
  end.

Fixpoint endswith_json (s : string) : bool :=
  String.eqb s ".json" ||
  match s with
  | String _ s' => endswith_json s'
  | EmptyString => false
  end.

(** [load_sequences] over the listed directory: [files] pairs each file
    name with its content, [None] for a file that cannot be read or
    decoded, which only gets logged. *)
Definition load_sequences (insts : instrument_store)
    (files : list (string * option file_data)) (instruments : list nat)
    (self : t) : t :=
  {| sequences :=
       omap (fun '(file_name, content) =>
               if endswith_json file_name then
                 (fun data => load_sequence insts data instruments) <$> content
               else None)
            files;
     executors := executors self;
     started := started self |}.

(** [add_sequence]: a sequence whose name is taken is refused. *)
Definition add_sequence (sequence : ExperimentSequence.t) (self : t) : t * bool :=
  if existsb (fun existing =>
                String.eqb (ExperimentSequence.name existing)
                           (ExperimentSequence.name sequence))
             (sequences self)
  then (self, false)
  else ({| sequences := sequences self ++ [sequence];
           executors := executors self;
           started := started self |}, true).

End SequenceManager.

(** ** SchedulerWidget

    The part of the scheduler panel ([src/cannex/ui/main_window.py]) that
    works on sequences: the list of sequences and the place of the current
    one.  What it draws on screen is left out; the files it saves are
    returned beside the new state. *)

Module SchedulerWidget.

Record t := {
  sequences : list ExperimentSequence.t;
  current_sequence : option nat
}.

(** The files [save_sequences] writes, in order; [now] is
    [datetime.now().isoformat()]. *)
Definition save_sequences (insts : instrument_store) (now : string) (self : t)
    : list (string * SequenceManager.file_data) :=
  map (fun sequence =>
         (String.append (SequenceManager.replace_blanks (ExperimentSequence.name sequence))
                        ".json",
          {| SequenceManager.sequence_data := ExperimentSequence.to_dict insts sequence;
             SequenceManager.metadata :=
               Some {| SequenceManager.last_modified := now;
                       SequenceManager.modified_by := "HamidHaghmoradi";
                       SequenceManager.app_version := "2.0.0" |};
             SequenceManager.f_recurrence_type :=
               ExperimentSequence.recurrence_type sequence |}))
      (sequences self).

(** The copy [duplicate_sequence] makes of a sequence: its dictionary, the
    name extended, read back with the instruments of the scene. *)
Definition copy_of (insts : instrument_store) (instruments : list nat)
    (sequence : ExperimentSequence.t) : ExperimentSequence.t :=
  let sequence_dict := ExperimentSequence.to_dict insts sequence in
  let sequence_dict :=
    {| ExperimentSequence.d_name :=
         String.append (ExperimentSequence.d_name sequence_dict) " (Copy)";
       ExperimentSequence.d_tasks := ExperimentSequence.d_tasks sequence_dict;
       ExperimentSequence.d_scheduled_time :=
         ExperimentSequence.d_scheduled_time sequence_dict |} in
  ExperimentSequence.from_dict insts sequence_dict instruments.

Definition duplicate_sequence (insts : instrument_store) (instruments : list nat)
    (now : string) (self : t) : t * list (string * SequenceManager.file_data) :=
  match current_sequence self with
  | Some i =>
      match sequences self !! i with
      | Some sequence =>
          let self' :=
            {| sequences := sequences self ++ [copy_of insts instruments sequence];
               current_sequence := Some (length (sequences self)) |} in
          (self', save_sequences insts now self')
      | None => (self, [])
      end
  | None => (self, [])
  end.

(** [cancel_scheduled_sequence] for the sequence at place [i]: the schedule
    is cleared and the recurrence attribute deleted. *)
Definition cancel_scheduled_sequence (insts : instrument_store) (now : string)
    (i : nat) (self : t) : t * list (string * SequenceManager.file_data) :=
  let self' :=
    {| sequences :=
         alter (fun sequence =>
                  ExperimentSequence.set_recurrence_type None
                    (ExperimentSequence.set_scheduled_time None sequence))
               i (sequences self);
       current_sequence := current_sequence self |} in
  (self', save_sequences insts now self').

End SchedulerWidget.

(** ** Invariants of a run

    The cursor is within the task list or just past it, and every frame of
    the loop stack was pushed by the [loop_start] task at its start index. *)
Definition frame_at_loop_start (ts : list ExperimentTask.t) (frame : nat * Z * Z) : Prop :=
  exists task, ts !! frame.1.1 = Some task /\
               ExperimentTask.task_type task = "loop_start".

Definition well_formed (sq : ExperimentSequence.t) : Prop :=
  (ExperimentSequence.current_task sq <= length (ExperimentSequence.tasks sq))%nat /\
  Forall (frame_at_loop_start (ExperimentSequence.tasks sq))
         (ExperimentSequence.loop_stack sq).

(** A task list without backward jumps: no [loop_end], no [condition]. *)
Definition straight_line (ts : list ExperimentTask.t) : Prop :=
  Forall (fun task => ExperimentTask.task_type task <> "loop_end" /\
                      ExperimentTask.task_type task <> "condition") ts.

(** The state a round ends in, whichever way it ends. *)
Definition round_state (r : SequenceExecutor.Round) : SequenceExecutor.t :=
  match r with
  | SequenceExecutor.NextRound s | SequenceExecutor.Break s => s
  end.

(** The program and the instrument names, as one property of executors
    relative to where the run began. *)
Definition same_program (s0 s : SequenceExecutor.t) : Prop :=
  map ExperimentSequence.reset_task
      (ExperimentSequence.tasks (SequenceExecutor.sequence s))
    = map ExperimentSequence.reset_task
          (ExperimentSequence.tasks (SequenceExecutor.sequence s0)) /\
  ExperimentSequence.name (SequenceExecutor.sequence s)
    = ExperimentSequence.name (SequenceExecutor.sequence s0) /\
  ExperimentSequence.scheduled_time (SequenceExecutor.sequence s)
    = ExperimentSequence.scheduled_time (SequenceExecutor.sequence s0) /\
  ExperimentSequence.recurrence_type (SequenceExecutor.sequence s)
    = ExperimentSequence.recurrence_type (SequenceExecutor.sequence s0) /\
  (forall r, Instrument.name (SequenceExecutor.instruments s r)
             = Instrument.name (SequenceExecutor.instruments s0 r)).

(** ** Scheduled sequences

    Whether the sequence at place [i] passes the test of
    [check_scheduled_sequences] at [current_time]. *)
Definition due_at (current_time : Qt.QDateTime) (self : SequenceManager.t)
    (i : nat) : bool :=
  match SequenceManager.sequences self !! i with
  | Some sequence => SequenceManager.is_due current_time sequence
  | None => false
  end.

(** ** Reading a condition

    The two sides of a condition text as the executor reads them: the text
    is not empty, holds [==], and splits on it in exactly two parts, which
    are stripped.  [None] for every other text and for a missing one. *)
Definition condition_parts (condition : option string) : option (string * string) :=
  match condition with
  | Some c =>
      if negb (String.eqb c "") && Py.contains_eqeq c then
        match Py.split_eqeq c with
        | [left_part; right_part] => Some (Py.strip left_part, Py.strip right_part)
        | _ => None
        end
      else None
  | None => None
  end.

(** ** Reading a saved sequence back

    A target is resolvable when it has a name and the lookup by that name
    over [instruments] finds this very instrument. *)
Definition resolvable (insts : instrument_store) (instruments : list nat)
    (task : ExperimentTask.t) : Prop :=
  forall r, ExperimentTask.target task = Some r ->
    Instrument.name (insts r) <> "" /\
    List.find (fun r' => String.eqb (Instrument.name (insts r'))
                                    (Instrument.name (insts r))) instruments
      = Some r.

(** The text Qt writes for a scheduled time reads back as that time. *)
Definition reads_back (dt : Qt.QDateTime) : Prop :=
  Qt.truthy dt = true /\ Qt.fromString_ISODate (Qt.toString_ISODate dt) = dt.

(** ** Sample instruments, tasks and sequences *)

Module Examples.

(** A multimeter whose reading is 5, and a supply whose call fails; both
    leave the parameters installed on them as they are. *)
Definition multimeter : Instrument.t :=
  {| Instrument.name := "DMM";
     Instrument.parameters := {[ "range" := Py.VInt 10 ]};
     Instrument.run_function := fun p => (inr (Py.VInt 5), p) |}.

Definition supply : Instrument.t :=
  {| Instrument.name := "PSU";
     Instrument.parameters := {[ "volts" := Py.VInt 12 ]};
     Instrument.run_function :=
       fun p => (inl (Py.RaisedByInstrument "timeout"), p) |}.

Definition bench : instrument_store :=
  fun r => match r with O => multimeter | _ => supply end.

Definition sequence_of (ts : list ExperimentTask.t) : ExperimentSequence.t :=
  ExperimentSequence.set_tasks ts (ExperimentSequence.init "bench run").

Definition loop_start (n : Z) : ExperimentTask.t :=
  ExperimentTask.init "repeat" "loop_start" None None None 0 n None.

Definition loop_end : ExperimentTask.t :=
  ExperimentTask.init "end" "loop_end" None None None 0 1 None.

Definition settle : ExperimentTask.t :=
  ExperimentTask.init "settle" "delay" None None None 0 1 None.

(** An instrument task named [x] reading the multimeter. *)
Definition read_x : ExperimentTask.t :=
  ExperimentTask.init "x" "instrument" (Some 0%nat) (Some "read")
    (Some {[ "range" := Py.VInt 1 ]}) 0 1 None.

(** An instrument task on the failing supply. *)
Definition set_volts (params : gmap string Py.value) : ExperimentTask.t :=
  ExperimentTask.init "volts" "instrument" (Some 1%nat) (Some "set")
    (Some params) 0 1 None.

Definition check (condition : string) (params : gmap string Py.value)
    : ExperimentTask.t :=
  ExperimentTask.init "check" "condition" None None (Some params) 0 1
    (Some condition).

(** The executor at the loop test, with [x = 5] among the results and the
    cursor on the task at [cursor]. *)
Definition after_reading (ts : list ExperimentTask.t) (cursor : nat)
    : SequenceExecutor.t :=
  SequenceExecutor.init
    (ExperimentSequence.set_current_task cursor
       (ExperimentSequence.set_results {[ "x" := Py.VInt 5 ]}
          (ExperimentSequence.set_status ExperimentSequence.Running
             (sequence_of ts))))
    bench.

(** A sequence scheduled on Julian day 2460000 (24 February 2023) at
    [msecs] after midnight, with the given recurrence. *)
Definition scheduled (msecs : Z) (recurrence : option string) : ExperimentSequence.t :=
  ExperimentSequence.set_recurrence_type recurrence
    (ExperimentSequence.set_scheduled_time (Some (Qt.At 2460000 msecs))
       (sequence_of [read_x; settle])).

Definition noon : Z := 43200000.

(** A manager holding a nightly and a one-off sequence, both due at noon. *)
Definition manager : SequenceManager.t :=
  {| SequenceManager.sequences :=
       [scheduled noon (Some "Daily"); scheduled noon None];
     SequenceManager.executors := ∅;
     SequenceManager.started := [] |}.

(** The loop of the specification: three repetitions of one task. *)
Definition loop3 : ExperimentSequence.t :=
  sequence_of [loop_start 3; settle; loop_end].

(** The executor is running [loop3] with its flags down, the cursor at
    [cursor] and the loop stack [stack]; the statuses and results of the
    tasks are whatever the rounds so far made them. *)
Definition in_loop3 (s : SequenceExecutor.t) (cursor : nat)
    (stack : list (nat * Z * Z)) : Prop :=
  SequenceExecutor.paused s = false /\
  SequenceExecutor.stopped s = false /\
  map ExperimentSequence.reset_task (ExperimentSequence.tasks (SequenceExecutor.sequence s))
    = map ExperimentSequence.reset_task (ExperimentSequence.tasks loop3) /\
  ExperimentSequence.current_task (SequenceExecutor.sequence s) = cursor /\
  ExperimentSequence.loop_stack (SequenceExecutor.sequence s) = stack.

(** Wherever the executor stands in [loop3], the next round leaves it in
    [loop3] again: at the loop start, or past it with a fresh frame on top
    of the stack. *)
Definition loop3_invariant (s : SequenceExecutor.t) : Prop :=
  (exists stack, in_loop3 s 0 stack) \/
  (exists stack, in_loop3 s 1 (stack ++ [(0%nat, 0, 3)])) \/
  (exists stack, in_loop3 s 2 (stack ++ [(0%nat, 0, 3)])).

End Examples.

(** * Properties of the engine *)

(** ** Editing the task list *)

Section Editing.

Import ExperimentSequence.

Variable self : ExperimentSequence.t.

Let n : Z := Z.of_nat (length (tasks self)).

Lemma remove_task_outside (index : Z) :
  index < 0 \/ n <= index -> remove_task index self = inr self.
Proof.
  intros H. unfold remove_task. fold n.
  destruct (0 <=? index) eqn:E0; destruct (index <? n) eqn:E1;
    simpl; try reflexivity; lia.
Qed.

Lemma move_task_up_outside (index : Z) :
  index <= 0 \/ n <= index -> move_task_up index self = inr self.
Proof.
  intros H. unfold move_task_up. fold n.
  destruct (0 <? index) eqn:E0; destruct (index <? n) eqn:E1;
    simpl; try reflexivity; lia.
Qed.

Lemma move_task_down_outside (index : Z) :
  index < 0 \/ n - 1 <= index -> move_task_down index self = inr self.
Proof.
  intros H. unfold move_task_down. fold n.
  destruct (0 <=? index) eqn:E0; destruct (index <? n - 1) eqn:E1;
    simpl; try reflexivity; lia.
Qed.

End Editing.

(** Inside their guards the list operations find their indices: no edit
    ever raises. *)
Lemma getitem_in_range {A} (l : list A) (i : Z) :
  0 <= i < Z.of_nat (length l) -> exists x, Py.list_getitem l i = inr x.
Proof.
  intros H. unfold Py.list_getitem.
  replace (i <? 0) with false by lia.
  replace (0 <=? i) with true by lia.
  destruct (l !! Z.to_nat i) eqn:E; [eauto|].
  apply lookup_ge_None in E. lia.
Qed.

Lemma setitem_in_range {A} (l : list A) (i : Z) (x : A) :
  0 <= i < Z.of_nat (length l) ->
  Py.list_setitem l i x = inr (<[Z.to_nat i := x]> l).
Proof.
  intros H. unfold Py.list_setitem.
  replace (i <? 0) with false by lia.
  replace (0 <=? i) with true by lia.
  replace (i <? Z.of_nat (length l)) with true by lia.
  reflexivity.
Qed.

Lemma swap_items_in_range (l : list ExperimentTask.t) (i j : Z) :
  0 <= i < Z.of_nat (length l) -> 0 <= j < Z.of_nat (length l) ->
  exists l', ExperimentSequence.swap_items l i j = inr l'.
Proof.
  intros Hi Hj. unfold ExperimentSequence.swap_items.
  destruct (getitem_in_range l j Hj) as [a ->].
  destruct (getitem_in_range l i Hi) as [b ->].
  rewrite setitem_in_range by assumption.
  rewrite setitem_in_range by (rewrite length_insert; assumption).
  eauto.
Qed.

Lemma edits_never_raise (self : ExperimentSequence.t) (index : Z) :
  (exists s, ExperimentSequence.remove_task index self = inr s) /\
  (exists s, ExperimentSequence.move_task_up index self = inr s) /\
  (exists s, ExperimentSequence.move_task_down index self = inr s).
Proof.
  unfold ExperimentSequence.remove_task, ExperimentSequence.move_task_up,
    ExperimentSequence.move_task_down.
  set (n := Z.of_nat (length (ExperimentSequence.tasks self))).
  repeat split.
  - destruct (0 <=? index) eqn:E0; destruct (index <? n) eqn:E1; simpl; eauto.
    unfold Py.list_pop. fold n.
    replace (index <? 0) with false by lia. rewrite E0, E1. simpl. eauto.
  - destruct (0 <? index) eqn:E0; destruct (index <? n) eqn:E1; simpl; eauto.
    destruct (swap_items_in_range (ExperimentSequence.tasks self) index (index - 1))
      as [l' ->]; fold n; try lia. eauto.
  - destruct (0 <=? index) eqn:E0; destruct (index <? n - 1) eqn:E1; simpl; eauto.
    destruct (swap_items_in_range (ExperimentSequence.tasks self) index (index + 1))
      as [l' ->]; fold n; try lia. eauto.
Qed.

(** C9. For every sequence, [remove_task], [move_task_up] and
    [move_task_down] at an index outside the task list raise nothing and
    return the sequence as it was, its task list included; so does
    [move_task_up] at index 0 and [move_task_down] at the last index. *)
Theorem edits_outside_are_noops (self : ExperimentSequence.t) (index : Z) :
  let n := Z.of_nat (length (ExperimentSequence.tasks self)) in
  (index < 0 \/ n <= index ->
     ExperimentSequence.remove_task index self = inr self) /\
  (index <= 0 \/ n <= index ->
     ExperimentSequence.move_task_up index self = inr self) /\
  (index < 0 \/ n - 1 <= index ->
     ExperimentSequence.move_task_down index self = inr self).
Proof.
  intros n. repeat split; intros H.
  - apply remove_task_outside, H.
  - apply move_task_up_outside, H.
  - apply move_task_down_outside, H.
Qed.

(** ** Runs of the executor *)

Ltac unfold_exec :=
  unfold SequenceExecutor.assign_result, SequenceExecutor.assign_parameters,
    SequenceExecutor.call_run_function in *;
  unfold mbind, SequenceExecutor.M_bind, SequenceExecutor.bind, mret,
    SequenceExecutor.M_ret, SequenceExecutor.ret, SequenceExecutor.raise,
    SequenceExecutor.gets, SequenceExecutor.modify, SequenceExecutor.lift in *.

Lemma reset_idempotent (sq : ExperimentSequence.t) :
  ExperimentSequence.reset (ExperimentSequence.reset sq) = ExperimentSequence.reset sq.
Proof.
  unfold ExperimentSequence.reset. simpl. f_equal.
  rewrite map_map. apply map_ext. intros []; reflexivity.
Qed.

Lemma reset_tasks_pending (sq : ExperimentSequence.t) :
  Forall (fun task => ExperimentTask.status task = ExperimentTask.Pending /\
                      ExperimentTask.result task = None)
         (ExperimentSequence.tasks (ExperimentSequence.reset sq)).
Proof.
  simpl. induction (ExperimentSequence.tasks sq) as [|task ts IH]; simpl.
  - constructor.
  - constructor; [split; reflexivity | exact IH].
Qed.

(** C8. For every sequence without tasks, a fresh executor on the reset
    sequence ends its run at once, whatever the fuel: the status is
    [Complete], the results are the empty mapping, and
    [sequence_completed] is the one signal emitted. *)
Theorem empty_sequence_completes (fuel : nat) (sq : ExperimentSequence.t)
    (insts : instrument_store) :
  ExperimentSequence.tasks sq = [] ->
  exists s,
    SequenceExecutor.run fuel
      (SequenceExecutor.init (ExperimentSequence.reset sq) insts) = Some s /\
    ExperimentSequence.status (SequenceExecutor.sequence s) = ExperimentSequence.Complete /\
    ExperimentSequence.results (SequenceExecutor.sequence s) = ∅ /\
    SequenceExecutor.emitted s = [SequenceExecutor.sequence_completed].
Proof.
  intros Hempty.
  unfold SequenceExecutor.run, SequenceExecutor.run_from,
    SequenceExecutor.start, SequenceExecutor.init.
  destruct fuel; simpl; rewrite Hempty; simpl;
    (eexists; split; [reflexivity|]);
    unfold SequenceExecutor.finish; simpl; rewrite Hempty; simpl; auto.
Qed.


(** What the [try] body never touches: the status of the sequence, the
    flags and the length of the task list; and when it raises, the cursor,
    the loop stack and the signals are as it found them. *)
Lemma dispatch_frame (i : nat) (task : ExperimentTask.t)
    (s s' : SequenceExecutor.t) (r : Py.exn + SequenceExecutor.Flow) :
  SequenceExecutor.dispatch i task s = (s', r) ->
  ExperimentSequence.status (SequenceExecutor.sequence s')
    = ExperimentSequence.status (SequenceExecutor.sequence s) /\
  SequenceExecutor.paused s' = SequenceExecutor.paused s /\
  SequenceExecutor.stopped s' = SequenceExecutor.stopped s /\
  length (ExperimentSequence.tasks (SequenceExecutor.sequence s'))
    = length (ExperimentSequence.tasks (SequenceExecutor.sequence s)) /\
  (forall e, r = inl e ->
     ExperimentSequence.current_task (SequenceExecutor.sequence s')
       = ExperimentSequence.current_task (SequenceExecutor.sequence s) /\
     ExperimentSequence.loop_stack (SequenceExecutor.sequence s')
       = ExperimentSequence.loop_stack (SequenceExecutor.sequence s) /\
     SequenceExecutor.emitted s' = SequenceExecutor.emitted s).
Proof.
  unfold SequenceExecutor.dispatch. unfold_exec.
  intros H.
  repeat case_match; simplify_eq; simpl;
    rewrite ?length_alter; repeat split; try reflexivity; intros; discriminate.
Qed.

Lemma wait_not_paused (fuel : nat) (s : SequenceExecutor.t) :
  SequenceExecutor.paused s = false ->
  SequenceExecutor.wait_while_paused fuel s = Some s.
Proof. intros H. destruct fuel; simpl; rewrite H; reflexivity. Qed.

(** One more unit of fuel buys one round. *)
Lemma main_loop_round (fuel : nat) (s : SequenceExecutor.t) (task : ExperimentTask.t) :
  ExperimentSequence.tasks (SequenceExecutor.sequence s)
    !! ExperimentSequence.current_task (SequenceExecutor.sequence s) = Some task ->
  SequenceExecutor.paused s = false ->
  SequenceExecutor.stopped s = false ->
  SequenceExecutor.main_loop (S fuel) s =
    match SequenceExecutor.round
            (ExperimentSequence.current_task (SequenceExecutor.sequence s)) task s with
    | SequenceExecutor.NextRound s' => SequenceExecutor.main_loop fuel s'
    | SequenceExecutor.Break s' => Some s'
    end.
Proof.
  intros Htask Hp Hs. simpl. rewrite Htask, Hs.
  rewrite (wait_not_paused fuel s Hp). rewrite Hs. reflexivity.
Qed.

(** C5. When the dispatch of the task at the cursor raises: with a truthy
    [continue_on_error] among the task's parameters the round ends with the
    sequence still [Running], the stop flag down and the cursor on the next
    task, and the main loop goes on from there; without it the round
    breaks the loop with the sequence [Stopped] and the stop flag up, and
    the run ends [Stopped] with [sequence_stopped].  Either way the task is
    marked [Error] and [task_error] is emitted. *)
Theorem failure_policy (fuel : nat) (s s1 : SequenceExecutor.t)
    (task : ExperimentTask.t) (e : Py.exn) :
  let i := ExperimentSequence.current_task (SequenceExecutor.sequence s) in
  ExperimentSequence.tasks (SequenceExecutor.sequence s) !! i = Some task ->
  SequenceExecutor.paused s = false ->
  SequenceExecutor.stopped s = false ->
  SequenceExecutor.dispatch i task (SequenceExecutor.begin_task i s) = (s1, inl e) ->
  exists s',
    ExperimentTask.status
      <$> ExperimentSequence.tasks (SequenceExecutor.sequence s') !! i
      = Some ExperimentTask.Error /\
    SequenceExecutor.emitted s'
      = SequenceExecutor.emitted s
          ++ [SequenceExecutor.task_started i; SequenceExecutor.task_error i e] /\
    if Py.get_truthy (ExperimentTask.parameters task) "continue_on_error" then
      SequenceExecutor.round i task s = SequenceExecutor.NextRound s' /\
      ExperimentSequence.status (SequenceExecutor.sequence s')
        = ExperimentSequence.Running /\
      SequenceExecutor.stopped s' = false /\
      ExperimentSequence.current_task (SequenceExecutor.sequence s') = S i /\
      SequenceExecutor.main_loop (S fuel) s = SequenceExecutor.main_loop fuel s'
    else
      SequenceExecutor.round i task s = SequenceExecutor.Break s' /\
      ExperimentSequence.status (SequenceExecutor.sequence s')
        = ExperimentSequence.Stopped /\
      SequenceExecutor.stopped s' = true /\
      SequenceExecutor.run_from (S fuel) s = Some (SequenceExecutor.finish s') /\
      ExperimentSequence.status (SequenceExecutor.sequence (SequenceExecutor.finish s'))
        = ExperimentSequence.Stopped /\
      SequenceExecutor.emitted (SequenceExecutor.finish s')
        = SequenceExecutor.emitted s' ++ [SequenceExecutor.sequence_stopped].
Proof.
  intros i Htask Hp Hs Hd.
  destruct (dispatch_frame _ _ _ _ _ Hd) as (Hst & Hp1 & Hs1 & Hlen & Hraise).
  destruct (Hraise e eq_refl) as (Hcur & _ & Hem).
  simpl in Hst, Hp1, Hs1, Hcur, Hem.
  assert (Hlook : exists task1,
             ExperimentSequence.tasks (SequenceExecutor.sequence s1) !! i = Some task1).
  { apply lookup_lt_is_Some. rewrite Hlen. simpl. rewrite length_alter.
    apply lookup_lt_is_Some. eauto. }
  destruct Hlook as [task1 Htask1].
  pose proof (main_loop_round fuel s task Htask Hp Hs) as Hloop. fold i in Hloop.
  unfold SequenceExecutor.run_from. rewrite Hloop.
  unfold SequenceExecutor.round. rewrite Hd.
  set (s2 := SequenceExecutor.emit (SequenceExecutor.task_error i e)
               (SequenceExecutor.with_task i
                  (ExperimentTask.set_result (Some (ExperimentTask.Failed e)))
                  (SequenceExecutor.with_task i
                     (ExperimentTask.set_status ExperimentTask.Error) s1))).
  assert (Hstatus2 : ExperimentTask.status
            <$> ExperimentSequence.tasks (SequenceExecutor.sequence s2) !! i
            = Some ExperimentTask.Error).
  { simpl. rewrite !list_lookup_alter_eq, Htask1. reflexivity. }
  assert (Hem2 : SequenceExecutor.emitted s2
            = SequenceExecutor.emitted s
                ++ [SequenceExecutor.task_started i; SequenceExecutor.task_error i e]).
  { simpl. rewrite Hem. simpl. rewrite <- app_assoc. reflexivity. }
  destruct (Py.get_truthy (ExperimentTask.parameters task) "continue_on_error").
  - exists (SequenceExecutor.advance s2). simpl negb. cbv iota.
    split; [exact Hstatus2|]. split; [exact Hem2|].
    repeat split.
    + simpl. rewrite Hst. reflexivity.
    + simpl. rewrite Hs1. exact Hs.
    + simpl. rewrite Hcur. unfold i. lia.
  - exists (SequenceExecutor.stop
              (SequenceExecutor.with_sequence
                 (ExperimentSequence.set_status ExperimentSequence.Stopped) s2)).
    simpl negb. cbv iota.
    split; [exact Hstatus2|]. split; [exact Hem2|].
    repeat split; unfold SequenceExecutor.finish; simpl;
      rewrite andb_false_r; reflexivity.
Qed.

Lemma failure_policy_witness :
  let s := SequenceExecutor.start
             (SequenceExecutor.init
                (Examples.sequence_of
                   [Examples.set_volts {[ "continue_on_error" := Py.VBool true ]};
                    Examples.settle])
                Examples.bench) in
  let s' := SequenceExecutor.start
              (SequenceExecutor.init
                 (Examples.sequence_of [Examples.set_volts ∅; Examples.settle])
                 Examples.bench) in
  (exists s2, SequenceExecutor.round 0
                (Examples.set_volts {[ "continue_on_error" := Py.VBool true ]}) s
              = SequenceExecutor.NextRound s2 /\
              ExperimentSequence.status (SequenceExecutor.sequence s2)
                = ExperimentSequence.Running /\
              ExperimentSequence.current_task (SequenceExecutor.sequence s2) = 1%nat) /\
  (exists s2, SequenceExecutor.round 0 (Examples.set_volts ∅) s'
              = SequenceExecutor.Break s2 /\
              ExperimentSequence.status (SequenceExecutor.sequence s2)
                = ExperimentSequence.Stopped /\
              SequenceExecutor.stopped s2 = true).
Proof.
  intros s s'. split.
  - destruct (failure_policy 1 s
                (fst (SequenceExecutor.dispatch 0
                        (Examples.set_volts {[ "continue_on_error" := Py.VBool true ]})
                        (SequenceExecutor.begin_task 0 s)))
                (Examples.set_volts {[ "continue_on_error" := Py.VBool true ]})
                (Py.RaisedByInstrument "timeout"))
      as (s2 & _ & _ & H); try (vm_compute; reflexivity).
    exists s2. vm_compute Py.get_truthy in H. cbv iota in H.
    destruct H as (H1 & H2 & _ & H4 & _). split; [exact H1|]. split; [exact H2|exact H4].
  - destruct (failure_policy 1 s'
                (fst (SequenceExecutor.dispatch 0 (Examples.set_volts ∅)
                        (SequenceExecutor.begin_task 0 s')))
                (Examples.set_volts ∅) (Py.RaisedByInstrument "timeout"))
      as (s2 & _ & _ & H); try (vm_compute; reflexivity).
    exists s2. vm_compute Py.get_truthy in H. cbv iota in H.
    destruct H as (H1 & H2 & H3 & _). split; [exact H1|]. split; [exact H2|exact H3].
Defined.

Lemma edits_outside_are_noops_witness :
  let sq := Examples.sequence_of [Examples.settle; Examples.loop_end] in
  ExperimentSequence.remove_task 2 sq = inr sq /\
  ExperimentSequence.remove_task (-1) sq = inr sq /\
  ExperimentSequence.move_task_up 0 sq = inr sq /\
  ExperimentSequence.move_task_up 7 sq = inr sq /\
  ExperimentSequence.move_task_down 1 sq = inr sq /\
  ExperimentSequence.move_task_down (-3) sq = inr sq.
Proof.
  intros sq.
  split; [apply (proj1 (edits_outside_are_noops sq 2)); simpl; lia|].
  split; [apply (proj1 (edits_outside_are_noops sq (-1))); simpl; lia|].
  split; [apply (proj1 (proj2 (edits_outside_are_noops sq 0))); simpl; lia|].
  split; [apply (proj1 (proj2 (edits_outside_are_noops sq 7))); simpl; lia|].
  split; [apply (proj2 (proj2 (edits_outside_are_noops sq 1))); simpl; lia|].
  apply (proj2 (proj2 (edits_outside_are_noops sq (-3)))); simpl; lia.
Defined.

Lemma empty_sequence_completes_witness :
  ExperimentSequence.tasks (ExperimentSequence.init "empty") = [] /\
  exists s,
    SequenceExecutor.run 0
      (SequenceExecutor.init
         (ExperimentSequence.reset (ExperimentSequence.init "empty"))
         Examples.bench) = Some s /\
    ExperimentSequence.status (SequenceExecutor.sequence s) = ExperimentSequence.Complete /\
    ExperimentSequence.results (SequenceExecutor.sequence s) = ∅ /\
    SequenceExecutor.emitted s = [SequenceExecutor.sequence_completed].
Proof.
  split; [reflexivity|].
  apply (empty_sequence_completes 0 (ExperimentSequence.init "empty") Examples.bench).
  reflexivity.
Defined.

(** ** Condition tasks *)

Lemma evaluate_condition_reads (condition : option string)
    (results : gmap string Py.value) :
  SequenceExecutor.evaluate_condition condition results =
  inr match condition_parts condition with
      | Some (l, r) =>
          match results !! l with
          | Some v =>
              match SequenceExecutor.convert_and_compare v r with
              | inr b => b
              | inl _ => false
              end
          | None => false
          end
      | None => false
      end.
Proof.
  unfold SequenceExecutor.evaluate_condition, condition_parts.
  repeat case_match; simplify_eq; reflexivity.
Qed.




Lemma get_truthy_lookup (d : gmap string Py.value) (k : string) (v : Py.value) :
  d !! k = Some v -> Py.get_truthy d k = Py.truthy v.
Proof. intros H. unfold Py.get_truthy. rewrite H. reflexivity. Qed.




(** The test on [else_index] is one of truth: the index 0, which the task
    dialog proposes, is falsy, and the round advances instead of jumping. *)
Lemma else_index_zero_falls_through :
  let task := Examples.check "x == 6" {[ "else_index" := Py.VInt 0 ]} in
  let s := Examples.after_reading [Examples.read_x; task; Examples.settle] 1 in
  SequenceExecutor.evaluate_condition (ExperimentTask.condition task)
    (ExperimentSequence.results (SequenceExecutor.sequence s)) = inr false /\
  exists s',
    SequenceExecutor.round 1 task s = SequenceExecutor.NextRound s' /\
    ExperimentSequence.current_task (SequenceExecutor.sequence s') = 2%nat.
Proof.
  intros task s.
  split; [vm_compute; reflexivity|].
  exists (match SequenceExecutor.round 1 task s with
          | SequenceExecutor.NextRound s' | SequenceExecutor.Break s' => s'
          end).
  split; vm_compute; reflexivity.
Qed.

(** ** Instrument tasks *)

Section InstrumentTask.

Variables (s : SequenceExecutor.t) (i r : nat) (task : ExperimentTask.t).

Hypothesis Hty : ExperimentTask.task_type task = "instrument".
Hypothesis Htarget : ExperimentTask.target task = Some r.
Hypothesis Hfunction : ExperimentTask.str_truthy (ExperimentTask.function task) = true.

Let target := SequenceExecutor.instruments s r.

(** When [run_function] returns, the parameters the target had before the
    call are put back. *)
Lemma override_restored_on_return (v : Py.value) (left_behind : gmap string Py.value) :
  Instrument.run_function target (ExperimentTask.parameters task) = (inr v, left_behind) ->
  exists s',
    SequenceExecutor.dispatch i task s = (s', inr SequenceExecutor.Fallthrough) /\
    Instrument.parameters (SequenceExecutor.instruments s' r)
      = Instrument.parameters target /\
    ExperimentSequence.results (SequenceExecutor.sequence s') !! ExperimentTask.name task
      = Some v.
Proof.
  intros Hcall. unfold SequenceExecutor.dispatch.
  rewrite Hty, Htarget, Hfunction. simpl String.eqb. cbv iota.
  unfold_exec. simpl. rewrite !fn_lookup_insert. simpl.
  fold target. rewrite Hcall. simpl.
  eexists. split; [reflexivity|]. simpl.
  rewrite !fn_lookup_insert. simpl. rewrite lookup_insert_eq. split; reflexivity.
Qed.

(** When [run_function] raises, the statement that restores them is not
    reached: the target keeps what the call left of the task's parameters. *)
Lemma override_kept_on_raise (e : Py.exn) (left_behind : gmap string Py.value) :
  Instrument.run_function target (ExperimentTask.parameters task) = (inl e, left_behind) ->
  exists s',
    SequenceExecutor.dispatch i task s = (s', inl e) /\
    Instrument.parameters (SequenceExecutor.instruments s' r) = left_behind.
Proof.
  intros Hcall. unfold SequenceExecutor.dispatch.
  rewrite Hty, Htarget, Hfunction. simpl String.eqb. cbv iota.
  unfold_exec. simpl. rewrite !fn_lookup_insert. simpl.
  fold target. rewrite Hcall. simpl.
  eexists. split; [reflexivity|]. simpl.
  rewrite !fn_lookup_insert. reflexivity.
Qed.

End InstrumentTask.

(** C2, at a call that raises.  The supply holds [volts = 12]; the task
    installs [volts = 5] and the call fails with a timeout.  After the
    round the task is in error, the run is stopped, and the supply still
    holds the task's [volts = 5], not its own [volts = 12]. *)
Theorem override_survives_a_raise :
  let task := Examples.set_volts {[ "volts" := Py.VInt 5 ]} in
  let s := SequenceExecutor.start
             (SequenceExecutor.init (Examples.sequence_of [task]) Examples.bench) in
  Instrument.parameters (SequenceExecutor.instruments s 1%nat)
    = {[ "volts" := Py.VInt 12 ]} /\
  exists s',
    SequenceExecutor.round 0 task s = SequenceExecutor.Break s' /\
    SequenceExecutor.emitted s' =
      [SequenceExecutor.task_started 0;
       SequenceExecutor.task_error 0 (Py.RaisedByInstrument "timeout")] /\
    Instrument.parameters (SequenceExecutor.instruments s' 1%nat)
      = {[ "volts" := Py.VInt 5 ]} /\
    Instrument.parameters (SequenceExecutor.instruments s' 1%nat)
      <> Instrument.parameters (SequenceExecutor.instruments s 1%nat).
Proof.
  intros task s.
  split; [reflexivity|].
  exists (match SequenceExecutor.round 0 task s with
          | SequenceExecutor.NextRound s' | SequenceExecutor.Break s' => s'
          end).
  split; [vm_compute; reflexivity|].
  split; [vm_compute; reflexivity|].
  assert (H : Instrument.parameters
                (SequenceExecutor.instruments
                   (match SequenceExecutor.round 0 task s with
                    | SequenceExecutor.NextRound s' | SequenceExecutor.Break s' => s'
                    end) 1%nat) = {[ "volts" := Py.VInt 5 ]})
    by (vm_compute; reflexivity).
  split; [exact H|].
  rewrite H. intros Heq.
  apply (f_equal (fun m : gmap string Py.value => m !! "volts")) in Heq.
  vm_compute in Heq. discriminate.
Qed.

(** ** Loops *)

Lemma last_frame_app (stack : list (nat * Z * Z)) (frame : nat * Z * Z) :
  SequenceExecutor.last_frame (stack ++ [frame]) = Some frame.
Proof.
  unfold SequenceExecutor.last_frame. rewrite map_app. simpl.
  apply last_last.
Qed.

Lemma completions_app (i : nat) (l1 l2 : list SequenceExecutor.Signal) :
  SequenceExecutor.completions i (l1 ++ l2)
  = (SequenceExecutor.completions i l1 + SequenceExecutor.completions i l2)%nat.
Proof.
  unfold SequenceExecutor.completions. rewrite List.filter_app, length_app. reflexivity.
Qed.

Lemma rounds_to_trans (s1 s2 s3 : SequenceExecutor.t) :
  SequenceExecutor.rounds_to s1 s2 -> SequenceExecutor.rounds_to s2 s3 ->
  SequenceExecutor.rounds_to s1 s3.
Proof.
  induction 1 as [|s task sa sb Htask Hs Hp Hround _ IH]; intros H23.
  - exact H23.
  - eapply SequenceExecutor.rounds_more; eauto.
Qed.

(** The three tasks of [loop3], whatever their statuses and results. *)
Lemma loop3_tasks_shape (ts : list ExperimentTask.t) :
  map ExperimentSequence.reset_task ts
    = map ExperimentSequence.reset_task (ExperimentSequence.tasks Examples.loop3) ->
  exists r0 st0 r1 st1 r2 st2,
    ts = [ExperimentTask.set_result r0 (ExperimentTask.set_status st0 (Examples.loop_start 3));
          ExperimentTask.set_result r1 (ExperimentTask.set_status st1 Examples.settle);
          ExperimentTask.set_result r2 (ExperimentTask.set_status st2 Examples.loop_end)].
Proof.
  intros Htasks.
  destruct ts as [|t0 [|t1 [|t2 [|t3 ts]]]]; try discriminate Htasks.
  destruct t0, t1, t2. unfold ExperimentSequence.reset_task in Htasks.
  simpl in Htasks. simplify_eq.
  do 6 eexists. reflexivity.
Qed.

Ltac loop3_state s Htasks :=
  destruct s as [[nm ts sched cur st ls res rec] pa sto insts em];
  simpl in *;
  destruct (loop3_tasks_shape _ Htasks) as (r0 & st0 & r1 & st1 & r2 & st2 & ->);
  clear Htasks.

Lemma loop3_start_round (s : SequenceExecutor.t) (stack : list (nat * Z * Z)) :
  Examples.in_loop3 s 0 stack ->
  exists task s',
    ExperimentSequence.tasks (SequenceExecutor.sequence s) !! 0%nat = Some task /\
    SequenceExecutor.round 0 task s = SequenceExecutor.NextRound s' /\
    Examples.in_loop3 s' 1 (stack ++ [(0%nat, 0, 3)]) /\
    SequenceExecutor.completions 1 (SequenceExecutor.emitted s')
      = SequenceExecutor.completions 1 (SequenceExecutor.emitted s).
Proof.
  intros (Hp & Hs & Htasks & Hcur & Hstack).
  loop3_state s Htasks. subst.
  eexists. eexists. split; [reflexivity|].
  split; [reflexivity|]. split.
  - repeat split.
  - simpl. rewrite <- app_assoc, completions_app. simpl.
    unfold SequenceExecutor.completions at 2. simpl. lia.
Qed.

Lemma loop3_body_round (s : SequenceExecutor.t) (stack : list (nat * Z * Z)) :
  Examples.in_loop3 s 1 stack ->
  exists task s',
    ExperimentSequence.tasks (SequenceExecutor.sequence s) !! 1%nat = Some task /\
    SequenceExecutor.round 1 task s = SequenceExecutor.NextRound s' /\
    Examples.in_loop3 s' 2 stack /\
    SequenceExecutor.completions 1 (SequenceExecutor.emitted s')
      = S (SequenceExecutor.completions 1 (SequenceExecutor.emitted s)).
Proof.
  intros (Hp & Hs & Htasks & Hcur & Hstack).
  loop3_state s Htasks. subst.
  eexists. eexists. split; [reflexivity|].
  split; [reflexivity|]. split.
  - repeat split.
  - simpl. rewrite <- app_assoc, completions_app. simpl.
    unfold SequenceExecutor.completions at 2. simpl. lia.
Qed.

Lemma loop3_end_round (s : SequenceExecutor.t) (stack : list (nat * Z * Z)) :
  Examples.in_loop3 s 2 (stack ++ [(0%nat, 0, 3)]) ->
  exists task s',
    ExperimentSequence.tasks (SequenceExecutor.sequence s) !! 2%nat = Some task /\
    SequenceExecutor.round 2 task s = SequenceExecutor.NextRound s' /\
    Examples.in_loop3 s' 0 (stack ++ [(0%nat, 1, 3)]) /\
    SequenceExecutor.completions 1 (SequenceExecutor.emitted s')
      = SequenceExecutor.completions 1 (SequenceExecutor.emitted s).
Proof.
  intros (Hp & Hs & Htasks & Hcur & Hstack).
  loop3_state s Htasks. subst.
  eexists. eexists. split; [reflexivity|].
  unfold SequenceExecutor.round, SequenceExecutor.dispatch. simpl.
  unfold_exec. simpl. rewrite last_frame_app. simpl.
  rewrite removelast_last.
  split; [reflexivity|]. split.
  - repeat split.
  - simpl. rewrite <- app_assoc, completions_app. simpl.
    unfold SequenceExecutor.completions at 2. simpl. lia.
Qed.

(** One pass over [loop3], from the loop start back to the loop start: the
    body has been completed once more, and the stack is one frame longer. *)
Lemma loop3_pass (s : SequenceExecutor.t) (stack : list (nat * Z * Z)) :
  Examples.in_loop3 s 0 stack ->
  exists s',
    SequenceExecutor.rounds_to s s' /\
    Examples.in_loop3 s' 0 (stack ++ [(0%nat, 1, 3)]) /\
    SequenceExecutor.completions 1 (SequenceExecutor.emitted s')
      = S (SequenceExecutor.completions 1 (SequenceExecutor.emitted s)).
Proof.
  intros H0.
  destruct (loop3_start_round s stack H0) as (t0 & s1 & Ht0 & Hr0 & H1 & Hc1).
  destruct (loop3_body_round s1 _ H1) as (t1 & s2 & Ht1 & Hr1 & H2 & Hc2).
  destruct (loop3_end_round s2 _ H2) as (t2 & s3 & Ht2 & Hr2 & H3 & Hc3).
  exists s3. split; [|split; [exact H3 | lia]].
  destruct H0 as (Hp0 & Hs0 & _ & Hcur0 & _).
  destruct H1 as (Hp1 & Hs1 & _ & Hcur1 & _).
  destruct H2 as (Hp2 & Hs2 & _ & Hcur2 & _).
  eapply SequenceExecutor.rounds_more;
    [rewrite Hcur0; exact Ht0 | exact Hs0 | exact Hp0 | rewrite Hcur0; exact Hr0 |].
  eapply SequenceExecutor.rounds_more;
    [rewrite Hcur1; exact Ht1 | exact Hs1 | exact Hp1 | rewrite Hcur1; exact Hr1 |].
  eapply SequenceExecutor.rounds_more;
    [rewrite Hcur2; exact Ht2 | exact Hs2 | exact Hp2 | rewrite Hcur2; exact Hr2 |].
  apply SequenceExecutor.rounds_none.
Qed.

Lemma loop3_invariant_round (s : SequenceExecutor.t) :
  Examples.loop3_invariant s ->
  SequenceExecutor.paused s = false /\ SequenceExecutor.stopped s = false /\
  exists task s',
    ExperimentSequence.tasks (SequenceExecutor.sequence s)
      !! ExperimentSequence.current_task (SequenceExecutor.sequence s) = Some task /\
    SequenceExecutor.round
      (ExperimentSequence.current_task (SequenceExecutor.sequence s)) task s
      = SequenceExecutor.NextRound s' /\
    Examples.loop3_invariant s'.
Proof.
  intros [[stack H]|[[stack H]|[stack H]]];
    pose proof H as (Hp & Hs & _ & Hcur & _);
    (split; [exact Hp|]); (split; [exact Hs|]); rewrite Hcur.
  - destruct (loop3_start_round s stack H) as (t0 & s' & Ht & Hr & H' & _).
    exists t0, s'. split; [exact Ht|]. split; [exact Hr|].
    right. left. exists stack. exact H'.
  - destruct (loop3_body_round s _ H) as (t1 & s' & Ht & Hr & H' & _).
    exists t1, s'. split; [exact Ht|]. split; [exact Hr|].
    right. right. exists stack. exact H'.
  - destruct (loop3_end_round s _ H) as (t2 & s' & Ht & Hr & H' & _).
    exists t2, s'. split; [exact Ht|]. split; [exact Hr|].
    left. eexists. exact H'.
Qed.

Lemma loop3_main_loop_runs_on (fuel : nat) (s : SequenceExecutor.t) :
  Examples.loop3_invariant s -> SequenceExecutor.main_loop fuel s = None.
Proof.
  revert s. induction fuel as [|fuel IH]; intros s Hinv;
    destruct (loop3_invariant_round s Hinv)
      as (Hp & Hs & task & s' & Htask & Hround & Hinv').
  - simpl. rewrite Htask, Hs. reflexivity.
  - rewrite (main_loop_round fuel s task Htask Hp Hs), Hround.
    apply IH, Hinv'.
Qed.

Lemma loop3_entered (insts : instrument_store) :
  Examples.in_loop3
    (SequenceExecutor.start (SequenceExecutor.init Examples.loop3 insts)) 0 [].
Proof. repeat split. Qed.

(** C1, on the code.  For the sequence [loop_start] (repeat 3), one delay
    task, [loop_end]: the run never ends, whatever the fuel; and for every
    [k] the main loop reaches a state in which the body task has been
    completed [k] times and the loop stack holds [k] frames.  The jump of
    [loop_end] lands on [loop_start] itself, which pushes a fresh frame
    with iteration 0 at every pass. *)
Theorem loop_of_three_never_exits (insts : instrument_store) :
  (forall fuel,
     SequenceExecutor.run fuel (SequenceExecutor.init Examples.loop3 insts) = None) /\
  (forall k,
     exists s,
       SequenceExecutor.rounds_to
         (SequenceExecutor.start (SequenceExecutor.init Examples.loop3 insts)) s /\
       SequenceExecutor.completions 1 (SequenceExecutor.emitted s) = k /\
       length (ExperimentSequence.loop_stack (SequenceExecutor.sequence s)) = k).
Proof.
  split.
  - intros fuel. unfold SequenceExecutor.run, SequenceExecutor.run_from.
    rewrite loop3_main_loop_runs_on; [reflexivity|].
    left. exists []. apply loop3_entered.
  - intros k.
    assert (H : exists s stack,
               SequenceExecutor.rounds_to
                 (SequenceExecutor.start (SequenceExecutor.init Examples.loop3 insts)) s /\
               Examples.in_loop3 s 0 stack /\ length stack = k /\
               SequenceExecutor.completions 1 (SequenceExecutor.emitted s) = k).
    { induction k as [|k (s & stack & Hto & Hin & Hlen & Hcount)].
      - exists (SequenceExecutor.start (SequenceExecutor.init Examples.loop3 insts)), [].
        split; [apply SequenceExecutor.rounds_none|].
        split; [apply loop3_entered|]. split; reflexivity.
      - destruct (loop3_pass s stack Hin) as (s' & Hpass & Hin' & Hcount').
        exists s', (stack ++ [(0%nat, 1, 3)]).
        split; [exact (rounds_to_trans _ _ _ Hto Hpass)|].
        split; [exact Hin'|]. split.
        + rewrite length_app. simpl. lia.
        + lia. }
    destruct H as (s & stack & Hto & Hin & Hlen & Hcount).
    exists s. split; [exact Hto|]. split; [exact Hcount|].
    destruct Hin as (_ & _ & _ & _ & ->). exact Hlen.
Qed.

(** ** Scheduled sequences *)

Section CheckScheduled.

Variable current_time : Qt.QDateTime.

Lemma run_sequence_effect (i : nat) (m : SequenceManager.t)
    (sq : ExperimentSequence.t) :
  SequenceManager.sequences m !! i = Some sq ->
  SequenceManager.sequences (fst (SequenceManager.run_sequence i m))
    = SequenceManager.sequences m /\
  SequenceManager.started (fst (SequenceManager.run_sequence i m))
    = SequenceManager.started m ++ [i].
Proof.
  intros H. unfold SequenceManager.run_sequence, SequenceManager.name_at.
  rewrite H. simpl.
  destruct (SequenceManager.executors m !! ExperimentSequence.name sq) as [ex|];
    simpl; [|split; reflexivity].
  unfold SequenceManager.stop_sequence, SequenceManager.name_at.
  rewrite H. simpl.
  destruct (SequenceManager.executors m !! ExperimentSequence.name sq) as [ex'|];
    [destruct (SequenceManager.isRunning ex')|]; simpl; split; reflexivity.
Qed.

(** The body of the loop, read off its test. *)
Lemma check_sequence_effect (i : nat) (m : SequenceManager.t) :
  let m' := SequenceManager.check_sequence current_time i m in
  match SequenceManager.sequences m !! i with
  | Some sq =>
      if SequenceManager.is_due current_time sq then
        SequenceManager.sequences m'
          = <[i := SequenceManager.rescheduled sq]> (SequenceManager.sequences m) /\
        SequenceManager.started m' = SequenceManager.started m ++ [i]
      else m' = m
  | None => m' = m
  end.
Proof.
  intros m'. subst m'. unfold SequenceManager.check_sequence, SequenceManager.is_due.
  destruct (SequenceManager.sequences m !! i) as [sq|] eqn:Hsq; [|reflexivity].
  destruct (ExperimentSequence.status sq); try reflexivity.
  destruct (ExperimentSequence.scheduled_time sq) as [due|] eqn:Hdue; [|reflexivity].
  destruct (Qt.truthy due && Qt.le due current_time); [|reflexivity].
  unfold SequenceManager.rescheduled. rewrite Hdue.
  set (m1 := {| SequenceManager.sequences := _ |}).
  assert (H1 : SequenceManager.sequences m1 !! i
               = Some (ExperimentSequence.set_scheduled_time
                         (SequenceManager.reschedule sq due) sq)).
  { simpl. apply list_lookup_insert_eq. apply lookup_lt_is_Some. eauto. }
  destruct (run_sequence_effect i m1 _ H1) as [-> ->]. split; reflexivity.
Qed.

Lemma check_sequence_elsewhere (i j : nat) (m : SequenceManager.t) :
  i <> j ->
  let m' := SequenceManager.check_sequence current_time i m in
  SequenceManager.sequences m' !! j = SequenceManager.sequences m !! j /\
  count_occ Nat.eq_dec (SequenceManager.started m') j
    = count_occ Nat.eq_dec (SequenceManager.started m) j.
Proof.
  intros Hij m'. pose proof (check_sequence_effect i m) as H. fold m' in H.
  destruct (SequenceManager.sequences m !! i) as [sq|]; [|rewrite H; split; reflexivity].
  destruct (SequenceManager.is_due current_time sq); [|rewrite H; split; reflexivity].
  destruct H as [-> ->]. split.
  - apply list_lookup_insert_ne. exact Hij.
  - rewrite count_occ_app. simpl.
    destruct (Nat.eq_dec i j); [contradiction|]. lia.
Qed.

Lemma checks_elsewhere (l : list nat) (j : nat) (m : SequenceManager.t) :
  j ∉ l ->
  let m' := fold_left (fun m i => SequenceManager.check_sequence current_time i m) l m in
  SequenceManager.sequences m' !! j = SequenceManager.sequences m !! j /\
  count_occ Nat.eq_dec (SequenceManager.started m') j
    = count_occ Nat.eq_dec (SequenceManager.started m) j.
Proof.
  revert m. induction l as [|i l IH]; intros m Hj; simpl.
  - split; reflexivity.
  - apply not_elem_of_cons in Hj as [Hji Hjl].
    destruct (IH (SequenceManager.check_sequence current_time i m) Hjl) as [-> ->].
    apply check_sequence_elsewhere. congruence.
Qed.

Lemma check_sequence_here (j : nat) (m : SequenceManager.t)
    (sq : ExperimentSequence.t) :
  SequenceManager.sequences m !! j = Some sq ->
  let m' := SequenceManager.check_sequence current_time j m in
  SequenceManager.sequences m' !! j
    = Some (if SequenceManager.is_due current_time sq
            then SequenceManager.rescheduled sq else sq) /\
  count_occ Nat.eq_dec (SequenceManager.started m') j
    = ((if SequenceManager.is_due current_time sq then 1 else 0)
       + count_occ Nat.eq_dec (SequenceManager.started m) j)%nat.
Proof.
  intros Hsq m'. pose proof (check_sequence_effect j m) as H. fold m' in H.
  rewrite Hsq in H.
  destruct (SequenceManager.is_due current_time sq).
  - destruct H as [-> ->]. split.
    + apply list_lookup_insert_eq. apply lookup_lt_is_Some. eauto.
    + rewrite count_occ_app. simpl.
      destruct (Nat.eq_dec j j); [lia | contradiction].
  - rewrite H. split; [exact Hsq | reflexivity].
Qed.

(** Over a list of places without repetition, the place [j] of the list is
    checked once, against the sequence found there at the start. *)
Lemma checks_at (l : list nat) (j : nat) (m : SequenceManager.t)
    (sq : ExperimentSequence.t) :
  NoDup l -> j ∈ l ->
  SequenceManager.sequences m !! j = Some sq ->
  let m' := fold_left (fun m i => SequenceManager.check_sequence current_time i m) l m in
  SequenceManager.sequences m' !! j
    = Some (if SequenceManager.is_due current_time sq
            then SequenceManager.rescheduled sq else sq) /\
  count_occ Nat.eq_dec (SequenceManager.started m') j
    = ((if SequenceManager.is_due current_time sq then 1 else 0)
       + count_occ Nat.eq_dec (SequenceManager.started m) j)%nat.
Proof.
  revert m. induction l as [|i l IH]; intros m Hnodup Hj Hsq; simpl.
  - apply elem_of_nil in Hj. contradiction.
  - apply NoDup_cons in Hnodup as [Hil Hnodup].
    destruct (decide (j = i)) as [->|Hji].
    + destruct (checks_elsewhere l i
                  (SequenceManager.check_sequence current_time i m) Hil) as [-> ->].
      apply check_sequence_here, Hsq.
    + apply elem_of_cons in Hj as [Hj|Hj]; [contradiction|].
      destruct (check_sequence_elsewhere i j m (not_eq_sym Hji)) as [Hsame Hsame'].
      simpl in Hsame, Hsame'. rewrite Hsq in Hsame.
      destruct (IH (SequenceManager.check_sequence current_time i m) Hnodup Hj Hsame)
        as [-> ->].
      rewrite Hsame'. split; reflexivity.
Qed.

End CheckScheduled.

Lemma addDays_one_is_24_hours (due : Qt.QDateTime) :
  Qt.truthy due = true ->
  Qt.toMSecsSinceEpoch (Qt.addDays due 1)
    = Qt.toMSecsSinceEpoch due + 24 * 60 * 60 * 1000.
Proof.
  destruct due as [|jd ms]; [discriminate|]. intros _.
  unfold Qt.addDays, Qt.toMSecsSinceEpoch, Qt.MSECS_PER_DAY. lia.
Qed.



(** ** Serialization *)

Lemma from_dict_tasks (insts : instrument_store) (instruments : list nat)
    (ds : list ExperimentTask.data) (sq0 : ExperimentSequence.t) :
  fold_left
    (fun sequence task_data =>
       ExperimentSequence.add_task
         (ExperimentTask.from_dict insts task_data instruments) sequence)
    ds sq0
  = ExperimentSequence.set_tasks
      (ExperimentSequence.tasks sq0
         ++ map (fun d => ExperimentTask.from_dict insts d instruments) ds) sq0.
Proof.
  revert sq0. induction ds as [|d ds IH]; intros sq0; simpl.
  - rewrite app_nil_r. destruct sq0; reflexivity.
  - rewrite IH. unfold ExperimentSequence.add_task. simpl.
    rewrite <- app_assoc. reflexivity.
Qed.

Lemma task_round_trip (insts : instrument_store) (instruments : list nat)
    (task : ExperimentTask.t) :
  resolvable insts instruments task ->
  ExperimentTask.from_dict insts (ExperimentTask.to_dict insts task) instruments
    = ExperimentSequence.reset_task task.
Proof.
  intros Hres. destruct task as [nm ty tg fn ps dl rp cd rs st].
  unfold ExperimentTask.from_dict, ExperimentTask.to_dict, ExperimentTask.init,
    ExperimentSequence.reset_task. simpl.
  destruct tg as [r|]; simpl; [|reflexivity].
  destruct (Hres r eq_refl) as [Hname Hfind].
  apply String.eqb_neq in Hname. rewrite Hname. simpl. rewrite Hfind. reflexivity.
Qed.

Lemma tasks_round_trip (insts : instrument_store) (instruments : list nat)
    (ts : list ExperimentTask.t) :
  Forall (resolvable insts instruments) ts ->
  map (fun d => ExperimentTask.from_dict insts d instruments)
      (map (ExperimentTask.to_dict insts) ts)
    = map ExperimentSequence.reset_task ts.
Proof.
  induction 1 as [|task ts Hres _ IH]; simpl; [reflexivity|].
  rewrite task_round_trip by exact Hres. rewrite IH. reflexivity.
Qed.

Lemma schedule_round_trip (insts : instrument_store) (instruments : list nat)
    (sq : ExperimentSequence.t) :
  (forall dt, ExperimentSequence.scheduled_time sq = Some dt -> reads_back dt) ->
  ExperimentSequence.scheduled_time
    (ExperimentSequence.from_dict insts (ExperimentSequence.to_dict insts sq) instruments)
  = ExperimentSequence.scheduled_time sq.
Proof.
  intros Hback.
  unfold ExperimentSequence.from_dict, ExperimentSequence.to_dict. simpl.
  rewrite from_dict_tasks.
  destruct (ExperimentSequence.scheduled_time sq) as [dt|]; simpl; [|reflexivity].
  destruct (Hback dt eq_refl) as [Htruthy Htext]. rewrite Htruthy. simpl.
  destruct (String.eqb (Qt.toString_ISODate dt) "") eqn:Hempty; simpl.
  - apply String.eqb_eq in Hempty. rewrite Hempty in Htext.
    rewrite <- Htext in Htruthy. discriminate.
  - rewrite Htext. reflexivity.
Qed.


Lemma bench_tasks_resolvable (msecs : Z) (recurrence : option string) :
  Forall (resolvable Examples.bench [0%nat; 1%nat])
         (ExperimentSequence.tasks (Examples.scheduled msecs recurrence)).
Proof.
  simpl. constructor; [|constructor; [|constructor]];
    intros r Hr; simpl in Hr; simplify_eq.
  split; [discriminate | reflexivity].
Qed.




(** With one repetition the same construct does end: the body is completed
    once and the loop stack is empty again. *)
Lemma loop_of_one_exits :
  exists s,
    SequenceExecutor.run 3
      (SequenceExecutor.init
         (Examples.sequence_of
            [Examples.loop_start 1; Examples.settle; Examples.loop_end])
         Examples.bench) = Some s /\
    ExperimentSequence.status (SequenceExecutor.sequence s) = ExperimentSequence.Complete /\
    ExperimentSequence.loop_stack (SequenceExecutor.sequence s) = [] /\
    SequenceExecutor.completions 1 (SequenceExecutor.emitted s) = 1%nat.
Proof.
  eexists. split; [vm_compute; reflexivity|].
  split; [reflexivity|]. split; reflexivity.
Qed.

(** * Further properties *)

(** ** What a round leaves alone *)

Lemma map_reset_alter (f : ExperimentTask.t -> ExperimentTask.t) (i : nat)
    (ts : list ExperimentTask.t) :
  (forall task, ExperimentSequence.reset_task (f task) = ExperimentSequence.reset_task task) ->
  map ExperimentSequence.reset_task (alter f i ts) = map ExperimentSequence.reset_task ts.
Proof.
  intros Hf. revert i. induction ts as [|task ts IH]; intros [|i]; simpl;
    try reflexivity.
  - rewrite Hf. reflexivity.
  - f_equal. apply IH.
Qed.

Lemma reset_set_status (st : ExperimentTask.Status) (task : ExperimentTask.t) :
  ExperimentSequence.reset_task (ExperimentTask.set_status st task)
    = ExperimentSequence.reset_task task.
Proof. reflexivity. Qed.

Lemma reset_set_result (r : option ExperimentTask.Result) (task : ExperimentTask.t) :
  ExperimentSequence.reset_task (ExperimentTask.set_result r task)
    = ExperimentSequence.reset_task task.
Proof. reflexivity. Qed.

Ltac absorb_alters :=
  repeat (rewrite map_reset_alter
            by (intros ?; first [apply reset_set_status | apply reset_set_result])).

(** The program of a sequence: everything but the state of its run. *)
Lemma dispatch_program (i : nat) (task : ExperimentTask.t)
    (s s' : SequenceExecutor.t) (r : Py.exn + SequenceExecutor.Flow) :
  SequenceExecutor.dispatch i task s = (s', r) ->
  map ExperimentSequence.reset_task
      (ExperimentSequence.tasks (SequenceExecutor.sequence s'))
    = map ExperimentSequence.reset_task
          (ExperimentSequence.tasks (SequenceExecutor.sequence s)) /\
  ExperimentSequence.name (SequenceExecutor.sequence s')
    = ExperimentSequence.name (SequenceExecutor.sequence s) /\
  ExperimentSequence.scheduled_time (SequenceExecutor.sequence s')
    = ExperimentSequence.scheduled_time (SequenceExecutor.sequence s) /\
  ExperimentSequence.recurrence_type (SequenceExecutor.sequence s')
    = ExperimentSequence.recurrence_type (SequenceExecutor.sequence s).
Proof.
  unfold SequenceExecutor.dispatch. unfold_exec.
  intros H.
  repeat case_match; simplify_eq; simpl; absorb_alters;
    repeat split; reflexivity.
Qed.

Lemma dispatch_instruments (i : nat) (task : ExperimentTask.t)
    (s s' : SequenceExecutor.t) (r : Py.exn + SequenceExecutor.Flow) :
  SequenceExecutor.dispatch i task s = (s', r) ->
  (forall r0, Instrument.name (SequenceExecutor.instruments s' r0)
              = Instrument.name (SequenceExecutor.instruments s r0)) /\
  (forall r0, Instrument.run_function (SequenceExecutor.instruments s' r0)
              = Instrument.run_function (SequenceExecutor.instruments s r0)) /\
  (forall r0, (ExperimentTask.task_type task = "instrument" ->
               ExperimentTask.target task <> Some r0) ->
              SequenceExecutor.instruments s' r0 = SequenceExecutor.instruments s r0).
Proof.
  unfold SequenceExecutor.dispatch. unfold_exec.
  intros H.
  repeat case_match; simplify_eq; simpl;
    (split; [|split]); intros r0; try reflexivity; try (intros _; reflexivity);
    unfold insert, fn_insert; repeat case_decide; subst; simpl;
    try reflexivity;
    try (intros Hne; exfalso; apply Hne;
         [apply String.eqb_eq; assumption | reflexivity]).
Qed.

Lemma dispatch_signals (i : nat) (task : ExperimentTask.t)
    (s s' : SequenceExecutor.t) (r : Py.exn + SequenceExecutor.Flow) :
  SequenceExecutor.dispatch i task s = (s', r) ->
  match r with
  | inr SequenceExecutor.ContinueLoop =>
      exists res, SequenceExecutor.emitted s'
                  = SequenceExecutor.emitted s ++ [SequenceExecutor.task_completed i res]
  | _ => SequenceExecutor.emitted s' = SequenceExecutor.emitted s
  end.
Proof.
  unfold SequenceExecutor.dispatch. unfold_exec.
  intros H.
  repeat case_match; simplify_eq; simpl; eauto.
Qed.

(** Where the [try] body leaves the cursor and the loop stack. *)
Lemma dispatch_control (i : nat) (task : ExperimentTask.t)
    (s s' : SequenceExecutor.t) (r : Py.exn + SequenceExecutor.Flow) :
  SequenceExecutor.dispatch i task s = (s', r) ->
  let c := ExperimentSequence.current_task (SequenceExecutor.sequence s) in
  let st := ExperimentSequence.loop_stack (SequenceExecutor.sequence s) in
  let c' := ExperimentSequence.current_task (SequenceExecutor.sequence s') in
  let st' := ExperimentSequence.loop_stack (SequenceExecutor.sequence s') in
  match r with
  | inl _ => c' = c /\ st' = st
  | inr SequenceExecutor.Fallthrough =>
      c' = c /\
      (st' = st \/
       (ExperimentTask.task_type task = "loop_start" /\
        st' = st ++ [(i, 0, ExperimentTask.repeat task)]) \/
       (ExperimentTask.task_type task = "loop_end" /\ st' = removelast st))
  | inr SequenceExecutor.ContinueLoop =>
      (ExperimentTask.task_type task = "loop_end" /\
       exists start it max,
         SequenceExecutor.last_frame st = Some (start, it, max) /\
         it + 1 < max /\ c' = start /\
         st' = removelast st ++ [(start, it + 1, max)]) \/
      (ExperimentTask.task_type task = "condition" /\
       exists j, 0 <= j < Z.of_nat (length (ExperimentSequence.tasks
                                              (SequenceExecutor.sequence s))) /\
                 c' = Z.to_nat j /\ st' = st)
  end.
Proof.
  unfold SequenceExecutor.dispatch. unfold_exec.
  intros H.
  repeat case_match; simplify_eq; simpl;
    repeat match goal with
           | H : String.eqb _ _ = true |- _ => apply String.eqb_eq in H
           end;
    rewrite ?length_alter in *;
    try (split; reflexivity);
    try (split; [reflexivity|]; auto; fail).
  - left. split; [assumption|]. do 3 eexists.
    split; [reflexivity|]. split; [lia|]. split; reflexivity.
  - right. split; [assumption|]. eexists. split; [|split; reflexivity].
    repeat match goal with
           | H : _ && _ = true |- _ => apply andb_true_iff in H as [? ?]
           end.
    simpl in *. rewrite length_alter in *. lia.
Qed.

(** A round is the [try] body on the state [begin_task] prepares, followed
    by one of three endings. *)
Lemma round_by_dispatch (i : nat) (task : ExperimentTask.t) (s : SequenceExecutor.t) :
  exists s1 r,
    SequenceExecutor.dispatch i task (SequenceExecutor.begin_task i s) = (s1, r) /\
    SequenceExecutor.round i task s =
      match r with
      | inr SequenceExecutor.Fallthrough =>
          SequenceExecutor.NextRound
            (SequenceExecutor.advance
               (SequenceExecutor.emit
                  (SequenceExecutor.task_completed i
                     (SequenceExecutor.task_result_at i
                        (SequenceExecutor.with_task i
                           (ExperimentTask.set_status ExperimentTask.Complete) s1)))
                  (SequenceExecutor.with_task i
                     (ExperimentTask.set_status ExperimentTask.Complete) s1)))
      | inr SequenceExecutor.ContinueLoop => SequenceExecutor.NextRound s1
      | inl e =>
          let s2 :=
            SequenceExecutor.emit (SequenceExecutor.task_error i e)
              (SequenceExecutor.with_task i
                 (ExperimentTask.set_result (Some (ExperimentTask.Failed e)))
                 (SequenceExecutor.with_task i
                    (ExperimentTask.set_status ExperimentTask.Error) s1)) in
          if negb (Py.get_truthy (ExperimentTask.parameters task) "continue_on_error")
          then SequenceExecutor.Break
                 (SequenceExecutor.stop
                    (SequenceExecutor.with_sequence
                       (ExperimentSequence.set_status ExperimentSequence.Stopped) s2))
          else SequenceExecutor.NextRound (SequenceExecutor.advance s2)
      end.
Proof.
  unfold SequenceExecutor.round.
  destruct (SequenceExecutor.dispatch i task (SequenceExecutor.begin_task i s))
    as [s1 [e|[|]]]; eauto.
Qed.

Lemma round_program (i : nat) (task : ExperimentTask.t) (s : SequenceExecutor.t) :
  let s' := round_state (SequenceExecutor.round i task s) in
  map ExperimentSequence.reset_task
      (ExperimentSequence.tasks (SequenceExecutor.sequence s'))
    = map ExperimentSequence.reset_task
          (ExperimentSequence.tasks (SequenceExecutor.sequence s)) /\
  ExperimentSequence.name (SequenceExecutor.sequence s')
    = ExperimentSequence.name (SequenceExecutor.sequence s) /\
  ExperimentSequence.scheduled_time (SequenceExecutor.sequence s')
    = ExperimentSequence.scheduled_time (SequenceExecutor.sequence s) /\
  ExperimentSequence.recurrence_type (SequenceExecutor.sequence s')
    = ExperimentSequence.recurrence_type (SequenceExecutor.sequence s) /\
  SequenceExecutor.paused s' = SequenceExecutor.paused s.
Proof.
  destruct (round_by_dispatch i task s) as (s1 & r & Hd & ->).
  destruct (dispatch_program _ _ _ _ _ Hd) as (Htasks & Hname & Hsched & Hrec).
  destruct (dispatch_frame _ _ _ _ _ Hd) as (_ & Hpaused & _).
  simpl in Htasks, Hname, Hsched, Hrec, Hpaused.
  rewrite map_reset_alter in Htasks by (intros ?; apply reset_set_status).
  destruct r as [e|[|]]; simpl;
    [destruct (negb (Py.get_truthy (ExperimentTask.parameters task) "continue_on_error"));
     simpl| |];
    absorb_alters; repeat split; assumption.
Qed.

Lemma round_instruments (i : nat) (task : ExperimentTask.t) (s : SequenceExecutor.t) :
  let s' := round_state (SequenceExecutor.round i task s) in
  (forall r0, Instrument.name (SequenceExecutor.instruments s' r0)
              = Instrument.name (SequenceExecutor.instruments s r0)) /\
  (forall r0, Instrument.run_function (SequenceExecutor.instruments s' r0)
              = Instrument.run_function (SequenceExecutor.instruments s r0)) /\
  (forall r0, (ExperimentTask.task_type task = "instrument" ->
               ExperimentTask.target task <> Some r0) ->
              SequenceExecutor.instruments s' r0 = SequenceExecutor.instruments s r0).
Proof.
  destruct (round_by_dispatch i task s) as (s1 & r & Hd & ->).
  destruct (dispatch_instruments _ _ _ _ _ Hd) as (Hname & Hrun & Hother).
  simpl in Hname, Hrun, Hother.
  destruct r as [e|[|]]; simpl;
    [destruct (negb (Py.get_truthy (ExperimentTask.parameters task) "continue_on_error"));
     simpl| |];
    repeat split; assumption.
Qed.


(** ** What holds when a run ends *)

(** A property of executors that the polls of a paused executor and the
    rounds of the main loop keep is kept by the main loop. *)
Lemma main_loop_keeps (P : SequenceExecutor.t -> Prop) :
  (forall s, P s ->
     P (SequenceExecutor.emit SequenceExecutor.sequence_paused
          (SequenceExecutor.with_sequence
             (ExperimentSequence.set_status ExperimentSequence.Paused) s))) ->
  (forall s task,
     ExperimentSequence.tasks (SequenceExecutor.sequence s)
       !! ExperimentSequence.current_task (SequenceExecutor.sequence s) = Some task ->
     P s ->
     P (round_state
          (SequenceExecutor.round
             (ExperimentSequence.current_task (SequenceExecutor.sequence s)) task s))) ->
  forall fuel s s', SequenceExecutor.main_loop fuel s = Some s' -> P s -> P s'.
Proof.
  intros Hpoll Hround.
  assert (Hwait : forall fuel s s',
             SequenceExecutor.wait_while_paused fuel s = Some s' -> P s ->
             P s' /\
             ExperimentSequence.tasks (SequenceExecutor.sequence s')
               = ExperimentSequence.tasks (SequenceExecutor.sequence s) /\
             ExperimentSequence.current_task (SequenceExecutor.sequence s')
               = ExperimentSequence.current_task (SequenceExecutor.sequence s)).
  { induction fuel as [|fuel IH]; intros s s' Hw HP; simpl in Hw;
      destruct (SequenceExecutor.paused s && negb (SequenceExecutor.stopped s));
      simplify_eq; auto.
    destruct (IH _ _ Hw (Hpoll _ HP)) as (HP' & Ht & Hc). auto. }
  induction fuel as [|fuel IH]; intros s s' Hloop HP; simpl in Hloop.
  - destruct (ExperimentSequence.tasks (SequenceExecutor.sequence s)
                !! ExperimentSequence.current_task (SequenceExecutor.sequence s));
      [destruct (SequenceExecutor.stopped s)|]; simplify_eq; exact HP.
  - destruct (ExperimentSequence.tasks (SequenceExecutor.sequence s)
                !! ExperimentSequence.current_task (SequenceExecutor.sequence s))
      as [task|] eqn:Htask; [|simplify_eq; exact HP].
    destruct (SequenceExecutor.stopped s); [simplify_eq; exact HP|].
    destruct (SequenceExecutor.wait_while_paused fuel s) as [s1|] eqn:Hw;
      [|discriminate].
    destruct (Hwait _ _ _ Hw HP) as (HP1 & Ht & Hc).
    destruct (SequenceExecutor.stopped s1); [simplify_eq; exact HP1|].
    rewrite <- Ht, <- Hc in Htask.
    pose proof (Hround s1 task Htask HP1) as HP2.
    destruct (SequenceExecutor.round
                (ExperimentSequence.current_task (SequenceExecutor.sequence s1)) task s1)
      as [s2|s2]; simpl in HP2.
    + exact (IH _ _ Hloop HP2).
    + simplify_eq. exact HP2.
Qed.

(** The main loop is left with the stop flag up or the cursor past the
    last task. *)
Lemma main_loop_exit (fuel : nat) (s s' : SequenceExecutor.t) :
  SequenceExecutor.main_loop fuel s = Some s' ->
  SequenceExecutor.stopped s' = true \/
  ExperimentSequence.tasks (SequenceExecutor.sequence s')
    !! ExperimentSequence.current_task (SequenceExecutor.sequence s') = None.
Proof.
  revert s. induction fuel as [|fuel IH]; intros s Hloop; simpl in Hloop.
  - destruct (ExperimentSequence.tasks (SequenceExecutor.sequence s)
                !! ExperimentSequence.current_task (SequenceExecutor.sequence s)) eqn:Htask;
      [destruct (SequenceExecutor.stopped s) eqn:Hs|]; simplify_eq; auto.
  - destruct (ExperimentSequence.tasks (SequenceExecutor.sequence s)
                !! ExperimentSequence.current_task (SequenceExecutor.sequence s))
      as [task|] eqn:Htask; [|simplify_eq; auto].
    destruct (SequenceExecutor.stopped s) eqn:Hs; [simplify_eq; auto|].
    destruct (SequenceExecutor.wait_while_paused fuel s) as [s1|]; [|discriminate].
    destruct (SequenceExecutor.stopped s1) eqn:Hs1; [simplify_eq; auto|].
    destruct (round_by_dispatch
                (ExperimentSequence.current_task (SequenceExecutor.sequence s1)) task s1)
      as (s2 & r & Hd & Hr).
    rewrite Hr in Hloop. clear Hr.
    destruct r as [e|[|]];
      [destruct (negb (Py.get_truthy (ExperimentTask.parameters task)
                         "continue_on_error"))| |];
      cbv zeta in Hloop;
      first [apply IH in Hloop; exact Hloop
            | injection Hloop as <-; left; reflexivity].
Qed.

Lemma task_to_dict_program (insts insts' : instrument_store)
    (task task' : ExperimentTask.t) :
  (forall r, Instrument.name (insts' r) = Instrument.name (insts r)) ->
  ExperimentSequence.reset_task task' = ExperimentSequence.reset_task task ->
  ExperimentTask.to_dict insts' task' = ExperimentTask.to_dict insts task.
Proof.
  intros Hname Hreset. destruct task, task'.
  unfold ExperimentSequence.reset_task in Hreset. simpl in Hreset. simplify_eq.
  unfold ExperimentTask.to_dict. simpl.
  destruct target; [rewrite Hname|]; reflexivity.
Qed.

Lemma tasks_to_dict_program (insts insts' : instrument_store)
    (ts ts' : list ExperimentTask.t) :
  (forall r, Instrument.name (insts' r) = Instrument.name (insts r)) ->
  map ExperimentSequence.reset_task ts' = map ExperimentSequence.reset_task ts ->
  map (ExperimentTask.to_dict insts') ts' = map (ExperimentTask.to_dict insts) ts.
Proof.
  intros Hname. revert ts'. induction ts as [|task ts IH]; intros [|task' ts'] Hmap;
    simpl in Hmap; try discriminate; [reflexivity|].
  pose proof (f_equal (hd (ExperimentSequence.reset_task task)) Hmap) as Hhead.
  pose proof (f_equal (@tl _) Hmap) as Htail.
  simpl in Hhead, Htail. simpl.
  rewrite (task_to_dict_program insts insts' task task' Hname Hhead).
  rewrite (IH ts' Htail). reflexivity.
Qed.

Lemma main_loop_same_program (fuel : nat) (s0 s s' : SequenceExecutor.t) :
  SequenceExecutor.main_loop fuel s = Some s' ->
  same_program s0 s -> same_program s0 s'.
Proof.
  apply (main_loop_keeps (same_program s0)).
  - intros s1 H. exact H.
  - intros s1 task _ (Ht & Hn & Hs & Hr & Hi).
    destruct (round_program
                (ExperimentSequence.current_task (SequenceExecutor.sequence s1)) task s1)
      as (Ht' & Hn' & Hs' & Hr' & _).
    destruct (round_instruments
                (ExperimentSequence.current_task (SequenceExecutor.sequence s1)) task s1)
      as (Hi' & _).
    unfold same_program.
    rewrite Ht', Hn', Hs', Hr'. repeat split; try assumption.
    intros r. rewrite Hi'. apply Hi.
Qed.



Lemma frame_program (ts ts' : list ExperimentTask.t) (frame : nat * Z * Z) :
  map ExperimentSequence.reset_task ts' = map ExperimentSequence.reset_task ts ->
  frame_at_loop_start ts frame -> frame_at_loop_start ts' frame.
Proof.
  intros Hmap (task & Hlook & Hty).
  pose proof (f_equal (fun l => l !! frame.1.1) Hmap) as H. simpl in H.
  change (map ExperimentSequence.reset_task ts' !! frame.1.1)
    with ((ExperimentSequence.reset_task <$> ts') !! frame.1.1) in H.
  change (map ExperimentSequence.reset_task ts !! frame.1.1)
    with ((ExperimentSequence.reset_task <$> ts) !! frame.1.1) in H.
  rewrite !list_lookup_fmap, Hlook in H. simpl in H.
  destruct (ts' !! frame.1.1) as [task'|] eqn:Hlook'; [|discriminate].
  exists task'. split; [exact Hlook'|].
  simpl in H.
  assert (H' : ExperimentSequence.reset_task task' = ExperimentSequence.reset_task task)
    by congruence.
  apply (f_equal ExperimentTask.task_type) in H'. simpl in H'. congruence.
Qed.

Lemma well_formed_transfer (sq sq' : ExperimentSequence.t) :
  map ExperimentSequence.reset_task (ExperimentSequence.tasks sq')
    = map ExperimentSequence.reset_task (ExperimentSequence.tasks sq) ->
  (ExperimentSequence.current_task sq' <= length (ExperimentSequence.tasks sq))%nat ->
  Forall (frame_at_loop_start (ExperimentSequence.tasks sq))
         (ExperimentSequence.loop_stack sq') ->
  well_formed sq'.
Proof.
  intros Hmap Hcur Hframes. split.
  - apply (f_equal (@length _)) in Hmap. rewrite !length_map in Hmap. lia.
  - eapply Forall_impl; [exact Hframes|].
    intros frame. apply frame_program. exact Hmap.
Qed.

Lemma Forall_removelast {A} (P : A -> Prop) (l : list A) :
  Forall P l -> Forall P (removelast l).
Proof.
  induction 1 as [|x l Hx Hl IH]; simpl; [constructor|].
  destruct l; [constructor|]. constructor; assumption.
Qed.

Lemma last_frame_in (P : nat * Z * Z -> Prop) (st : list (nat * Z * Z))
    (frame : nat * Z * Z) :
  Forall P st -> SequenceExecutor.last_frame st = Some frame -> P frame.
Proof.
  unfold SequenceExecutor.last_frame.
  induction 1 as [|x l Hx Hl IH]; simpl; [discriminate|].
  destruct l as [|y l]; simpl in *.
  - intros H. injection H as <-. exact Hx.
  - exact IH.
Qed.

Lemma round_well_formed (s : SequenceExecutor.t) (task : ExperimentTask.t) :
  ExperimentSequence.tasks (SequenceExecutor.sequence s)
    !! ExperimentSequence.current_task (SequenceExecutor.sequence s) = Some task ->
  well_formed (SequenceExecutor.sequence s) ->
  well_formed
    (SequenceExecutor.sequence
       (round_state
          (SequenceExecutor.round
             (ExperimentSequence.current_task (SequenceExecutor.sequence s)) task s))).
Proof.
  intros Htask [Hcur Hframes].
  set (i := ExperimentSequence.current_task (SequenceExecutor.sequence s)) in *.
  assert (Hlt : (i < length (ExperimentSequence.tasks (SequenceExecutor.sequence s)))%nat)
    by (apply lookup_lt_is_Some; eauto).
  pose proof (round_program i task s) as (Hprog & _).
  apply (well_formed_transfer (SequenceExecutor.sequence s)); [exact Hprog| |];
    destruct (round_by_dispatch i task s) as (s1 & r & Hd & ->);
    pose proof (dispatch_control _ _ _ _ _ Hd) as Hc; simpl in Hc;
    rewrite length_alter in Hc; fold i in Hc;
    destruct r as [e|[|]];
    [destruct (negb (Py.get_truthy (ExperimentTask.parameters task) "continue_on_error"))
    | |
    |destruct (negb (Py.get_truthy (ExperimentTask.parameters task) "continue_on_error"))
    | | ]; simpl.
  - destruct Hc as [-> _]. lia.
  - destruct Hc as [-> _]. lia.
  - destruct Hc as [-> _]. lia.
  - destruct Hc as [(_ & start & it & mx & Hlast & _ & -> & _)|(_ & j & Hj & -> & _)].
    + destruct (last_frame_in _ _ _ Hframes Hlast) as (t0 & Hlook & _).
      apply lookup_lt_Some in Hlook. simpl in Hlook. lia.
    + lia.
  - destruct Hc as [_ ->]. exact Hframes.
  - destruct Hc as [_ ->]. exact Hframes.
  - destruct Hc as [_ [->|[[Hty ->]|[_ ->]]]].
    + exact Hframes.
    + apply Forall_app. split; [exact Hframes|].
      constructor; [|constructor]. exists task. split; [exact Htask | exact Hty].
    + apply Forall_removelast, Hframes.
  - destruct Hc as [(_ & start & it & mx & Hlast & _ & _ & ->)|(_ & j & _ & _ & ->)].
    + apply Forall_app. split; [apply Forall_removelast, Hframes|].
      constructor; [|constructor].
      exact (last_frame_in _ _ _ Hframes Hlast).
    + exact Hframes.
Qed.

(** X3. When a run ends, the cursor is within the task list or just past
    it, and every frame left on the loop stack has as start index the place
    of a [loop_start] task. *)
Theorem run_ends_well_formed (fuel : nat) (self s : SequenceExecutor.t) :
  SequenceExecutor.run fuel self = Some s ->
  well_formed (SequenceExecutor.sequence s).
Proof.
  unfold SequenceExecutor.run, SequenceExecutor.run_from.
  destruct (SequenceExecutor.main_loop fuel (SequenceExecutor.start self))
    as [s1|] eqn:Hloop; [|discriminate].
  intros Hrun. injection Hrun as <-.
  assert (H1 : well_formed (SequenceExecutor.sequence s1)).
  { apply (main_loop_keeps (fun s => well_formed (SequenceExecutor.sequence s))
             (fun s H => H) round_well_formed _ _ _ Hloop).
    split; simpl; [lia | constructor]. }
  unfold SequenceExecutor.finish. destruct (_ && _); exact H1.
Qed.

Lemma run_ends_well_formed_witness :
  let self := SequenceExecutor.init
                (Examples.sequence_of
                   [Examples.loop_start 1; Examples.settle; Examples.loop_end])
                Examples.bench in
  exists s,
    SequenceExecutor.run 10 self = Some s /\
    well_formed (SequenceExecutor.sequence s).
Proof.
  intros self.
  pose (s := match SequenceExecutor.run 10 self with Some s => s | None => self end).
  assert (Hrun : SequenceExecutor.run 10 self = Some s) by (vm_compute; reflexivity).
  exists s. split; [exact Hrun|].
  exact (run_ends_well_formed 10 self s Hrun).
Defined.



(** X5. A stop requested before the run begins, paused or not: the run
    ends at once, [Stopped], no task is started and the only signal is
    [sequence_stopped]; the sequence has been reset all the same. *)
Theorem stopped_before_start (fuel : nat) (self : SequenceExecutor.t) :
  SequenceExecutor.stopped self = true ->
  exists s,
    SequenceExecutor.run fuel self = Some s /\
    SequenceExecutor.emitted s
      = SequenceExecutor.emitted self ++ [SequenceExecutor.sequence_stopped] /\
    SequenceExecutor.sequence s
      = ExperimentSequence.reset (SequenceExecutor.sequence self) /\
    SequenceExecutor.instruments s = SequenceExecutor.instruments self.
Proof.
  intros Hs.
  assert (Hloop : SequenceExecutor.main_loop fuel (SequenceExecutor.start self)
                  = Some (SequenceExecutor.start self)).
  { destruct fuel; simpl; rewrite Hs;
      destruct (_ !! _); reflexivity. }
  unfold SequenceExecutor.run, SequenceExecutor.run_from. rewrite Hloop.
  eexists. split; [reflexivity|].
  unfold SequenceExecutor.finish. simpl. rewrite Hs, andb_false_r. simpl.
  repeat split.
Qed.

Lemma stopped_before_start_witness :
  let self := SequenceExecutor.stop
                (SequenceExecutor.init
                   (Examples.sequence_of [Examples.read_x; Examples.settle])
                   Examples.bench) in
  exists s,
    SequenceExecutor.run 0 self = Some s /\
    SequenceExecutor.emitted s
      = SequenceExecutor.emitted self ++ [SequenceExecutor.sequence_stopped].
Proof.
  intros self.
  destruct (stopped_before_start 0 self eq_refl) as (s & Hrun & Hsignals & _).
  exists s. split; [exact Hrun | exact Hsignals].
Defined.

(** ** Sequences without jumps *)

Lemma Forall_program (Q : ExperimentTask.t -> Prop) (ts ts' : list ExperimentTask.t) :
  (forall task task',
     ExperimentSequence.reset_task task' = ExperimentSequence.reset_task task ->
     Q task -> Q task') ->
  map ExperimentSequence.reset_task ts' = map ExperimentSequence.reset_task ts ->
  Forall Q ts -> Forall Q ts'.
Proof.
  intros HQ. revert ts'. induction ts as [|task ts IH]; intros [|task' ts'] Hmap Hall;
    simpl in Hmap; try discriminate; [constructor|].
  pose proof (f_equal (hd (ExperimentSequence.reset_task task)) Hmap) as Hhead.
  pose proof (f_equal (@tl _) Hmap) as Htail.
  simpl in Hhead, Htail.
  apply Forall_cons in Hall as [Hq Hall].
  constructor; [exact (HQ _ _ Hhead Hq) | exact (IH _ Htail Hall)].
Qed.

Lemma straight_line_program (ts ts' : list ExperimentTask.t) :
  map ExperimentSequence.reset_task ts' = map ExperimentSequence.reset_task ts ->
  straight_line ts -> straight_line ts'.
Proof.
  apply Forall_program. intros task task' Hreset Hq.
  apply (f_equal ExperimentTask.task_type) in Hreset. simpl in Hreset.
  rewrite Hreset. exact Hq.
Qed.

(** A round of a task that is neither [loop_end] nor [condition] either
    breaks the loop or moves the cursor one task on. *)
Lemma round_advances (i : nat) (task : ExperimentTask.t) (s s' : SequenceExecutor.t) :
  ExperimentTask.task_type task <> "loop_end" ->
  ExperimentTask.task_type task <> "condition" ->
  SequenceExecutor.round i task s = SequenceExecutor.NextRound s' ->
  ExperimentSequence.current_task (SequenceExecutor.sequence s')
    = S (ExperimentSequence.current_task (SequenceExecutor.sequence s)).
Proof.
  intros Hle Hco.
  destruct (round_by_dispatch i task s) as (s1 & r & Hd & ->).
  pose proof (dispatch_control _ _ _ _ _ Hd) as Hc. simpl in Hc.
  destruct r as [e|[|]].
  - destruct (negb (Py.get_truthy (ExperimentTask.parameters task) "continue_on_error"));
      [discriminate|].
    intros H. injection H as <-. simpl. destruct Hc as [-> _]. lia.
  - intros H. injection H as <-. simpl. destruct Hc as [-> _]. lia.
  - destruct Hc as [[Hty _]|[Hty _]]; contradiction.
Qed.

Lemma straight_line_main_loop (n : nat) (s : SequenceExecutor.t) :
  straight_line (ExperimentSequence.tasks (SequenceExecutor.sequence s)) ->
  SequenceExecutor.paused s = false ->
  (length (ExperimentSequence.tasks (SequenceExecutor.sequence s))
   - ExperimentSequence.current_task (SequenceExecutor.sequence s) <= n)%nat ->
  exists s', SequenceExecutor.main_loop n s = Some s'.
Proof.
  revert s. induction n as [|n IH]; intros s Hstraight Hp Hn.
  - simpl.
    replace (ExperimentSequence.tasks (SequenceExecutor.sequence s)
               !! ExperimentSequence.current_task (SequenceExecutor.sequence s))
      with (@None ExperimentTask.t)
      by (symmetry; apply lookup_ge_None; lia).
    eauto.
  - destruct (ExperimentSequence.tasks (SequenceExecutor.sequence s)
                !! ExperimentSequence.current_task (SequenceExecutor.sequence s))
      as [task|] eqn:Htask; [|simpl; rewrite Htask; eauto].
    destruct (SequenceExecutor.stopped s) eqn:Hs;
      [simpl; rewrite Htask, Hs; eauto|].
    rewrite (main_loop_round n s task Htask Hp Hs).
    pose proof (round_program
                  (ExperimentSequence.current_task (SequenceExecutor.sequence s)) task s)
      as (Hprog & _ & _ & _ & Hpaused).
    pose proof (round_advances
                  (ExperimentSequence.current_task (SequenceExecutor.sequence s)) task s)
      as Hadv.
    destruct (SequenceExecutor.round
                (ExperimentSequence.current_task (SequenceExecutor.sequence s)) task s)
      as [s1|s1]; [|eauto].
    simpl in Hprog, Hpaused.
    assert (Hq : ExperimentTask.task_type task <> "loop_end" /\
                 ExperimentTask.task_type task <> "condition").
    { unfold straight_line in Hstraight. rewrite Forall_lookup in Hstraight.
      exact (Hstraight _ _ Htask). }
    destruct Hq as [Hle Hco].
    specialize (Hadv s1 Hle Hco eq_refl).
    apply IH.
    + exact (straight_line_program _ _ Hprog Hstraight).
    + congruence.
    + apply (f_equal (@length _)) in Hprog. rewrite !length_map in Hprog. lia.
Qed.



(** ** Instruments during a run *)

(** X7. A run touches no instrument but the targets of its instrument
    tasks: an instrument that no instrument task of the sequence has as
    target is, when the run ends, as it was before. *)
Theorem run_touches_only_targets (fuel : nat) (self s : SequenceExecutor.t) (r0 : nat) :
  Forall (fun task => ExperimentTask.task_type task = "instrument" ->
                      ExperimentTask.target task <> Some r0)
         (ExperimentSequence.tasks (SequenceExecutor.sequence self)) ->
  SequenceExecutor.run fuel self = Some s ->
  SequenceExecutor.instruments s r0 = SequenceExecutor.instruments self r0.
Proof.
  intros Hall.
  unfold SequenceExecutor.run, SequenceExecutor.run_from.
  destruct (SequenceExecutor.main_loop fuel (SequenceExecutor.start self))
    as [s1|] eqn:Hloop; [|discriminate].
  intros Hrun. injection Hrun as <-.
  set (Q := fun task => ExperimentTask.task_type task = "instrument" ->
                        ExperimentTask.target task <> Some r0) in *.
  assert (HQ : forall task task',
             ExperimentSequence.reset_task task' = ExperimentSequence.reset_task task ->
             Q task -> Q task').
  { intros task task' Hreset Hq. unfold Q in *.
    pose proof (f_equal ExperimentTask.task_type Hreset) as Hty.
    pose proof (f_equal ExperimentTask.target Hreset) as Htg.
    simpl in Hty, Htg. rewrite Hty, Htg. exact Hq. }
  assert (H1 : SequenceExecutor.instruments s1 r0 = SequenceExecutor.instruments self r0 /\
               Forall Q (ExperimentSequence.tasks (SequenceExecutor.sequence s1))).
  { apply (main_loop_keeps
             (fun s => SequenceExecutor.instruments s r0
                       = SequenceExecutor.instruments self r0 /\
                       Forall Q (ExperimentSequence.tasks (SequenceExecutor.sequence s)))
             (fun s H => H)) with (fuel := fuel)
                                  (s := SequenceExecutor.start self); [|exact Hloop|].
    - intros s2 task Htask [Hsame Hq].
      pose proof (round_program
                    (ExperimentSequence.current_task (SequenceExecutor.sequence s2)) task s2)
        as (Hprog & _).
      pose proof (round_instruments
                    (ExperimentSequence.current_task (SequenceExecutor.sequence s2)) task s2)
        as (_ & _ & Hother).
      simpl in Hprog, Hother. split.
      + rewrite Hother; [exact Hsame|].
        rewrite Forall_lookup in Hq. exact (Hq _ _ Htask).
      + exact (Forall_program Q _ _ HQ Hprog Hq).
    - split; [reflexivity|]. simpl.
      apply (Forall_program Q (ExperimentSequence.tasks (SequenceExecutor.sequence self)));
        [exact HQ| |exact Hall].
      rewrite map_map. apply map_ext. intros []; reflexivity. }
  destruct H1 as [H1 _]. rewrite <- H1.
  unfold SequenceExecutor.finish. destruct (_ && _); reflexivity.
Qed.

Lemma run_touches_only_targets_witness :
  let self := SequenceExecutor.init
                (Examples.sequence_of [Examples.read_x; Examples.settle])
                Examples.bench in
  exists s,
    SequenceExecutor.run 5 self = Some s /\
    SequenceExecutor.instruments s 1%nat = SequenceExecutor.instruments self 1%nat.
Proof.
  intros self.
  pose (s := match SequenceExecutor.run 5 self with Some s => s | None => self end).
  assert (Hrun : SequenceExecutor.run 5 self = Some s) by (vm_compute; reflexivity).
  exists s. split; [exact Hrun|].
  apply (run_touches_only_targets 5 self s 1); [|exact Hrun].
  repeat (constructor; [simpl; congruence|]). constructor.
Defined.



(** X9. An instrument task whose call returns: the value is the task's
    result and the entry of the results under the task's name, the target
    has its own parameters back, the task is complete, [task_completed]
    carries the value, and the cursor moves one task on. *)
Theorem instrument_task_returns (s : SequenceExecutor.t) (i r : nat)
    (task : ExperimentTask.t) (v : Py.value) (left_behind : gmap string Py.value) :
  ExperimentSequence.tasks (SequenceExecutor.sequence s) !! i = Some task ->
  ExperimentTask.task_type task = "instrument" ->
  ExperimentTask.target task = Some r ->
  ExperimentTask.str_truthy (ExperimentTask.function task) = true ->
  Instrument.run_function (SequenceExecutor.instruments s r)
    (ExperimentTask.parameters task) = (inr v, left_behind) ->
  exists s',
    SequenceExecutor.round i task s = SequenceExecutor.NextRound s' /\
    SequenceExecutor.emitted s'
      = SequenceExecutor.emitted s
          ++ [SequenceExecutor.task_started i;
              SequenceExecutor.task_completed i (Some (ExperimentTask.Returned v))] /\
    ExperimentSequence.results (SequenceExecutor.sequence s')
      = <[ExperimentTask.name task := v]>
          (ExperimentSequence.results (SequenceExecutor.sequence s)) /\
    SequenceExecutor.instruments s' r = SequenceExecutor.instruments s r /\
    (fun t => (ExperimentTask.status t, ExperimentTask.result t))
      <$> ExperimentSequence.tasks (SequenceExecutor.sequence s') !! i
      = Some (ExperimentTask.Complete, Some (ExperimentTask.Returned v)) /\
    ExperimentSequence.current_task (SequenceExecutor.sequence s')
      = S (ExperimentSequence.current_task (SequenceExecutor.sequence s)).
Proof.
  intros Htask Hty Htarget Hfunction Hcall.
  unfold SequenceExecutor.round, SequenceExecutor.dispatch.
  rewrite Hty, Htarget, Hfunction. simpl String.eqb. cbv iota.
  unfold_exec. simpl. rewrite !fn_lookup_insert. simpl. rewrite Hcall. simpl.
  eexists. split; [reflexivity|]. simpl.
  unfold SequenceExecutor.task_result_at. simpl.
  rewrite !list_lookup_alter_eq, Htask. simpl. rewrite <- app_assoc.
  rewrite !fn_lookup_insert.
  split; [reflexivity|]. split; [reflexivity|].
  split; [destruct (SequenceExecutor.instruments s r); reflexivity|].
  split; [reflexivity | lia].
Qed.

Lemma instrument_task_returns_witness :
  let s := SequenceExecutor.start
             (SequenceExecutor.init
                (Examples.sequence_of [Examples.read_x; Examples.settle])
                Examples.bench) in
  exists s',
    SequenceExecutor.round 0 Examples.read_x s = SequenceExecutor.NextRound s' /\
    ExperimentSequence.results (SequenceExecutor.sequence s')
      = <["x" := Py.VInt 5]> (ExperimentSequence.results (SequenceExecutor.sequence s)) /\
    SequenceExecutor.instruments s' 0%nat = SequenceExecutor.instruments s 0%nat.
Proof.
  intros s.
  destruct (instrument_task_returns s 0 0 Examples.read_x (Py.VInt 5)
              {[ "range" := Py.VInt 1 ]} eq_refl eq_refl eq_refl eq_refl eq_refl)
    as (s' & Hround & _ & Hresults & Hinstrument & _).
  exists s'. split; [exact Hround|]. split; [exact Hresults | exact Hinstrument].
Defined.

(** ** Tasks that never fail *)

(** X10. A [loop_end] reached with an empty loop stack is no error: the
    task completes with the warning as its result, the stack stays empty
    and the cursor moves one task on. *)
Theorem loop_end_without_start (s : SequenceExecutor.t) (i : nat)
    (task : ExperimentTask.t) :
  ExperimentSequence.tasks (SequenceExecutor.sequence s) !! i = Some task ->
  ExperimentTask.task_type task = "loop_end" ->
  ExperimentSequence.loop_stack (SequenceExecutor.sequence s) = [] ->
  exists s',
    SequenceExecutor.round i task s = SequenceExecutor.NextRound s' /\
    SequenceExecutor.emitted s'
      = SequenceExecutor.emitted s
          ++ [SequenceExecutor.task_started i;
              SequenceExecutor.task_completed i
                (Some ExperimentTask.LoopEndWithoutStart)] /\
    ExperimentSequence.loop_stack (SequenceExecutor.sequence s') = [] /\
    ExperimentSequence.status (SequenceExecutor.sequence s') = ExperimentSequence.Running /\
    SequenceExecutor.stopped s' = SequenceExecutor.stopped s /\
    ExperimentSequence.current_task (SequenceExecutor.sequence s')
      = S (ExperimentSequence.current_task (SequenceExecutor.sequence s)).
Proof.
  intros Htask Hty Hstack.
  unfold SequenceExecutor.round, SequenceExecutor.dispatch.
  rewrite Hty. simpl String.eqb. cbv iota.
  unfold_exec. simpl. rewrite Hstack. simpl.
  eexists. split; [reflexivity|]. simpl.
  unfold SequenceExecutor.task_result_at. simpl.
  rewrite !list_lookup_alter_eq, Htask. simpl. rewrite <- app_assoc, Hstack.
  repeat split. lia.
Qed.

Lemma loop_end_without_start_witness :
  let s := SequenceExecutor.start
             (SequenceExecutor.init
                (Examples.sequence_of [Examples.loop_end; Examples.settle])
                Examples.bench) in
  exists s',
    SequenceExecutor.round 0 Examples.loop_end s = SequenceExecutor.NextRound s' /\
    ExperimentSequence.loop_stack (SequenceExecutor.sequence s') = [] /\
    ExperimentSequence.current_task (SequenceExecutor.sequence s') = 1%nat.
Proof.
  intros s.
  destruct (loop_end_without_start s 0 Examples.loop_end eq_refl eq_refl eq_refl)
    as (s' & Hround & _ & Hstack & _ & _ & Hcursor).
  exists s'. split; [exact Hround|]. split; [exact Hstack | exact Hcursor].
Defined.

(** X11. A task of a type the executor does not know is no error either:
    it completes with a result naming the type, touches neither results,
    loop stack nor instruments, and the cursor moves one task on. *)
Theorem unknown_task_type (s : SequenceExecutor.t) (i : nat)
    (task : ExperimentTask.t) :
  ExperimentSequence.tasks (SequenceExecutor.sequence s) !! i = Some task ->
  ExperimentTask.task_type task <> "instrument" ->
  ExperimentTask.task_type task <> "delay" ->
  ExperimentTask.task_type task <> "loop_start" ->
  ExperimentTask.task_type task <> "loop_end" ->
  ExperimentTask.task_type task <> "condition" ->
  exists s',
    SequenceExecutor.round i task s = SequenceExecutor.NextRound s' /\
    SequenceExecutor.emitted s'
      = SequenceExecutor.emitted s
          ++ [SequenceExecutor.task_started i;
              SequenceExecutor.task_completed i
                (Some (ExperimentTask.UnknownTaskType (ExperimentTask.task_type task)))] /\
    ExperimentSequence.results (SequenceExecutor.sequence s')
      = ExperimentSequence.results (SequenceExecutor.sequence s) /\
    ExperimentSequence.loop_stack (SequenceExecutor.sequence s')
      = ExperimentSequence.loop_stack (SequenceExecutor.sequence s) /\
    SequenceExecutor.instruments s' = SequenceExecutor.instruments s /\
    ExperimentSequence.current_task (SequenceExecutor.sequence s')
      = S (ExperimentSequence.current_task (SequenceExecutor.sequence s)).
Proof.
  intros Htask H1 H2 H3 H4 H5.
  apply String.eqb_neq in H1, H2, H3, H4, H5.
  unfold SequenceExecutor.round, SequenceExecutor.dispatch.
  rewrite H1, H2, H3, H4, H5.
  unfold_exec. simpl.
  eexists. split; [reflexivity|]. simpl.
  unfold SequenceExecutor.task_result_at. simpl.
  rewrite !list_lookup_alter_eq, Htask. simpl. rewrite <- app_assoc.
  repeat split. lia.
Qed.

Lemma unknown_task_type_witness :
  let task := ExperimentTask.init "note" "comment" None None None 0 1 None in
  let s := SequenceExecutor.start
             (SequenceExecutor.init (Examples.sequence_of [task]) Examples.bench) in
  exists s',
    SequenceExecutor.round 0 task s = SequenceExecutor.NextRound s' /\
    SequenceExecutor.emitted s'
      = SequenceExecutor.emitted s
          ++ [SequenceExecutor.task_started 0;
              SequenceExecutor.task_completed 0
                (Some (ExperimentTask.UnknownTaskType "comment"))].
Proof.
  intros task s.
  destruct (unknown_task_type s 0 task) as (s' & Hround & Hsignals & _);
    [reflexivity | discriminate | discriminate | discriminate | discriminate
     | discriminate |].
  exists s'. split; [exact Hround | exact Hsignals].
Defined.

(** ** Conditions and loops *)

(** X12. A condition that evaluates to true falls through, whatever its
    [else_index]: the task completes and the cursor moves one task on. *)
Theorem condition_true_falls_through (s : SequenceExecutor.t) (i : nat)
    (task : ExperimentTask.t) :
  ExperimentSequence.tasks (SequenceExecutor.sequence s) !! i = Some task ->
  ExperimentTask.task_type task = "condition" ->
  SequenceExecutor.evaluate_condition (ExperimentTask.condition task)
    (ExperimentSequence.results (SequenceExecutor.sequence s)) = inr true ->
  exists s',
    SequenceExecutor.round i task s = SequenceExecutor.NextRound s' /\
    SequenceExecutor.emitted s'
      = SequenceExecutor.emitted s
          ++ [SequenceExecutor.task_started i;
              SequenceExecutor.task_completed i
                (Some (ExperimentTask.ConditionEvaluated true))] /\
    (fun t => (ExperimentTask.status t, ExperimentTask.result t))
      <$> ExperimentSequence.tasks (SequenceExecutor.sequence s') !! i
      = Some (ExperimentTask.Complete, Some (ExperimentTask.ConditionEvaluated true)) /\
    ExperimentSequence.current_task (SequenceExecutor.sequence s')
      = S (ExperimentSequence.current_task (SequenceExecutor.sequence s)).
Proof.
  intros Htask Hty Htrue.
  unfold SequenceExecutor.round, SequenceExecutor.dispatch.
  rewrite Hty. simpl String.eqb. cbv iota.
  unfold_exec. simpl. rewrite Htrue. simpl.
  eexists. split; [reflexivity|]. simpl.
  unfold SequenceExecutor.task_result_at. simpl.
  rewrite !list_lookup_alter_eq, Htask. simpl. rewrite <- app_assoc.
  repeat split. lia.
Qed.

Lemma condition_true_falls_through_witness :
  let task := Examples.check "x == 5" {[ "else_index" := Py.VInt 3 ]} in
  let s := Examples.after_reading
             [Examples.read_x; task; Examples.settle; Examples.settle] 1 in
  exists s',
    SequenceExecutor.round 1 task s = SequenceExecutor.NextRound s' /\
    ExperimentSequence.current_task (SequenceExecutor.sequence s') = 2%nat.
Proof.
  intros task s.
  destruct (condition_true_falls_through s 1 task) as (s' & Hround & _ & _ & Hcursor);
    try (vm_compute; reflexivity).
  exists s'. split; [exact Hround | exact Hcursor].
Defined.

(** X13. A [loop_end] with a frame [(start, it, max)] on top of the
    stack.  While [it + 1 < max] it puts [(start, it + 1, max)] in place of
    the frame, sets the cursor to [start], emits [task_completed] and
    leaves its own status at [Running]; otherwise it pops the frame,
    completes and lets the cursor move one task on. *)
Theorem loop_end_with_frame (s : SequenceExecutor.t) (i : nat)
    (task : ExperimentTask.t) (below : list (nat * Z * Z)) (start : nat) (it max : Z) :
  ExperimentSequence.tasks (SequenceExecutor.sequence s) !! i = Some task ->
  ExperimentTask.task_type task = "loop_end" ->
  ExperimentSequence.loop_stack (SequenceExecutor.sequence s) = below ++ [(start, it, max)] ->
  exists s',
    SequenceExecutor.round i task s = SequenceExecutor.NextRound s' /\
    if it + 1 <? max then
      ExperimentSequence.loop_stack (SequenceExecutor.sequence s')
        = below ++ [(start, it + 1, max)] /\
      ExperimentSequence.current_task (SequenceExecutor.sequence s') = start /\
      SequenceExecutor.emitted s'
        = SequenceExecutor.emitted s
            ++ [SequenceExecutor.task_started i;
                SequenceExecutor.task_completed i
                  (Some (ExperimentTask.LoopIteration (it + 2) max))] /\
      ExperimentTask.status
        <$> ExperimentSequence.tasks (SequenceExecutor.sequence s') !! i
        = Some ExperimentTask.Running
    else
      ExperimentSequence.loop_stack (SequenceExecutor.sequence s') = below /\
      ExperimentSequence.current_task (SequenceExecutor.sequence s')
        = S (ExperimentSequence.current_task (SequenceExecutor.sequence s)) /\
      SequenceExecutor.emitted s'
        = SequenceExecutor.emitted s
            ++ [SequenceExecutor.task_started i;
                SequenceExecutor.task_completed i (Some ExperimentTask.LoopComplete)] /\
      ExperimentTask.status
        <$> ExperimentSequence.tasks (SequenceExecutor.sequence s') !! i
        = Some ExperimentTask.Complete.
Proof.
  intros Htask Hty Hstack.
  unfold SequenceExecutor.round, SequenceExecutor.dispatch.
  rewrite Hty. simpl String.eqb. cbv iota.
  unfold_exec. simpl. rewrite Hstack, last_frame_app. simpl.
  destruct (it + 1 <? max); simpl.
  - eexists. split; [reflexivity|]. simpl.
    unfold SequenceExecutor.task_result_at. simpl.
    rewrite !list_lookup_alter_eq, Htask. simpl.
    rewrite <- app_assoc, ?Hstack, removelast_last.
    replace (it + 1 + 1) with (it + 2) by lia. repeat split.
  - eexists. split; [reflexivity|]. simpl.
    unfold SequenceExecutor.task_result_at. simpl.
    rewrite !list_lookup_alter_eq, Htask. simpl.
    rewrite <- app_assoc, ?Hstack, removelast_last. repeat split. lia.
Qed.

Lemma loop_end_with_frame_witness :
  let s := SequenceExecutor.init
             (ExperimentSequence.set_loop_stack [(0%nat, 0, 3)]
                (ExperimentSequence.set_current_task 2
                   (ExperimentSequence.set_status ExperimentSequence.Running
                      Examples.loop3)))
             Examples.bench in
  exists s',
    SequenceExecutor.round 2 Examples.loop_end s = SequenceExecutor.NextRound s' /\
    ExperimentSequence.loop_stack (SequenceExecutor.sequence s') = [(0%nat, 1, 3)] /\
    ExperimentSequence.current_task (SequenceExecutor.sequence s') = 0%nat.
Proof.
  intros s.
  destruct (loop_end_with_frame s 2 Examples.loop_end [] 0 0 3 eq_refl eq_refl eq_refl)
    as (s' & Hround & H).
  assert (Hlt : (0 + 1 <? 3) = true) by reflexivity.
  rewrite Hlt in H. destruct H as (Hstack & Hcursor & _).
  exists s'. split; [exact Hround|]. split; [exact Hstack | exact Hcursor].
Defined.

(** ** Editing, within range *)

Ltac guard_holds :=
  symmetry;
  repeat match goal with
         | |- _ && _ = true => apply andb_true_iff; split
         | |- (_ <=? _) = true => apply Z.leb_le
         | |- (_ <? _) = true => apply Z.ltb_lt
         | |- (_ <? _) = false => apply Z.ltb_ge
         end; lia.

Lemma swap_items_result (l : list ExperimentTask.t) (i j : nat)
    (a b : ExperimentTask.t) :
  l !! i = Some b -> l !! j = Some a ->
  ExperimentSequence.swap_items l (Z.of_nat i) (Z.of_nat j)
    = inr (<[j := b]> (<[i := a]> l)).
Proof.
  intros Hi Hj.
  pose proof (lookup_lt_Some _ _ _ Hi) as Hilt.
  pose proof (lookup_lt_Some _ _ _ Hj) as Hjlt.
  unfold ExperimentSequence.swap_items, Py.list_getitem.
  replace (Z.of_nat j <? 0) with false by guard_holds.
  replace (Z.of_nat i <? 0) with false by guard_holds.
  replace (0 <=? Z.of_nat j) with true by guard_holds.
  replace (0 <=? Z.of_nat i) with true by guard_holds.
  rewrite !Nat2Z.id, Hi, Hj.
  rewrite setitem_in_range by lia.
  rewrite setitem_in_range by (rewrite length_insert; lia).
  rewrite !Nat2Z.id. reflexivity.
Qed.

Lemma set_tasks_unchanged (self : ExperimentSequence.t) :
  ExperimentSequence.set_tasks (ExperimentSequence.tasks self) self = self.
Proof. destruct self; reflexivity. Qed.

(** X14. [move_task_up] at an index within range exchanges the task with
    the one before it and moves no other task; nothing else of the
    sequence changes. *)
Theorem move_task_up_swaps (self : ExperimentSequence.t) (k : nat) :
  (0 < k < length (ExperimentSequence.tasks self))%nat ->
  exists ts,
    ExperimentSequence.move_task_up (Z.of_nat k) self
      = inr (ExperimentSequence.set_tasks ts self) /\
    length ts = length (ExperimentSequence.tasks self) /\
    ts !! (k - 1)%nat = ExperimentSequence.tasks self !! k /\
    ts !! k = ExperimentSequence.tasks self !! (k - 1)%nat /\
    (forall j, j <> k -> j <> (k - 1)%nat -> ts !! j = ExperimentSequence.tasks self !! j).
Proof.
  intros Hk. unfold ExperimentSequence.move_task_up.
  replace ((0 <? Z.of_nat k)
           && (Z.of_nat k <? Z.of_nat (length (ExperimentSequence.tasks self))))
    with true by guard_holds.
  destruct (lookup_lt_is_Some_2 (ExperimentSequence.tasks self) k) as [b Hb]; [lia|].
  destruct (lookup_lt_is_Some_2 (ExperimentSequence.tasks self) (k - 1)) as [a Ha]; [lia|].
  replace (Z.of_nat k - 1) with (Z.of_nat (k - 1)) by lia.
  rewrite (swap_items_result _ _ _ a b Hb Ha).
  eexists. split; [reflexivity|].
  split; [rewrite !length_insert; reflexivity|].
  split; [|split].
  - rewrite list_lookup_insert_eq by (rewrite length_insert; lia). congruence.
  - rewrite list_lookup_insert_ne by lia.
    rewrite list_lookup_insert_eq by lia. congruence.
  - intros j Hjk Hjk1. rewrite !list_lookup_insert_ne by lia. reflexivity.
Qed.

Lemma move_task_up_swaps_witness :
  let sq := Examples.sequence_of [Examples.settle; Examples.loop_end] in
  exists ts,
    ExperimentSequence.move_task_up 1 sq = inr (ExperimentSequence.set_tasks ts sq) /\
    ts !! 0%nat = Some Examples.loop_end /\
    ts !! 1%nat = Some Examples.settle.
Proof.
  intros sq.
  assert (Hk : (0 < 1 < length (ExperimentSequence.tasks sq))%nat) by (simpl; lia).
  destruct (move_task_up_swaps sq 1 Hk) as (ts & Hmove & _ & Hbefore & Hhere & _).
  exists ts. split; [exact Hmove|]. split; [exact Hbefore | exact Hhere].
Defined.

(** X15. Moving a task up and then moving it down from its new place
    gives the sequence back. *)
Theorem move_up_then_down (self moved : ExperimentSequence.t) (k : nat) :
  (0 < k < length (ExperimentSequence.tasks self))%nat ->
  ExperimentSequence.move_task_up (Z.of_nat k) self = inr moved ->
  ExperimentSequence.move_task_down (Z.of_nat k - 1) moved = inr self.
Proof.
  intros Hk. unfold ExperimentSequence.move_task_up.
  replace ((0 <? Z.of_nat k)
           && (Z.of_nat k <? Z.of_nat (length (ExperimentSequence.tasks self))))
    with true by guard_holds.
  destruct (lookup_lt_is_Some_2 (ExperimentSequence.tasks self) k) as [b Hb]; [lia|].
  destruct (lookup_lt_is_Some_2 (ExperimentSequence.tasks self) (k - 1)) as [a Ha]; [lia|].
  replace (Z.of_nat k - 1) with (Z.of_nat (k - 1)) by lia.
  rewrite (swap_items_result _ _ _ a b Hb Ha).
  intros H. injection H as <-.
  unfold ExperimentSequence.move_task_down. simpl.
  rewrite !length_insert.
  replace ((0 <=? Z.of_nat (k - 1))
           && (Z.of_nat (k - 1) <? Z.of_nat (length (ExperimentSequence.tasks self)) - 1))
    with true by guard_holds.
  replace (Z.of_nat (k - 1) + 1) with (Z.of_nat k) by lia.
  rewrite (swap_items_result _ (k - 1) k a b).
  - replace (<[k:=b]> (<[(k - 1)%nat:=a]>
               (<[(k - 1)%nat:=b]> (<[k:=a]> (ExperimentSequence.tasks self)))))
      with (ExperimentSequence.tasks self).
    + destruct self; reflexivity.
    + apply list_eq. intros j.
      destruct (decide (j = k)) as [->|Hjk].
      * rewrite list_lookup_insert_eq by (rewrite !length_insert; lia). congruence.
      * rewrite list_lookup_insert_ne by lia.
        destruct (decide (j = (k - 1)%nat)) as [->|Hjk1].
        -- rewrite list_lookup_insert_eq by (rewrite !length_insert; lia). congruence.
        -- rewrite !list_lookup_insert_ne by lia. reflexivity.
  - rewrite list_lookup_insert_eq by (rewrite length_insert; lia). reflexivity.
  - rewrite list_lookup_insert_ne by lia.
    rewrite list_lookup_insert_eq by lia. reflexivity.
Qed.

Lemma move_up_then_down_witness :
  let sq := Examples.sequence_of [Examples.settle; Examples.loop_end] in
  let moved := Examples.sequence_of [Examples.loop_end; Examples.settle] in
  ExperimentSequence.move_task_up 1 sq = inr moved /\
  ExperimentSequence.move_task_down 0 moved = inr sq.
Proof.
  intros sq moved.
  assert (Hup : ExperimentSequence.move_task_up 1 sq = inr moved)
    by (vm_compute; reflexivity).
  split; [exact Hup|].
  apply (move_up_then_down sq moved 1); [simpl; lia | exact Hup].
Defined.

(** X16. [remove_task] at an index within range takes out exactly that
    task: the tasks before it stay in place, the tasks after it move one
    place down, and the list is one shorter. *)
Theorem remove_task_within (self : ExperimentSequence.t) (k : nat) :
  (k < length (ExperimentSequence.tasks self))%nat ->
  exists ts,
    ExperimentSequence.remove_task (Z.of_nat k) self
      = inr (ExperimentSequence.set_tasks ts self) /\
    S (length ts) = length (ExperimentSequence.tasks self) /\
    (forall j, (j < k)%nat -> ts !! j = ExperimentSequence.tasks self !! j) /\
    (forall j, (k <= j)%nat -> ts !! j = ExperimentSequence.tasks self !! S j).
Proof.
  intros Hk. unfold ExperimentSequence.remove_task, Py.list_pop.
  replace (Z.of_nat k <? 0) with false by guard_holds.
  replace ((0 <=? Z.of_nat k)
           && (Z.of_nat k <? Z.of_nat (length (ExperimentSequence.tasks self))))
    with true by guard_holds.
  rewrite Nat2Z.id.
  eexists. split; [reflexivity|]. split; [|split].
  - rewrite length_delete by (apply lookup_lt_is_Some; lia). lia.
  - intros j Hj. apply list_lookup_delete_lt. exact Hj.
  - intros j Hj. apply list_lookup_delete_ge. exact Hj.
Qed.

Lemma remove_task_within_witness :
  let sq := Examples.sequence_of [Examples.settle; Examples.loop_end; Examples.read_x] in
  exists ts,
    ExperimentSequence.remove_task 1 sq = inr (ExperimentSequence.set_tasks ts sq) /\
    ts !! 0%nat = Some Examples.settle /\
    ts !! 1%nat = Some Examples.read_x.
Proof.
  intros sq.
  assert (Hk : (1 < length (ExperimentSequence.tasks sq))%nat) by (simpl; lia).
  destruct (remove_task_within sq 1 Hk) as (ts & Hremove & _ & Hbefore & Hafter).
  exists ts. split; [exact Hremove|].
  split; [apply (Hbefore 0%nat); lia | apply (Hafter 1%nat); lia].
Defined.

(** X17. A task added by [add_task] sits at the end, and removing the
    last task again gives the sequence back. *)
Theorem add_then_remove_last (self : ExperimentSequence.t) (task : ExperimentTask.t) :
  let added := ExperimentSequence.add_task task self in
  ExperimentSequence.tasks added !! length (ExperimentSequence.tasks self) = Some task /\
  ExperimentSequence.remove_task
    (Z.of_nat (length (ExperimentSequence.tasks self))) added = inr self.
Proof.
  intros added. split.
  - simpl. rewrite lookup_app_r by lia. rewrite Nat.sub_diag. reflexivity.
  - unfold ExperimentSequence.remove_task, Py.list_pop. simpl.
    rewrite length_app. simpl.
    replace (Z.of_nat (length (ExperimentSequence.tasks self)) <? 0) with false by guard_holds.
    replace ((0 <=? Z.of_nat (length (ExperimentSequence.tasks self)))
             && (Z.of_nat (length (ExperimentSequence.tasks self))
                 <? Z.of_nat (length (ExperimentSequence.tasks self) + 1)))
      with true by guard_holds.
    rewrite Nat2Z.id.
    replace (delete (length (ExperimentSequence.tasks self))
               (ExperimentSequence.tasks self ++ [task]))
      with (ExperimentSequence.tasks self).
    + destruct self; reflexivity.
    + apply list_eq. intros j.
      destruct (decide (j < length (ExperimentSequence.tasks self))%nat) as [Hj|Hj].
      * rewrite list_lookup_delete_lt by exact Hj.
        rewrite lookup_app_l by exact Hj. reflexivity.
      * rewrite list_lookup_delete_ge by lia.
        rewrite lookup_ge_None_2 by lia.
        rewrite lookup_ge_None_2 by (rewrite length_app; simpl; lia). reflexivity.
Qed.

(** ** Reading tasks and sequences *)

(** X18. A stored target name that no instrument of the list bears does
    not make the load fail: the task is built with no target, and with
    every other field as stored, a missing [parameters], [delay] or
    [repeat] taking its default. *)
Theorem unresolved_target_is_none (insts : instrument_store)
    (d : ExperimentTask.data) (instruments : list nat) (n : string) :
  ExperimentTask.d_target d = Some n ->
  Forall (fun r => Instrument.name (insts r) <> n) instruments ->
  ExperimentTask.from_dict insts d instruments
  = {| ExperimentTask.name := ExperimentTask.d_name d;
       ExperimentTask.task_type := ExperimentTask.d_task_type d;
       ExperimentTask.target := None;
       ExperimentTask.function := ExperimentTask.d_function d;
       ExperimentTask.parameters := default ∅ (ExperimentTask.d_parameters d);
       ExperimentTask.delay := default 0 (ExperimentTask.d_delay d);
       ExperimentTask.repeat := default 1 (ExperimentTask.d_repeat d);
       ExperimentTask.condition := ExperimentTask.d_condition d;
       ExperimentTask.result := None;
       ExperimentTask.status := ExperimentTask.Pending |}.
Proof.
  intros Htarget Hnone.
  unfold ExperimentTask.from_dict, ExperimentTask.init. rewrite Htarget.
  replace (List.find (fun r => String.eqb (Instrument.name (insts r)) n) instruments)
    with (@None nat).
  - destruct (ExperimentTask.str_truthy (Some n)); reflexivity.
  - symmetry. induction Hnone as [|r l Hr _ IH]; simpl; [reflexivity|].
    apply String.eqb_neq in Hr. rewrite Hr. exact IH.
Qed.

Lemma unresolved_target_is_none_witness :
  ExperimentTask.target
    (ExperimentTask.from_dict Examples.bench
       (ExperimentTask.to_dict Examples.bench Examples.read_x) [1%nat])
  = None.
Proof.
  rewrite (unresolved_target_is_none Examples.bench
             (ExperimentTask.to_dict Examples.bench Examples.read_x) [1%nat] "DMM" eq_refl).
  - reflexivity.
  - constructor; [simpl; discriminate | constructor].
Defined.

(** X19. The target [from_dict] gives a task is an instrument of the list
    that bears the stored name, and the first such: no instrument before
    it in the list bears that name. *)
Theorem resolved_target_bears_the_name (insts : instrument_store)
    (d : ExperimentTask.data) (instruments : list nat) (r : nat) :
  ExperimentTask.target (ExperimentTask.from_dict insts d instruments) = Some r ->
  ExperimentTask.d_target d = Some (Instrument.name (insts r)) /\
  exists before after,
    instruments = before ++ r :: after /\
    Forall (fun r' => Instrument.name (insts r') <> Instrument.name (insts r)) before.
Proof.
  unfold ExperimentTask.from_dict, ExperimentTask.init. simpl.
  destruct (ExperimentTask.d_target d) as [n|]; simpl;
    [|destruct (ExperimentTask.str_truthy None); discriminate].
  destruct (negb (String.eqb n "")); [|discriminate].
  induction instruments as [|r' l IH]; simpl; [discriminate|].
  destruct (String.eqb (Instrument.name (insts r')) n) eqn:Hname.
  - intros H. injection H as ->. apply String.eqb_eq in Hname. subst n.
    split; [reflexivity|]. exists [], l. split; [reflexivity | constructor].
  - intros H. destruct (IH H) as (Hn & before & after & -> & Hbefore).
    split; [exact Hn|]. exists (r' :: before), after. split; [reflexivity|].
    constructor; [|exact Hbefore].
    apply String.eqb_neq in Hname. injection Hn as <-. exact Hname.
Qed.

Lemma resolved_target_bears_the_name_witness :
  let d := ExperimentTask.to_dict Examples.bench Examples.read_x in
  ExperimentTask.target (ExperimentTask.from_dict Examples.bench d [1%nat; 0%nat])
    = Some 0%nat /\
  ExperimentTask.d_target d = Some "DMM".
Proof.
  intros d.
  assert (Htarget : ExperimentTask.target
                      (ExperimentTask.from_dict Examples.bench d [1%nat; 0%nat])
                    = Some 0%nat) by (vm_compute; reflexivity).
  split; [exact Htarget|].
  exact (proj1 (resolved_target_bears_the_name Examples.bench d [1%nat; 0%nat] 0 Htarget)).
Defined.

Lemma from_dict_task_is_reset (insts : instrument_store) (d : ExperimentTask.data)
    (instruments : list nat) :
  ExperimentSequence.reset_task (ExperimentTask.from_dict insts d instruments)
  = ExperimentTask.from_dict insts d instruments.
Proof. reflexivity. Qed.

(** X20. A sequence read by [from_dict] is ready to run: the cursor is at
    0, the status [Stopped], results and loop stack are empty and every
    task is pending without result, so that [reset] changes nothing of
    it. *)
Theorem loaded_sequence_is_reset (insts : instrument_store)
    (d : ExperimentSequence.data) (instruments : list nat) :
  let sq := ExperimentSequence.from_dict insts d instruments in
  ExperimentSequence.reset sq = sq /\
  length (ExperimentSequence.tasks sq) = length (default [] (ExperimentSequence.d_tasks d)) /\
  ExperimentSequence.name sq = ExperimentSequence.d_name d.
Proof.
  intros sq. subst sq. unfold ExperimentSequence.from_dict.
  rewrite from_dict_tasks. simpl.
  assert (Hmap : map ExperimentSequence.reset_task
                   (map (fun d0 => ExperimentTask.from_dict insts d0 instruments)
                        (default [] (ExperimentSequence.d_tasks d)))
                 = map (fun d0 => ExperimentTask.from_dict insts d0 instruments)
                       (default [] (ExperimentSequence.d_tasks d))).
  { rewrite map_map. apply map_ext. intros d0. apply from_dict_task_is_reset. }
  destruct (ExperimentTask.str_truthy (ExperimentSequence.d_scheduled_time d));
    [destruct (ExperimentSequence.d_scheduled_time d)|];
    unfold ExperimentSequence.reset; simpl; rewrite Hmap, length_map;
    repeat split.
Qed.

(** X21. [reset] clears the state of a run and nothing of what is saved:
    the record [to_dict] gives is the same before and after, and a second
    [reset] changes nothing. *)
Theorem reset_keeps_the_record (insts : instrument_store) (sq : ExperimentSequence.t) :
  ExperimentSequence.to_dict insts (ExperimentSequence.reset sq)
    = ExperimentSequence.to_dict insts sq /\
  ExperimentSequence.recurrence_type (ExperimentSequence.reset sq)
    = ExperimentSequence.recurrence_type sq /\
  ExperimentSequence.reset (ExperimentSequence.reset sq) = ExperimentSequence.reset sq.
Proof.
  split; [|split; [reflexivity | apply reset_idempotent]].
  unfold ExperimentSequence.to_dict. simpl.
  rewrite (tasks_to_dict_program insts insts (ExperimentSequence.tasks sq)
             (map ExperimentSequence.reset_task (ExperimentSequence.tasks sq)));
    [reflexivity | reflexivity |].
  rewrite map_map. apply map_ext. intros []; reflexivity.
Qed.

(** X22. [duplicate_sequence] on a current sequence whose targets are
    resolvable appends a copy and makes it current: the copy bears the name
    followed by [" (Copy)"], has the same tasks, pending and without
    results, is stopped with the cursor at 0, and has no recurrence,
    whatever the original's; one file per sequence is then saved. *)
Theorem duplicate_appends_a_copy (insts : instrument_store) (instruments : list nat)
    (now : string) (self : SchedulerWidget.t) (i : nat) (sq : ExperimentSequence.t) :
  SchedulerWidget.current_sequence self = Some i ->
  SchedulerWidget.sequences self !! i = Some sq ->
  Forall (resolvable insts instruments) (ExperimentSequence.tasks sq) ->
  exists copy,
    SchedulerWidget.duplicate_sequence insts instruments now self
      = ({| SchedulerWidget.sequences := SchedulerWidget.sequences self ++ [copy];
            SchedulerWidget.current_sequence :=
              Some (length (SchedulerWidget.sequences self)) |},
         SchedulerWidget.save_sequences insts now
           {| SchedulerWidget.sequences := SchedulerWidget.sequences self ++ [copy];
              SchedulerWidget.current_sequence :=
                Some (length (SchedulerWidget.sequences self)) |}) /\
    ExperimentSequence.name copy = String.append (ExperimentSequence.name sq) " (Copy)" /\
    ExperimentSequence.tasks copy
      = map ExperimentSequence.reset_task (ExperimentSequence.tasks sq) /\
    ExperimentSequence.recurrence_type copy = None /\
    ExperimentSequence.status copy = ExperimentSequence.Stopped /\
    ExperimentSequence.current_task copy = 0%nat.
Proof.
  intros Hcur Hsq Hres.
  unfold SchedulerWidget.duplicate_sequence. rewrite Hcur, Hsq.
  eexists. split; [reflexivity|].
  unfold SchedulerWidget.copy_of, ExperimentSequence.from_dict. simpl.
  rewrite from_dict_tasks. simpl.
  rewrite (tasks_round_trip insts instruments _ Hres).
  destruct (ExperimentSequence.dt_truthy (ExperimentSequence.scheduled_time sq));
    [destruct (ExperimentSequence.scheduled_time sq); simpl;
     try destruct (negb _)|];
    repeat split.
Qed.

Lemma duplicate_appends_a_copy_witness :
  let self := {| SchedulerWidget.sequences :=
                   [Examples.scheduled Examples.noon (Some "Daily")];
                 SchedulerWidget.current_sequence := Some 0%nat |} in
  exists copy,
    SchedulerWidget.sequences
      (fst (SchedulerWidget.duplicate_sequence Examples.bench [0%nat; 1%nat] "now" self))
      = [Examples.scheduled Examples.noon (Some "Daily"); copy] /\
    ExperimentSequence.name copy = "bench run (Copy)" /\
    ExperimentSequence.recurrence_type copy = None.
Proof.
  intros self.
  destruct (duplicate_appends_a_copy Examples.bench [0%nat; 1%nat] "now" self 0
              (Examples.scheduled Examples.noon (Some "Daily")) eq_refl eq_refl
              (bench_tasks_resolvable Examples.noon (Some "Daily")))
    as (copy & Hduplicate & Hname & _ & Hrecurrence & _).
  exists copy. split; [rewrite Hduplicate; reflexivity|].
  split; [exact Hname | exact Hrecurrence].
Defined.

(** ** The manager's list and executors *)

Lemma name_taken (n : string) (sqs : list ExperimentSequence.t) :
  existsb (fun existing => String.eqb (ExperimentSequence.name existing) n) sqs = true
  <-> n ∈ map ExperimentSequence.name sqs.
Proof.
  induction sqs as [|sq sqs IH]; simpl.
  - split; [discriminate | intros H; apply elem_of_nil in H; contradiction].
  - rewrite orb_true_iff, IH, elem_of_cons, String.eqb_eq.
    split; intros [H|H]; auto.
Qed.

(** X23. [add_sequence] keeps the names of the manager's sequences
    distinct: a sequence whose name is taken is refused and the manager is
    left as it was, any other is appended at the end; executors are not
    touched. *)
Theorem add_sequence_keeps_names_distinct (sq : ExperimentSequence.t)
    (m : SequenceManager.t) :
  NoDup (map ExperimentSequence.name (SequenceManager.sequences m)) ->
  let m' := fst (SequenceManager.add_sequence sq m) in
  let added := snd (SequenceManager.add_sequence sq m) in
  NoDup (map ExperimentSequence.name (SequenceManager.sequences m')) /\
  (added = false <->
   ExperimentSequence.name sq ∈ map ExperimentSequence.name (SequenceManager.sequences m)) /\
  (added = false -> m' = m) /\
  (added = true -> SequenceManager.sequences m' = SequenceManager.sequences m ++ [sq]) /\
  SequenceManager.executors m' = SequenceManager.executors m.
Proof.
  intros Hnodup. unfold SequenceManager.add_sequence.
  pose proof (name_taken (ExperimentSequence.name sq) (SequenceManager.sequences m)) as Htaken.
  destruct (existsb _ (SequenceManager.sequences m)); simpl.
  - split; [exact Hnodup|]. split; [|split; [reflexivity | split; [discriminate | reflexivity]]].
    split; [intros _; apply Htaken; reflexivity | reflexivity].
  - split; [|split; [|split; [discriminate | split; reflexivity]]].
    + rewrite map_app. apply NoDup_app. split; [exact Hnodup|]. split.
      * intros n Hn Hn'. simpl in Hn'. apply list_elem_of_singleton in Hn'. subst n.
        apply Htaken in Hn. discriminate.
      * simpl. apply NoDup_singleton.
    + split; [discriminate|]. intros H. apply Htaken in H. discriminate.
Qed.

Lemma add_sequence_keeps_names_distinct_witness :
  let m := {| SequenceManager.sequences := [Examples.sequence_of [Examples.settle]];
              SequenceManager.executors := ∅;
              SequenceManager.started := [] |} in
  let sq := Examples.sequence_of [Examples.read_x] in
  snd (SequenceManager.add_sequence sq m) = false /\
  fst (SequenceManager.add_sequence sq m) = m.
Proof.
  intros m sq.
  assert (Hnodup : NoDup (map ExperimentSequence.name (SequenceManager.sequences m)))
    by (simpl; apply NoDup_singleton).
  destruct (add_sequence_keeps_names_distinct sq m Hnodup) as (_ & _ & Hsame & _).
  assert (Hrefused : snd (SequenceManager.add_sequence sq m) = false) by reflexivity.
  split; [exact Hrefused | exact (Hsame Hrefused)].
Defined.

(** X24. Whatever executor was registered under the name of a sequence,
    running or finished, [run_sequence] leaves exactly one there, the new
    one; the executors under other names and the list of sequences are
    kept, and the new executor is started once. *)
Theorem run_sequence_replaces_executor (i : nat) (m : SequenceManager.t)
    (sq : ExperimentSequence.t) :
  SequenceManager.sequences m !! i = Some sq ->
  SequenceManager.run_sequence i m
  = ({| SequenceManager.sequences := SequenceManager.sequences m;
        SequenceManager.executors :=
          <[ExperimentSequence.name sq := {| SequenceManager.isRunning := true |}]>
            (SequenceManager.executors m);
        SequenceManager.started := SequenceManager.started m ++ [i] |}, true).
Proof.
  intros Hsq. unfold SequenceManager.run_sequence, SequenceManager.name_at.
  rewrite Hsq. simpl.
  destruct (SequenceManager.executors m !! ExperimentSequence.name sq) as [ex|] eqn:Hex;
    [|reflexivity].
  unfold SequenceManager.stop_sequence, SequenceManager.name_at.
  rewrite Hsq. simpl. rewrite Hex.
  destruct (SequenceManager.isRunning ex); simpl; [|reflexivity].
  f_equal. f_equal. apply map_eq. intros k.
  destruct (decide (k = ExperimentSequence.name sq)) as [->|Hk].
  - rewrite !lookup_insert_eq. reflexivity.
  - rewrite !lookup_insert_ne by congruence. apply lookup_delete_ne. congruence.
Qed.

Lemma run_sequence_replaces_executor_witness :
  snd (SequenceManager.run_sequence 0 Examples.manager) = true /\
  SequenceManager.executors (fst (SequenceManager.run_sequence 0 Examples.manager))
    !! "bench run"
  = Some {| SequenceManager.isRunning := true |}.
Proof.
  rewrite (run_sequence_replaces_executor 0 Examples.manager
             (Examples.scheduled Examples.noon (Some "Daily")) eq_refl).
  split; [reflexivity | vm_compute; reflexivity].
Defined.

(** X25. [stop_sequence] answers [True] only when it removed a running
    executor; a second call right after any call finds nothing to stop:
    it answers [False] and changes nothing.  An executor that is
    registered but no longer running is never removed by it. *)
Theorem stop_sequence_twice (i : nat) (m : SequenceManager.t) :
  let m' := fst (SequenceManager.stop_sequence i m) in
  SequenceManager.stop_sequence i m' = (m', false) /\
  (snd (SequenceManager.stop_sequence i m) = false -> m' = m) /\
  (forall name ex,
     SequenceManager.executors m !! name = Some ex ->
     SequenceManager.isRunning ex = false ->
     SequenceManager.executors m' !! name = Some ex).
Proof.
  intros m'. subst m'.
  unfold SequenceManager.stop_sequence, SequenceManager.name_at.
  destruct (SequenceManager.sequences m !! i) as [sq|] eqn:Hsq; simpl;
    [|rewrite Hsq; simpl; auto].
  destruct (SequenceManager.executors m !! ExperimentSequence.name sq) as [ex|] eqn:Hex;
    [destruct (SequenceManager.isRunning ex) eqn:Hrun|]; simpl; rewrite Hsq; simpl.
  - rewrite lookup_delete_eq. split; [reflexivity|]. split; [discriminate|].
    intros name ex' Hname Hstopped.
    rewrite lookup_delete_ne; [exact Hname|].
    intros <-. rewrite Hex in Hname. injection Hname as <-. congruence.
  - rewrite Hex, Hrun. auto.
  - rewrite Hex. auto.
Qed.

(** ** One pass of the schedule check *)

Lemma check_sequence_started (current_time : Qt.QDateTime) (i : nat)
    (m : SequenceManager.t) :
  SequenceManager.started (SequenceManager.check_sequence current_time i m)
  = SequenceManager.started m ++ (if due_at current_time m i then [i] else []).
Proof.
  pose proof (check_sequence_effect current_time i m) as H. simpl in H.
  unfold due_at.
  destruct (SequenceManager.sequences m !! i) as [sq|];
    [destruct (SequenceManager.is_due current_time sq)|].
  - destruct H as [_ ->]. reflexivity.
  - rewrite H, app_nil_r. reflexivity.
  - rewrite H, app_nil_r. reflexivity.
Qed.

Lemma checks_started (current_time : Qt.QDateTime) (l : list nat)
    (m : SequenceManager.t) :
  NoDup l ->
  SequenceManager.started
    (fold_left (fun m i => SequenceManager.check_sequence current_time i m) l m)
  = SequenceManager.started m ++ List.filter (due_at current_time m) l.
Proof.
  revert m. induction l as [|i l IH]; intros m Hnodup; simpl.
  - rewrite app_nil_r. reflexivity.
  - apply NoDup_cons in Hnodup as [Hil Hnodup].
    rewrite (IH _ Hnodup), check_sequence_started.
    assert (Hsame : List.filter
                      (due_at current_time (SequenceManager.check_sequence current_time i m)) l
                    = List.filter (due_at current_time m) l).
    { apply List.filter_ext_in. intros j Hj. apply list_elem_of_In in Hj.
      unfold due_at.
      destruct (check_sequence_elsewhere current_time i j m) as [-> _]; [|reflexivity].
      intros ->. contradiction. }
    rewrite Hsame.
    destruct (due_at current_time m i); simpl; rewrite <- app_assoc; reflexivity.
Qed.

Lemma checks_length (current_time : Qt.QDateTime) (l : list nat)
    (m : SequenceManager.t) :
  length (SequenceManager.sequences
            (fold_left (fun m i => SequenceManager.check_sequence current_time i m) l m))
  = length (SequenceManager.sequences m).
Proof.
  revert m. induction l as [|i l IH]; intros m; simpl; [reflexivity|].
  rewrite IH. pose proof (check_sequence_effect current_time i m) as H. simpl in H.
  destruct (SequenceManager.sequences m !! i) as [sq|];
    [destruct (SequenceManager.is_due current_time sq)|]; try (rewrite H; reflexivity).
  destruct H as [-> _]. apply length_insert.
Qed.

(** X26. One call of [check_scheduled_sequences] starts an executor for
    exactly the sequences that pass its test at the start of the call, once
    each and in the order of the list; these get their next schedule and
    every other sequence is left as it was. *)
Theorem check_starts_the_due_in_order (current_time : Qt.QDateTime)
    (m : SequenceManager.t) :
  let m' := SequenceManager.check_scheduled_sequences current_time m in
  SequenceManager.started m'
    = SequenceManager.started m
      ++ List.filter (due_at current_time m)
                     (seq 0 (length (SequenceManager.sequences m))) /\
  length (SequenceManager.sequences m') = length (SequenceManager.sequences m) /\
  forall i sq,
    SequenceManager.sequences m !! i = Some sq ->
    SequenceManager.sequences m' !! i
    = Some (if SequenceManager.is_due current_time sq
            then SequenceManager.rescheduled sq else sq).
Proof.
  intros m'. subst m'. unfold SequenceManager.check_scheduled_sequences.
  split; [apply checks_started, NoDup_seq|].
  split; [apply checks_length|].
  intros i sq Hsq.
  apply (checks_at current_time _ i m sq (NoDup_seq _ _)); [|exact Hsq].
  apply elem_of_seq. apply lookup_lt_Some in Hsq. lia.
Qed.

(** X27. A due sequence with recurrence [Weekly] is rescheduled to the
    same time of day seven days later, which is 168 hours later; one with
    recurrence [Monthly] to what Qt's [addMonths(1)] gives.  Both are
    started once. *)
Theorem weekly_and_monthly_reschedule (current_time : Qt.QDateTime)
    (m : SequenceManager.t) (i : nat) (sq : ExperimentSequence.t)
    (due : Qt.QDateTime) :
  SequenceManager.sequences m !! i = Some sq ->
  ExperimentSequence.status sq = ExperimentSequence.Stopped ->
  ExperimentSequence.scheduled_time sq = Some due ->
  Qt.truthy due = true ->
  Qt.le due current_time = true ->
  let m' := SequenceManager.check_scheduled_sequences current_time m in
  count_occ Nat.eq_dec (SequenceManager.started m') i
    = S (count_occ Nat.eq_dec (SequenceManager.started m) i) /\
  (ExperimentSequence.recurrence_type sq = Some "Weekly" ->
     SequenceManager.sequences m' !! i
       = Some (ExperimentSequence.set_scheduled_time (Some (Qt.addDays due 7)) sq) /\
     Qt.toMSecsSinceEpoch (Qt.addDays due 7)
       = Qt.toMSecsSinceEpoch due + 7 * 24 * 60 * 60 * 1000) /\
  (ExperimentSequence.recurrence_type sq = Some "Monthly" ->
     SequenceManager.sequences m' !! i
       = Some (ExperimentSequence.set_scheduled_time (Some (Qt.addMonths due 1)) sq)).
Proof.
  intros Hsq Hstatus Hdue Htruthy Hle m'.
  assert (Hin : i ∈ seq 0 (length (SequenceManager.sequences m))).
  { apply elem_of_seq. apply lookup_lt_Some in Hsq. lia. }
  destruct (checks_at current_time _ i m sq (NoDup_seq _ _) Hin Hsq) as [Hseq Hcount].
  fold (SequenceManager.check_scheduled_sequences current_time m) in Hseq, Hcount.
  fold m' in Hseq, Hcount.
  assert (His : SequenceManager.is_due current_time sq = true).
  { unfold SequenceManager.is_due. rewrite Hstatus, Hdue, Htruthy, Hle. reflexivity. }
  rewrite His in Hseq, Hcount.
  split; [exact Hcount|].
  unfold SequenceManager.rescheduled, SequenceManager.reschedule in Hseq.
  rewrite Hdue in Hseq.
  split; intros Hkind; rewrite Hkind in Hseq; simpl in Hseq.
  - split; [exact Hseq|].
    destruct due as [|jd ms]; [discriminate|].
    unfold Qt.addDays, Qt.toMSecsSinceEpoch, Qt.MSECS_PER_DAY. lia.
  - exact Hseq.
Qed.

Lemma weekly_and_monthly_reschedule_witness :
  let sq := Examples.scheduled Examples.noon (Some "Weekly") in
  let m := {| SequenceManager.sequences := [sq];
              SequenceManager.executors := ∅;
              SequenceManager.started := [] |} in
  let now := Qt.At 2460000 (Examples.noon + 1000) in
  SequenceManager.sequences (SequenceManager.check_scheduled_sequences now m) !! 0%nat
  = Some (ExperimentSequence.set_scheduled_time
            (Some (Qt.At 2460007 Examples.noon)) sq).
Proof.
  intros sq m now.
  destruct (weekly_and_monthly_reschedule now m 0 sq (Qt.At 2460000 Examples.noon)
              eq_refl eq_refl eq_refl eq_refl eq_refl) as (_ & Hweekly & _).
  exact (proj1 (Hweekly eq_refl)).
Defined.

(** X28. After [cancel_scheduled_sequence] the sequence has neither a
    schedule nor a recurrence, the file saved for it holds neither, and the
    other sequences are as before; no later schedule check starts it or
    changes it, whatever the time. *)
Theorem cancelled_sequence_is_never_due (insts : instrument_store) (now : string)
    (i : nat) (self : SchedulerWidget.t) (sq : ExperimentSequence.t) :
  SchedulerWidget.sequences self !! i = Some sq ->
  let cancelled :=
    ExperimentSequence.set_recurrence_type None
      (ExperimentSequence.set_scheduled_time None sq) in
  let self' := fst (SchedulerWidget.cancel_scheduled_sequence insts now i self) in
  let files := snd (SchedulerWidget.cancel_scheduled_sequence insts now i self) in
  SchedulerWidget.sequences self' = <[i := cancelled]> (SchedulerWidget.sequences self) /\
  (exists file,
     files !! i = Some file /\
     ExperimentSequence.d_scheduled_time (SequenceManager.sequence_data file.2) = None /\
     SequenceManager.f_recurrence_type file.2 = None) /\
  forall current_time m j,
    SequenceManager.sequences m !! j = Some cancelled ->
    let m' := SequenceManager.check_scheduled_sequences current_time m in
    SequenceManager.sequences m' !! j = Some cancelled /\
    count_occ Nat.eq_dec (SequenceManager.started m') j
      = count_occ Nat.eq_dec (SequenceManager.started m) j.
Proof.
  intros Hsq cancelled self' files. subst self' files.
  unfold SchedulerWidget.cancel_scheduled_sequence.
  cbn [fst snd SchedulerWidget.sequences].
  assert (Halter : alter (fun sequence =>
                            ExperimentSequence.set_recurrence_type None
                              (ExperimentSequence.set_scheduled_time None sequence))
                         i (SchedulerWidget.sequences self)
                   = <[i := cancelled]> (SchedulerWidget.sequences self)).
  { apply list_eq. intros k. destruct (decide (k = i)) as [->|Hk].
    - rewrite list_lookup_alter_eq, Hsq.
      rewrite list_lookup_insert_eq by (apply lookup_lt_is_Some; eauto). reflexivity.
    - rewrite list_lookup_alter_ne, list_lookup_insert_ne by congruence. reflexivity. }
  split; [exact Halter|]. split.
  - unfold SchedulerWidget.save_sequences. cbn [SchedulerWidget.sequences].
    rewrite Halter.
    eexists. split.
    + rewrite list_lookup_fmap.
      rewrite list_lookup_insert_eq by (apply lookup_lt_is_Some; eauto). reflexivity.
    + split; reflexivity.
  - intros current_time m j Hj.
    assert (Hin : j ∈ seq 0 (length (SequenceManager.sequences m))).
    { apply elem_of_seq. apply lookup_lt_Some in Hj. lia. }
    destruct (checks_at current_time _ j m cancelled (NoDup_seq _ _) Hin Hj)
      as [Hseq Hcount].
    fold (SequenceManager.check_scheduled_sequences current_time m) in Hseq, Hcount.
    assert (His : SequenceManager.is_due current_time cancelled = false).
    { unfold SequenceManager.is_due. simpl.
      destruct (ExperimentSequence.status sq); reflexivity. }
    rewrite His in Hseq, Hcount. split; [exact Hseq | exact Hcount].
Qed.

Lemma cancelled_sequence_is_never_due_witness :
  let sq := Examples.scheduled Examples.noon (Some "Daily") in
  let self := {| SchedulerWidget.sequences := [sq];
                 SchedulerWidget.current_sequence := Some 0%nat |} in
  let m := {| SequenceManager.sequences :=
                SchedulerWidget.sequences
                  (fst (SchedulerWidget.cancel_scheduled_sequence
                          Examples.bench "now" 0 self));
              SequenceManager.executors := ∅;
              SequenceManager.started := [] |} in
  let a_year_later := Qt.At 2460365 Examples.noon in
  count_occ Nat.eq_dec
    (SequenceManager.started
       (SequenceManager.check_scheduled_sequences a_year_later m)) 0%nat
  = 0%nat.
Proof.
  intros sq self m a_year_later.
  destruct (cancelled_sequence_is_never_due Examples.bench "now" 0 self sq eq_refl)
    as (_ & _ & Hnever).
  exact (proj2 (Hnever a_year_later m 0%nat eq_refl)).
Defined.

(** ** Files *)

Lemma endswith_json_append (s : string) :
  SequenceManager.endswith_json (String.append s ".json") = true.
Proof.
  induction s as [|c s IH].
  - reflexivity.
  - change (String.append (String c s) ".json") with (String c (String.append s ".json")).
    cbn [SequenceManager.endswith_json]. rewrite IH. apply orb_true_r.
Qed.

(** X29. Every file [save_sequences] writes has a name ending in [.json],
    so [load_sequences] over a directory holding these files, their names
    being distinct, reads every one of them, in whatever order the
    directory lists them: it builds one sequence per saved sequence, each
    with the name and the recurrence of the one saved. *)
Theorem saved_files_are_loaded (insts : instrument_store) (now : string)
    (instruments : list nat) (m m0 : SequenceManager.t)
    (listing : list (string * option SequenceManager.file_data)) :
  NoDup (map fst (SequenceManager.save_sequences insts now m)) ->
  listing ≡ₚ map (fun file => (file.1, Some file.2))
                 (SequenceManager.save_sequences insts now m) ->
  let loaded := SequenceManager.load_sequences insts listing instruments m0 in
  Forall (fun file => SequenceManager.endswith_json file.1 = true)
         (SequenceManager.save_sequences insts now m) /\
  SequenceManager.sequences loaded
    ≡ₚ map (fun sq =>
              SequenceManager.load_sequence insts
                {| SequenceManager.sequence_data := ExperimentSequence.to_dict insts sq;
                   SequenceManager.metadata :=
                     Some {| SequenceManager.last_modified := now;
                             SequenceManager.modified_by := "HamidHaghmoradi";
                             SequenceManager.app_version := "2.0.0" |};
                   SequenceManager.f_recurrence_type :=
                     ExperimentSequence.recurrence_type sq |} instruments)
           (SequenceManager.sequences m) /\
  map ExperimentSequence.name (SequenceManager.sequences loaded)
    ≡ₚ map ExperimentSequence.name (SequenceManager.sequences m) /\
  map ExperimentSequence.recurrence_type (SequenceManager.sequences loaded)
    ≡ₚ map ExperimentSequence.recurrence_type (SequenceManager.sequences m).
Proof.
  intros _ Hlisting loaded. subst loaded.
  unfold SequenceManager.load_sequences. cbn [SequenceManager.sequences].
  rewrite Hlisting. clear Hlisting listing.
  unfold SequenceManager.save_sequences.
  assert (Hloaded : forall sqs,
            omap (fun '(file_name, content) =>
                    if SequenceManager.endswith_json file_name then
                      (fun data => SequenceManager.load_sequence insts data instruments)
                        <$> content
                    else None)
                 (map (fun file : string * SequenceManager.file_data => (file.1, Some file.2))
                    (map (fun sequence =>
                            (String.append
                               (SequenceManager.replace_blanks (ExperimentSequence.name sequence))
                               ".json",
                             {| SequenceManager.sequence_data :=
                                  ExperimentSequence.to_dict insts sequence;
                                SequenceManager.metadata :=
                                  Some {| SequenceManager.last_modified := now;
                                          SequenceManager.modified_by := "HamidHaghmoradi";
                                          SequenceManager.app_version := "2.0.0" |};
                                SequenceManager.f_recurrence_type :=
                                  ExperimentSequence.recurrence_type sequence |})) sqs))
            = map (fun sq =>
                     SequenceManager.load_sequence insts
                       {| SequenceManager.sequence_data := ExperimentSequence.to_dict insts sq;
                          SequenceManager.metadata :=
                            Some {| SequenceManager.last_modified := now;
                                    SequenceManager.modified_by := "HamidHaghmoradi";
                                    SequenceManager.app_version := "2.0.0" |};
                          SequenceManager.f_recurrence_type :=
                            ExperimentSequence.recurrence_type sq |} instruments) sqs).
  { induction sqs as [|sq sqs IH]; [reflexivity|].
    cbn [map omap list_omap fst snd]. rewrite endswith_json_append.
    cbn [fmap option_fmap option_map]. f_equal. exact IH. }
  rewrite Hloaded, !map_map.
  assert (Hfield : forall sq,
            ExperimentSequence.name
              (SequenceManager.load_sequence insts
                 {| SequenceManager.sequence_data := ExperimentSequence.to_dict insts sq;
                    SequenceManager.metadata :=
                      Some {| SequenceManager.last_modified := now;
                              SequenceManager.modified_by := "HamidHaghmoradi";
                              SequenceManager.app_version := "2.0.0" |};
                    SequenceManager.f_recurrence_type :=
                      ExperimentSequence.recurrence_type sq |} instruments)
              = ExperimentSequence.name sq /\
            ExperimentSequence.recurrence_type
              (SequenceManager.load_sequence insts
                 {| SequenceManager.sequence_data := ExperimentSequence.to_dict insts sq;
                    SequenceManager.metadata :=
                      Some {| SequenceManager.last_modified := now;
                              SequenceManager.modified_by := "HamidHaghmoradi";
                              SequenceManager.app_version := "2.0.0" |};
                    SequenceManager.f_recurrence_type :=
                      ExperimentSequence.recurrence_type sq |} instruments)
              = ExperimentSequence.recurrence_type sq).
  { intros sq.
    unfold SequenceManager.load_sequence, ExperimentSequence.from_dict. simpl.
    rewrite from_dict_tasks.
    destruct (ExperimentSequence.recurrence_type sq);
      destruct (ExperimentSequence.dt_truthy (ExperimentSequence.scheduled_time sq));
      try destruct (ExperimentSequence.scheduled_time sq); simpl;
      try destruct (negb _); split; reflexivity. }
  split; [|split; [reflexivity | split]].
  - induction (SequenceManager.sequences m) as [|sq sqs IH]; constructor;
      [apply endswith_json_append | exact IH].
  - erewrite map_ext; [reflexivity|]. intros sq. apply Hfield.
  - erewrite map_ext; [reflexivity|]. intros sq. apply Hfield.
Qed.

Lemma saved_files_are_loaded_witness :
  let m := {| SequenceManager.sequences :=
                [Examples.scheduled Examples.noon (Some "Daily");
                 ExperimentSequence.init "empty"];
              SequenceManager.executors := ∅;
              SequenceManager.started := [] |} in
  let files := SequenceManager.save_sequences Examples.bench "now" m in
  map fst files = ["bench_run.json"; "empty.json"] /\
  map ExperimentSequence.recurrence_type
      (SequenceManager.sequences
         (SequenceManager.load_sequences Examples.bench
            (rev (map (fun file => (file.1, Some file.2)) files))
            [0%nat; 1%nat] SequenceManager.init))
    ≡ₚ [Some "Daily"; None].
Proof.
  intros m files.
  assert (Hnames : map fst files = ["bench_run.json"; "empty.json"])
    by (vm_compute; reflexivity).
  split; [exact Hnames|].
  apply (saved_files_are_loaded Examples.bench "now" [0%nat; 1%nat] m SequenceManager.init
           (rev (map (fun file => (file.1, Some file.2)) files))).
  - fold files. rewrite Hnames. apply NoDup_cons. split; [|apply NoDup_singleton].
    intros H. apply list_elem_of_singleton in H. discriminate H.
  - symmetry. apply Permutation_rev.
Defined.

(** X30. A file that cannot be read or decoded, or whose name does not end
    in [.json], is passed over by [load_sequences] without a word to the
    caller: the sequences loaded are those of the same directory without
    that file, so the files after it are still read. *)
Theorem unreadable_file_is_skipped (insts : instrument_store)
    (before after : list (string * option SequenceManager.file_data))
    (file_name : string) (content : option SequenceManager.file_data)
    (instruments : list nat) (m0 : SequenceManager.t) :
  content = None \/ SequenceManager.endswith_json file_name = false ->
  SequenceManager.load_sequences insts (before ++ (file_name, content) :: after)
    instruments m0
  = SequenceManager.load_sequences insts (before ++ after) instruments m0.
Proof.
  intros Hskip. unfold SequenceManager.load_sequences. f_equal.
  rewrite !omap_app. f_equal. simpl.
  destruct Hskip as [-> | ->]; [destruct (SequenceManager.endswith_json file_name)|];
    reflexivity.
Qed.

Lemma unreadable_file_is_skipped_witness :
  let file := {| SequenceManager.sequence_data :=
                   ExperimentSequence.to_dict Examples.bench Examples.loop3;
                 SequenceManager.metadata := None;
                 SequenceManager.f_recurrence_type := None |} in
  SequenceManager.load_sequences Examples.bench
    [("a.json", Some file); ("b.json", None); ("notes.txt", Some file);
     ("c.json", Some file)]
    [0%nat; 1%nat] SequenceManager.init
  = SequenceManager.load_sequences Examples.bench
      [("a.json", Some file); ("c.json", Some file)] [0%nat; 1%nat] SequenceManager.init.
Proof.
  intros file.
  transitivity (SequenceManager.load_sequences Examples.bench
                  [("a.json", Some file); ("notes.txt", Some file); ("c.json", Some file)]
                  [0%nat; 1%nat] SequenceManager.init).
  - exact (unreadable_file_is_skipped Examples.bench [("a.json", Some file)]
             [("notes.txt", Some file); ("c.json", Some file)] "b.json" None
             [0%nat; 1%nat] SequenceManager.init (or_introl eq_refl)).
  - exact (unreadable_file_is_skipped Examples.bench [("a.json", Some file)]
             [("c.json", Some file)] "notes.txt" (Some file)
             [0%nat; 1%nat] SequenceManager.init (or_intror eq_refl)).
Defined.
